(** * prrompt: the commit analysis and branch-isolation protocol

    A shallow embedding of the post-commit hook tool ([processCommit],
    [analyzeCommit], [extractPrompts], [cleanup] and the configuration
    readers) over an abstract version-control gateway.  Every call of the
    Go function [runGit] becomes one step of a state monad that threads the
    repository, the text printed on standard output and the list of git
    commands issued so far.

    The repository holds three variants of the program.  The embedding
    follows the one the tests exercise, with the settings read from the
    git configuration; where the oldest variant differs on a point the
    specification speaks about, that part is embedded too, in [Legacy].  The
    install mode ([init], [installHook]) only writes the hook file and is
    left out. *)

From Stdlib Require Import String Ascii List Bool Arith Lia DecimalString.
Import ListNotations.
Local Open Scope list_scope.
Local Open Scope string_scope.

(* ================================================================== *)
(** ** The pieces of Go's [strings] and [fmt] packages the tool uses   *)
(* ================================================================== *)

Module GoStrings.

Definition byte (n : nat) : ascii := ascii_of_nat n.

(** "\n" *)
Definition nl : string := String (byte 10) "".

(** [strings.HasPrefix(s, prefix)] *)
Definition HasPrefix (s prefix : string) : bool := String.prefix prefix s.

(** [s[n:]] for [n <= len(s)] *)
Fixpoint drop (n : nat) (s : string) : string :=
  match n, s with
  | S k, String _ s' => drop k s'
  | _, _ => s
  end.

(** [s[:n]] for [n <= len(s)] *)
Definition take (n : nat) (s : string) : string := substring 0 n s.

(** [strings.TrimPrefix(s, prefix)] *)
Definition TrimPrefix (s prefix : string) : string :=
  if HasPrefix s prefix then drop (String.length prefix) s else s.

(** [strings.HasSuffix(s, suffix)] *)
Definition HasSuffix (s suffix : string) : bool :=
  (String.length suffix <=? String.length s)%nat
  && (drop (String.length s - String.length suffix) s =? suffix).

(** [strings.TrimSuffix(s, suffix)] *)
Definition TrimSuffix (s suffix : string) : string :=
  if HasSuffix s suffix
  then take (String.length s - String.length suffix) s
  else s.

(** [strings.Contains(s, substr)] *)
Fixpoint Contains (s substr : string) : bool :=
  HasPrefix s substr
  || match s with
     | "" => false
     | String _ s' => Contains s' substr
     end.

(** [strings.Split(s, sep)] for a non-empty [sep] (every call site passes
    a non-empty literal): cut at each leftmost, non-overlapping occurrence
    of [sep].  [skip] counts the bytes of a separator still to be passed
    over, [cur] is the piece being accumulated. *)
Fixpoint splitFrom (sep s : string) (skip : nat) (cur : string)
  : list string :=
  match s with
  | "" => [cur]
  | String c s' =>
      match skip with
      | S k => splitFrom sep s' k cur
      | O =>
          if HasPrefix s sep
          then cur :: splitFrom sep s' (String.length sep - 1) ""
          else splitFrom sep s' 0 (cur ++ String c "")
      end
  end.

Definition Split (s sep : string) : list string := splitFrom sep s 0 "".

(** [strings.Repeat(s, n)] *)
Fixpoint Repeat (s : string) (n : nat) : string :=
  match n with
  | O => ""
  | S k => s ++ Repeat s k
  end.

(** The verb [%d] of [fmt] on a non-negative [int]. *)
Definition itoa (n : nat) : string := NilEmpty.string_of_uint (Nat.to_uint n).

(** *** [strings.TrimSpace]

    Go trims every leading and trailing rune with Unicode's White_Space
    property.  On the UTF-8 bytes of the string these are the six ASCII
    bytes below, the two-byte encodings of U+0085 and U+00A0 and the
    three-byte encodings of U+1680, U+2000..U+200A, U+2028, U+2029,
    U+202F, U+205F and U+3000. *)

Definition space1 (c : ascii) : bool :=
  let n := nat_of_ascii c in
  (((9 <=? n) && (n <=? 13)) || (n =? 32))%nat.

Definition space2 (c1 c2 : ascii) : bool :=
  ((nat_of_ascii c1 =? 194)
   && ((nat_of_ascii c2 =? 133) || (nat_of_ascii c2 =? 160)))%nat.

Definition space3 (c1 c2 c3 : ascii) : bool :=
  let a := nat_of_ascii c1 in
  let b := nat_of_ascii c2 in
  let c := nat_of_ascii c3 in
  (((a =? 225) && (b =? 154) && (c =? 128))
   || ((a =? 226) && (b =? 128)
       && (((128 <=? c) && (c <=? 138)) || (c =? 168) || (c =? 169)
           || (c =? 175)))
   || ((a =? 226) && (b =? 129) && (c =? 159))
   || ((a =? 227) && (b =? 128) && (c =? 128)))%nat.

(** Strip white-space runes from the front; [p2] and [p3] receive the
    bytes in the order they are met, so that the same function serves
    for the reversed string. *)
Fixpoint stripFront (p2 : ascii -> ascii -> bool)
         (p3 : ascii -> ascii -> ascii -> bool) (s : string) : string :=
  match s with
  | "" => ""
  | String c1 s1 =>
      if space1 c1 then stripFront p2 p3 s1
      else
        match s1 with
        | "" => s
        | String c2 s2 =>
            if p2 c1 c2 then stripFront p2 p3 s2
            else
              match s2 with
              | "" => s
              | String c3 s3 =>
                  if p3 c1 c2 c3 then stripFront p2 p3 s3 else s
              end
        end
  end.

Fixpoint revOnto (s acc : string) : string :=
  match s with
  | "" => acc
  | String c s' => revOnto s' (String c acc)
  end.

Definition reverse (s : string) : string := revOnto s "".

Definition TrimLeftSpace (s : string) : string := stripFront space2 space3 s.

Definition TrimRightSpace (s : string) : string :=
  reverse (stripFront (fun c2 c1 => space2 c1 c2)
                      (fun c3 c2 c1 => space3 c1 c2 c3)
                      (reverse s)).

Definition TrimSpace (s : string) : string :=
  TrimRightSpace (TrimLeftSpace s).

End GoStrings.
Import GoStrings.

(* ================================================================== *)
(** ** Go errors                                                       *)
(* ================================================================== *)

(** An [error] is either the one a failed process returns or one built by
    [fmt.Errorf(prefix + "%w", inner)], which wraps [inner]. *)
Inductive error : Type :=
| ProcessError (msg : string)
| Errorf (prefix : string) (inner : error).

(** [err.Error()] *)
Fixpoint Error (e : error) : string :=
  match e with
  | ProcessError msg => msg
  | Errorf prefix inner => prefix ++ Error inner
  end.

(** The innermost error of a chain of [%w] wrappings. *)
Fixpoint rootCause (e : error) : error :=
  match e with
  | ProcessError _ => e
  | Errorf _ inner => rootCause inner
  end.

(* ================================================================== *)
(** ** The git commands the tool issues                                *)
(* ================================================================== *)

Inductive GitCmd : Type :=
| ConfigGet (key : string)
| CurrentBranch
| LogMessage (sha : string)
| DiffTree (sha : string)
| CheckoutNew (branch base : string)
| CherryPickNoCommit (sha : string)
| CherryPickAbort
| RestoreStaged (file : string)
| RestoreWorktree (file : string)
| Commit (msg : string)
| Push (branch : string)
| Checkout (branch : string)
| CheckoutForce (branch : string)
| BranchDelete (branch : string).

(** The argument vector handed to [exec.Command("git", args...)]. *)
Definition argv (c : GitCmd) : list string :=
  match c with
  | ConfigGet key => ["config"; "--get"; key]
  | CurrentBranch => ["rev-parse"; "--abbrev-ref"; "HEAD"]
  | LogMessage sha => ["log"; "--format=%B"; "-n"; "1"; sha]
  | DiffTree sha => ["diff-tree"; "--no-commit-id"; "--name-only"; "-r"; sha]
  | CheckoutNew branch base => ["checkout"; "-b"; branch; base]
  | CherryPickNoCommit sha => ["cherry-pick"; sha; "--no-commit"]
  | CherryPickAbort => ["cherry-pick"; "--abort"]
  | RestoreStaged file => ["restore"; "--staged"; file]
  | RestoreWorktree file => ["restore"; file]
  | Commit msg => ["commit"; "-m"; msg]
  | Push branch => ["push"; "origin"; branch; "-u"]
  | Checkout branch => ["checkout"; branch]
  | CheckoutForce branch => ["checkout"; "-f"; branch]
  | BranchDelete branch => ["branch"; "-D"; branch]
  end.

(** The commands that only read the repository. *)
Definition isQuery (c : GitCmd) : bool :=
  match c with
  | ConfigGet _ | CurrentBranch | LogMessage _ | DiffTree _ => true
  | _ => false
  end.

(** The commands of the compensating sequence. *)
Definition isCleanup (c : GitCmd) : bool :=
  match c with
  | CherryPickAbort | Checkout _ | BranchDelete _ => true
  | _ => false
  end.

(** What [cmd.CombinedOutput()] returns: the raw output and the error. *)
Definition Reply : Type := string * option error.

(** The version-control gateway: a repository state, the effect of running
    one git command on it, and what a specification may observe of it. *)
Record Gateway : Type := {
  Repo : Type;
  git : GitCmd -> Repo -> Reply * Repo;
  branches : Repo -> list string;   (* the local branches *)
  staged : Repo -> list string;     (* the paths the next commit records *)
  worktree : Repo -> list string    (* the paths with uncommitted content on disk *)
}.

(* ================================================================== *)
(** ** The monad of the program                                        *)
(* ================================================================== *)

(** How a computation ends: with a value, by [os.Exit(code)], or by a
    run-time panic. *)
Inductive outcome (A : Type) : Type :=
| Ret (a : A)
| Exit (code : nat)
| Panic (msg : string).
Arguments Ret {A} a.
Arguments Exit {A} code.
Arguments Panic {A} msg.

Section Program.

Context {G : Gateway}.

Record World : Type := mkWorld {
  repo : Repo G;
  stdout : list string;     (* one entry per print call, oldest first *)
  trace : list GitCmd       (* the commands issued, oldest first *)
}.

Definition M (A : Type) : Type := World -> outcome A * World.

Definition ret {A} (a : A) : M A := fun w => (Ret a, w).

Definition bind {A B} (m : M A) (f : A -> M B) : M B :=
  fun w =>
    match m w with
    | (Ret a, w') => f a w'
    | (Exit code, w') => (Exit code, w')
    | (Panic msg, w') => (Panic msg, w')
    end.

Definition print (s : string) : M unit :=
  fun w => (Ret tt, mkWorld (repo w) (stdout w ++ [s])%list (trace w)).

Definition osExit {A} (code : nat) : M A := fun w => (Exit code, w).

Definition panic {A} (msg : string) : M A := fun w => (Panic msg, w).

End Program.

Arguments World G : clear implicits.
Arguments M G A : clear implicits.

Declare Scope go_scope.
Delimit Scope go_scope with go.
Notation "x <- m ;; k" := (bind m (fun x => k))
  (at level 61, m at next level, right associativity) : go_scope.
Notation "' pat <- m ;; k" :=
  (bind m (fun x => match x with pat => k end))
  (at level 61, pat pattern, m at next level, right associativity) : go_scope.
Notation "m ;;; k" := (bind m (fun _ => k))
  (at level 61, right associativity) : go_scope.
Local Open Scope go_scope.

(* ================================================================== *)
(** ** The tool                                                        *)
(* ================================================================== *)

Definition toolName : string := "prrompt".

Definition defaultCommitPrefix : string := "prompt".
Definition defaultBranchPrefix : string := "skill-update".
Definition defaultBaseBranch : string := "main".

Definition defaultPromptPatterns : list string :=
  [".claude/skills/"; "prompts/"].

Record CommitInfo : Type := mkCommitInfo {
  SHA : string;
  Message : string;
  PromptFiles : list string;
  OtherFiles : list string;
  IsMixed : bool;
  SourceBranch : string
}.

(** The loop of [getPromptPatterns] over the comma-separated entries. *)
Fixpoint trimmedEntries (patterns : list string) : list string :=
  match patterns with
  | [] => []
  | pattern :: rest =>
      let pattern := TrimSpace pattern in
      if pattern =? "" then trimmedEntries rest
      else pattern :: trimmedEntries rest
  end.

(** The loop of [isPromptFile] over the patterns. *)
Fixpoint matchesAny (patterns : list string) (path : string) : bool :=
  match patterns with
  | [] => false
  | pattern :: rest =>
      if HasPrefix path pattern then true else matchesAny rest path
  end.

(** [s[:n]], which panics when [n] exceeds the length of [s]. *)
Definition sliceTo {G : Gateway} (s : string) (n : nat) : M G string :=
  if (n <=? String.length s)%nat then ret (take n s)
  else panic ("runtime error: slice bounds out of range [:" ++ itoa n
              ++ "] with length " ++ itoa (String.length s)).

Definition truncate (s : string) (maxLen : nat) : string :=
  if (String.length s <=? maxLen)%nat then s else take maxLen s ++ "...".

(** The commit message of the extraction commit (lines 209-212). *)
Definition commitMessage (commitPrefix : string) (info : CommitInfo)
           (shortSHA : string) : string :=
  let commitMsg := "[" ++ commitPrefix ++ "] " ++ Message info in
  if IsMixed info
  then commitMsg ++ nl ++ nl ++ "Extracted from " ++ SourceBranch info
                 ++ " (" ++ shortSHA ++ ")"
  else commitMsg.

Section Tool.

Context {G : Gateway}.

Definition runGit (c : GitCmd) : M G (string * option error) :=
  fun w =>
    let '((output, err), r) := git G c (repo w) in
    (Ret (TrimSpace output, err),
     mkWorld r (stdout w) (trace w ++ [c])%list).

(** A configuration key read as a single string with a default. *)
Definition getCommitPrefix : M G string :=
  '(value, err) <- runGit (ConfigGet "prrompt.commitPrefix");;
  match err with
  | Some _ => ret defaultCommitPrefix
  | None => if value =? "" then ret defaultCommitPrefix else ret value
  end.

Definition getBranchPrefix : M G string :=
  '(value, err) <- runGit (ConfigGet "prrompt.branchPrefix");;
  match err with
  | Some _ => ret defaultBranchPrefix
  | None => if value =? "" then ret defaultBranchPrefix else ret value
  end.

Definition getBaseBranch : M G string :=
  '(value, err) <- runGit (ConfigGet "prrompt.baseBranch");;
  match err with
  | Some _ => ret defaultBaseBranch
  | None => if value =? "" then ret defaultBaseBranch else ret value
  end.

Definition getPromptPatterns : M G (list string) :=
  '(value, err) <- runGit (ConfigGet "prrompt.promptPatterns");;
  match err with
  | Some _ => ret defaultPromptPatterns
  | None =>
      if value =? "" then ret defaultPromptPatterns
      else
        let result := trimmedEntries (Split value ",") in
        if (List.length result =? 0)%nat then ret defaultPromptPatterns
        else ret result
  end.

Definition isPromptFile (path : string) : M G bool :=
  patterns <- getPromptPatterns;;
  ret (matchesAny patterns path).

(** The loop of [analyzeCommit] over the lines of the changed-file list. *)
Fixpoint classifyFiles (files : list string) (info : CommitInfo)
  : M G CommitInfo :=
  match files with
  | [] => ret info
  | file :: rest =>
      let file := TrimSpace file in
      if file =? "" then classifyFiles rest info
      else
        isPrompt <- isPromptFile file;;
        if isPrompt
        then classifyFiles rest
               (mkCommitInfo (SHA info) (Message info)
                             (PromptFiles info ++ [file])%list (OtherFiles info)
                             (IsMixed info) (SourceBranch info))
        else classifyFiles rest
               (mkCommitInfo (SHA info) (Message info)
                             (PromptFiles info) (OtherFiles info ++ [file])%list
                             (IsMixed info) (SourceBranch info))
  end.

Definition analyzeCommit (sha : string) : M G (CommitInfo + error) :=
  '(commitMessage, err) <- runGit (LogMessage sha);;
  match err with
  | Some e => ret (inr (Errorf "failed to get commit message: " e))
  | None =>
      '(currentBranch, err) <- runGit CurrentBranch;;
      match err with
      | Some e => ret (inr (Errorf "failed to get current branch: " e))
      | None =>
          '(changedFiles, err) <- runGit (DiffTree sha);;
          match err with
          | Some e => ret (inr (Errorf "failed to get changed files: " e))
          | None =>
              info <- classifyFiles (Split changedFiles nl)
                        (mkCommitInfo sha commitMessage [] [] false
                                      currentBranch);;
              ret (inl (mkCommitInfo (SHA info) (Message info)
                          (PromptFiles info) (OtherFiles info)
                          (0 <? List.length (OtherFiles info))%nat
                          (SourceBranch info)))
          end
      end
  end.

Definition cleanup (originalBranch skillBranch : string) : M G unit :=
  runGit CherryPickAbort;;;
  runGit (Checkout originalBranch);;;
  runGit (BranchDelete skillBranch);;;
  ret tt.

Definition generatePRURL (branch : string) : M G string :=
  '(remoteURL, err) <- runGit (ConfigGet "remote.origin.url");;
  match err with
  | Some _ => ret ("Create PR manually for branch: " ++ branch)
  | None =>
      let repoPath :=
        if HasPrefix remoteURL "git@github.com:"
        then TrimSuffix (TrimPrefix remoteURL "git@github.com:") ".git"
        else if Contains remoteURL "github.com/"
        then
          let parts := Split remoteURL "github.com/" in
          if (List.length parts =? 2)%nat
          then TrimSuffix (nth 1 parts "") ".git"
          else ""
        else "" in
      if repoPath =? "" then ret ("Create PR manually for branch: " ++ branch)
      else
        baseBranch <- getBaseBranch;;
        ret ("https://github.com/" ++ repoPath ++ "/compare/" ++ baseBranch
             ++ "..." ++ branch ++ "?expand=1")
  end.

(** The loop of [extractPrompts] that unstages the non-prompt files; the
    result of each command is discarded. *)
Fixpoint unstageAll (files : list string) : M G unit :=
  match files with
  | [] => ret tt
  | file :: rest => runGit (RestoreStaged file);;; unstageAll rest
  end.

(** [extractPrompts], lines 178-192: the short SHA, the branch name, the
    banner and the creation of the branch from the base branch.  Returns
    [shortSHA], [promptBranch] and the error of the creation. *)
Definition createBranch (info : CommitInfo)
  : M G (string * string * option error) :=
  shortSHA <- sliceTo (SHA info) 7;;
  branchPrefix <- getBranchPrefix;;
  let promptBranch := branchPrefix ++ "/" ++ shortSHA in
  print (nl ++ Repeat "=" 60 ++ nl);;;
  print ("Processing commit: " ++ shortSHA ++ nl);;;
  print ("Message: " ++ truncate (Message info) 60 ++ nl);;;
  print ("Prompt files: " ++ itoa (List.length (PromptFiles info)) ++ nl);;;
  print ("Other files: " ++ itoa (List.length (OtherFiles info)) ++ nl);;;
  print (Repeat "=" 60 ++ nl);;;
  print (nl ++ "Creating branch: " ++ promptBranch ++ nl);;;
  baseBranch <- getBaseBranch;;
  '(_, err) <- runGit (CheckoutNew promptBranch baseBranch);;
  ret (shortSHA, promptBranch, err).

(** [extractPrompts], lines 194-196: the cherry-pick without commit. *)
Definition cherryPick (info : CommitInfo) (shortSHA : string)
  : M G (option error) :=
  print ("Cherry-picking commit " ++ shortSHA ++ "..." ++ nl);;;
  '(_, err) <- runGit (CherryPickNoCommit (SHA info));;
  ret err.

(** [extractPrompts], lines 201-212: the non-prompt files of a mixed commit
    are unstaged, then the commit message is built. *)
Definition prepareCommit (info : CommitInfo) (shortSHA : string)
  : M G string :=
  (if IsMixed info then unstageAll (OtherFiles info) else ret tt);;;
  commitPrefix <- getCommitPrefix;;
  ret (commitMessage commitPrefix info shortSHA).

(** [extractPrompts], lines 220-239: push, return to the source branch and
    report. *)
Definition publish (info : CommitInfo) (promptBranch : string)
  : M G (option error) :=
  print ("✓ Created skill branch: " ++ promptBranch ++ nl);;;
  '(_, err) <- runGit (Push promptBranch);;
  match err with
  | Some e =>
      print ("Warning: failed to push (you may need to push manually): "
             ++ Error e ++ nl)
  | None => print ("✓ Pushed to origin/" ++ promptBranch ++ nl)
  end;;;
  '(_, err) <- runGit (CheckoutForce (SourceBranch info));;
  match err with
  | Some e => ret (Some (Errorf "failed to return to original branch: " e))
  | None =>
      prURL <- generatePRURL promptBranch;;
      print (nl ++ "✓ Skill extraction complete!" ++ nl);;;
      print (nl ++ "Create PR: " ++ prURL ++ nl ++ nl);;;
      ret None
  end.

(** [extractPrompts] as a whole: the four parts above, the commit (lines
    214-218) and the two calls of [cleanup]. *)
Definition extractPrompts (info : CommitInfo) : M G (option error) :=
  '(shortSHA, promptBranch, err) <- createBranch info;;
  match err with
  | Some e => ret (Some (Errorf "failed to create branch: " e))
  | None =>
      err <- cherryPick info shortSHA;;
      match err with
      | Some e =>
          cleanup (SourceBranch info) promptBranch;;;
          ret (Some (Errorf "failed to cherry-pick: " e))
      | None =>
          commitMsg <- prepareCommit info shortSHA;;
          '(_, err) <- runGit (Commit commitMsg);;
          match err with
          | Some e =>
              cleanup (SourceBranch info) promptBranch;;;
              ret (Some (Errorf "failed to commit: " e))
          | None => publish info promptBranch
          end
      end
  end.

(** The condition of the entry guard of [processCommit] (lines 88-89):
    the prefix is read only when the current branch could be read. *)
Definition onPromptBranch : M G bool :=
  '(currentBranch, err) <- runGit CurrentBranch;;
  match err with
  | None =>
      branchPrefix <- getBranchPrefix;;
      ret (HasPrefix currentBranch (branchPrefix ++ "/"))
  | Some _ => ret false
  end.

Definition processCommit (commitSHA : string) : M G (option error) :=
  skip <- onPromptBranch;;
  if skip then ret None
  else
    analysis <- analyzeCommit commitSHA;;
    match analysis with
    | inr e => ret (Some (Errorf "error analyzing commit: " e))
    | inl commitInfo =>
        if (List.length (PromptFiles commitInfo) =? 0)%nat then ret None
        else
          err <- extractPrompts commitInfo;;
          match err with
          | Some e => ret (Some (Errorf "error extracting prompts: " e))
          | None => ret None
          end
    end.

(** [main], with [args] standing for [os.Args]. *)
Definition main (args : list string) : M G unit :=
  if (List.length args <? 2)%nat
  then
    print ("Usage: " ++ toolName ++ " <commit-sha>" ++ nl);;;
    print ("This tool is meant to be run as a git post-commit hook" ++ nl);;;
    osExit 1
  else
    let commitSHA := nth 1 args "" in
    err <- processCommit commitSHA;;
    match err with
    | Some e => print (Error e ++ nl);;; osExit 1
    | None => ret tt
    end.

(** The exit status of the process. *)
Definition exitStatus {A} (o : outcome A) : nat :=
  match o with
  | Ret _ => 0
  | Exit code => code
  | Panic _ => 2
  end.

End Tool.

(* ================================================================== *)
(** ** The older variant                                               *)
(* ================================================================== *)

(** [src/prrompt.go] holds an older variant of the program
    ([extractSkills]) with fixed settings.  Between the cherry-pick and the
    commit (lines 150-164) it differs from [extractPrompts]: each non-skill
    file is unstaged and then restored in the working tree, and the message
    starts with "skill: ". *)
Module Legacy.

Section Variant.

Context {G : Gateway}.

(** The loop of lines 153-157. *)
Fixpoint removeAll (files : list string) : M G unit :=
  match files with
  | [] => ret tt
  | file :: rest =>
      print ("  Removing: " ++ file ++ nl);;;
      runGit (RestoreStaged file);;;
      runGit (RestoreWorktree file);;;
      removeAll rest
  end.

(** Lines 150-164. *)
Definition prepareCommit (info : CommitInfo) (shortSHA : string)
  : M G string :=
  (if IsMixed info
   then
     print ("Mixed commit detected - extracting only skill files..." ++ nl);;;
     removeAll (OtherFiles info)
   else ret tt);;;
  let commitMsg := "skill: " ++ Message info in
  if IsMixed info
  then ret (commitMsg ++ nl ++ nl ++ "Extracted from " ++ SourceBranch info
                      ++ " (" ++ shortSHA ++ ")")
  else ret commitMsg.

End Variant.

End Legacy.

(* ================================================================== *)
(** ** What the tool relies on from git                                *)
(* ================================================================== *)

Section Observations.

Context {G : Gateway}.

(** The error and the next repository of one command. *)
Definition gitErr (c : GitCmd) (r : Repo G) : option error :=
  snd (fst (git G c r)).

Definition gitNext (c : GitCmd) (r : Repo G) : Repo G := snd (git G c r).

(** The world after one git command. *)
Definition after (c : GitCmd) (w : World G) : World G :=
  mkWorld (gitNext c (repo w)) (stdout w) (trace w ++ [c])%list.

(** The world after one print. *)
Definition printed (s : string) (w : World G) : World G :=
  mkWorld (repo w) (stdout w ++ [s])%list (trace w).

(** The value a configuration key holds in repository [r], if the key is
    set to a non-empty value. *)
Definition configured (key : string) (r : Repo G) : option string :=
  match git G (ConfigGet key) r with
  | ((output, None), _) =>
      if TrimSpace output =? "" then None else Some (TrimSpace output)
  | ((_, Some _), _) => None
  end.

(** The name of the branch checked out in repository [r], when git can
    tell it. *)
Definition branchName (r : Repo G) : option string :=
  match git G CurrentBranch r with
  | ((output, None), _) => Some (TrimSpace output)
  | ((_, Some _), _) => None
  end.

(** The patterns in force in repository [r]: the configured list when it
    has an entry, the defaults otherwise. *)
Definition patternsIn (r : Repo G) : list string :=
  match configured "prrompt.promptPatterns" r with
  | None => defaultPromptPatterns
  | Some value =>
      match trimmedEntries (Split value ",") with
      | [] => defaultPromptPatterns
      | result => result
      end
  end.

(** The value of a single-valued key, with its default. *)
Definition valueOr (key default : string) (r : Repo G) : string :=
  match configured key r with
  | Some value => value
  | None => default
  end.

(** Every one of the unstage commands of the loop succeeds, starting in
    repository [r]. *)
Fixpoint unstagesOk (files : list string) (r : Repo G) : Prop :=
  match files with
  | [] => True
  | file :: rest =>
      gitErr (RestoreStaged file) r = None
      /\ unstagesOk rest (gitNext (RestoreStaged file) r)
  end.

(** The properties of git the tool relies on. *)
Record GitLaws : Prop := {
  (* a query leaves the repository as it is *)
  query_pure : forall c r, isQuery c = true -> gitNext c r = r;
  (* a successful creation adds the branch *)
  create_adds : forall b base r,
      gitErr (CheckoutNew b base) r = None ->
      In b (branches G (gitNext (CheckoutNew b base) r));
  (* a successful deletion removes the branch *)
  delete_removes : forall b r,
      gitErr (BranchDelete b) r = None ->
      ~ In b (branches G (gitNext (BranchDelete b) r));
  (* only creation and deletion change the set of branches *)
  branches_frame : forall c r,
      match c with
      | CheckoutNew _ _ | BranchDelete _ => True
      | _ => branches G (gitNext c r) = branches G r
      end;
  (* unstaging never stages anything, and unstages the path on success *)
  unstage_staged : forall f r p,
      In p (staged G (gitNext (RestoreStaged f) r)) ->
      In p (staged G r) /\ (gitErr (RestoreStaged f) r = None -> p <> f);
  (* unstaging keeps every other staged path *)
  unstage_others : forall f r p,
      In p (staged G r) -> p <> f ->
      In p (staged G (gitNext (RestoreStaged f) r));
  (* unstaging leaves the files on disk *)
  unstage_worktree : forall f r p,
      In p (worktree G (gitNext (RestoreStaged f) r)) <-> In p (worktree G r)
}.

(** What the first part of an extraction prints (lines 181-189). *)
Definition banner (info : CommitInfo) (shortSHA promptBranch : string)
  : list string :=
  [nl ++ Repeat "=" 60 ++ nl;
   "Processing commit: " ++ shortSHA ++ nl;
   "Message: " ++ truncate (Message info) 60 ++ nl;
   "Prompt files: " ++ itoa (List.length (PromptFiles info)) ++ nl;
   "Other files: " ++ itoa (List.length (OtherFiles info)) ++ nl;
   Repeat "=" 60 ++ nl;
   nl ++ "Creating branch: " ++ promptBranch ++ nl].

(** The text of the panic of [s[:7]] on a string of [n] bytes. *)
Definition sliceFailure (n : nat) : string :=
  "runtime error: slice bounds out of range [:7] with length " ++ itoa n.

(** A computation that always returns, issuing only queries and printing
    nothing; under the laws it leaves the repository as it found it. *)
Definition ReadOnly {A} (m : M G A) : Prop :=
  forall w, exists a w' t,
    m w = (Ret a, w')
    /\ trace w' = (trace w ++ t)%list
    /\ Forall (fun c => isQuery c = true) t
    /\ stdout w' = stdout w
    /\ (GitLaws -> repo w' = repo w).

(** A computation that always returns and only adds to the commands
    issued. *)
Definition Total {A} (m : M G A) : Prop :=
  forall w, exists a w' t,
    m w = (Ret a, w') /\ trace w' = (trace w ++ t)%list.

(** The points at which an extraction fails after its branch was created:
    [w1] is the world once the branch exists, [wf] the world right after
    the command that failed with [e]; [prefix] is the text the tool puts
    before the error. *)
Inductive FailsAfterCreation (info : CommitInfo) (shortSHA : string)
          (w1 : World G) : string -> error -> World G -> Prop :=
| cherry_pick_fails e wf :
    cherryPick info shortSHA w1 = (Ret (Some e), wf) ->
    FailsAfterCreation info shortSHA w1 "failed to cherry-pick: " e wf
| commit_fails w2 commitMsg w3 e :
    cherryPick info shortSHA w1 = (Ret None, w2) ->
    prepareCommit info shortSHA w2 = (Ret commitMsg, w3) ->
    gitErr (Commit commitMsg) (repo w3) = Some e ->
    FailsAfterCreation info shortSHA w1 "failed to commit: " e
                       (after (Commit commitMsg) w3).

(** The extraction commit was made: [w1] is the world once the branch
    exists, [w4] the world right after the successful commit of
    [commitMsg]. *)
Inductive Committed (info : CommitInfo) (shortSHA : string) (w1 : World G)
  : string -> World G -> Prop :=
| committed w2 commitMsg w3 :
    cherryPick info shortSHA w1 = (Ret None, w2) ->
    prepareCommit info shortSHA w2 = (Ret commitMsg, w3) ->
    gitErr (Commit commitMsg) (repo w3) = None ->
    Committed info shortSHA w1 commitMsg (after (Commit commitMsg) w3).

(** The world in which [cleanup] ends when started in [wf]. *)
Definition cleanedUp (originalBranch skillBranch : string) (wf : World G)
  : World G :=
  after (BranchDelete skillBranch)
        (after (Checkout originalBranch) (after CherryPickAbort wf)).

End Observations.

Arguments GitLaws G : clear implicits.

(** The paths the classification keeps: the entries trimmed, the blank ones
    dropped. *)
Definition keptPaths (files : list string) : list string :=
  filter (fun file => negb (file =? "")) (map TrimSpace files).

(** The classification as the specification words it: blank entries are
    discarded, every remaining entry is placed as it stands according to
    the prefix test. *)
Definition classifyAsWorded (patterns files : list string)
  : list string * list string :=
  let remaining := filter (fun file => negb (TrimSpace file =? "")) files in
  (filter (matchesAny patterns) remaining,
   filter (fun file => negb (matchesAny patterns file)) remaining).

(* ================================================================== *)
(** ** A reference gateway                                             *)
(* ================================================================== *)

(** A small repository on which the tool can be run: branches with the
    paths they have committed, a table of commits, an index, the untracked
    files on disk and the remote.  It implements the commands of [GitCmd]
    with the effects the tool relies on. *)
Module SimGit.

Record State : Type := mkState {
  head : string;                                  (* the branch checked out *)
  heads : list (string * list string);            (* branch, committed paths *)
  config : list (string * string);
  commits : list (string * (string * list string)); (* id, message, paths *)
  index : list string;                            (* staged paths *)
  untracked : list string;                        (* unstaged files on disk *)
  remote : list string;                           (* branches on origin *)
  messages : list (string * string);              (* branch, message committed *)
  conflicting : list string;                      (* commits that do not apply *)
  hookRejects : bool;                             (* a hook refuses commits *)
  offline : bool                                  (* origin is unreachable *)
}.

Fixpoint lookup {A} (k : string) (l : list (string * A)) : option A :=
  match l with
  | [] => None
  | (k', v) :: rest => if k =? k' then Some v else lookup k rest
  end.

Definition mem (x : string) (l : list string) : bool :=
  existsb (String.eqb x) l.

Definition without (x : string) (l : list string) : list string :=
  filter (fun y => negb (y =? x)) l.

Fixpoint lines (l : list string) : string :=
  match l with
  | [] => ""
  | x :: rest => x ++ nl ++ lines rest
  end.

Definition failed (output : string) (status : nat) : Reply :=
  (output ++ nl, Some (ProcessError ("exit status " ++ itoa status))).

Definition ok (output : string) : Reply := (output, None).

Definition exec (c : GitCmd) (s : State) : Reply * State :=
  match c with
  | ConfigGet key =>
      match lookup key (config s) with
      | Some v => (ok (v ++ nl), s)
      | None => (failed "" 1, s)
      end
  | CurrentBranch => (ok (head s ++ nl), s)
  | LogMessage sha =>
      match lookup sha (commits s) with
      | Some (msg, _) => (ok (msg ++ nl ++ nl), s)
      | None => (failed ("fatal: bad revision '" ++ sha ++ "'") 128, s)
      end
  | DiffTree sha =>
      match lookup sha (commits s) with
      | Some (_, paths) => (ok (lines paths), s)
      | None => (failed ("fatal: bad object " ++ sha) 128, s)
      end
  | CheckoutNew b base =>
      match lookup b (heads s), lookup base (heads s) with
      | None, Some tree =>
          (ok ("Switched to a new branch '" ++ b ++ "'" ++ nl),
           mkState b ((b, tree) :: heads s) (config s) (commits s) (index s)
                   (untracked s) (remote s) (messages s) (conflicting s)
                   (hookRejects s) (offline s))
      | Some _, _ =>
          (failed ("fatal: a branch named '" ++ b ++ "' already exists") 128, s)
      | None, None =>
          (failed ("fatal: '" ++ base ++ "' is not a commit") 128, s)
      end
  | CherryPickNoCommit sha =>
      match lookup sha (commits s) with
      | Some (_, paths) =>
          if mem sha (conflicting s)
          then (failed "error: could not apply the commit" 1, s)
          else
            (ok "",
             mkState (head s) (heads s) (config s) (commits s)
                     (index s ++ paths)%list (untracked s) (remote s)
                     (messages s) (conflicting s) (hookRejects s) (offline s))
      | None => (failed ("fatal: bad revision '" ++ sha ++ "'") 128, s)
      end
  | CherryPickAbort =>
      (* a cherry-pick without commit leaves none in progress *)
      (failed "error: no cherry-pick or revert in progress" 128, s)
  | RestoreStaged f =>
      if mem f (index s)
      then
        (ok "",
         mkState (head s) (heads s) (config s) (commits s)
                 (without f (index s)) (untracked s ++ [f])%list (remote s)
                 (messages s) (conflicting s) (hookRejects s) (offline s))
      else (failed ("error: pathspec '" ++ f ++ "' did not match") 1, s)
  | RestoreWorktree f =>
      (* an untracked file is unknown to git *)
      (failed ("error: pathspec '" ++ f ++ "' did not match") 1, s)
  | Commit msg =>
      if hookRejects s then (failed "commit rejected by hook" 1, s)
      else
        match index s, lookup (head s) (heads s) with
        | [], _ => (failed "nothing to commit" 1, s)
        | _, None => (failed "fatal: no branch" 128, s)
        | _ :: _, Some _ =>
            (ok "",
             mkState (head s)
                     (map (fun bt =>
                             if fst bt =? head s
                             then (fst bt, (snd bt ++ index s)%list)
                             else bt) (heads s))
                     (config s) (commits s) [] (untracked s) (remote s)
                     ((head s, msg) :: messages s) (conflicting s)
                     (hookRejects s) (offline s))
        end
  | Push b =>
      if offline s then (failed "fatal: unable to access origin" 128, s)
      else
        match lookup b (heads s) with
        | Some _ =>
            (ok "",
             mkState (head s) (heads s) (config s) (commits s) (index s)
                     (untracked s) (b :: remote s) (messages s)
                     (conflicting s) (hookRejects s) (offline s))
        | None => (failed "error: src refspec does not match any" 1, s)
        end
  | Checkout b =>
      match lookup b (heads s) with
      | Some tree =>
          (* refused when an untracked file would be overwritten *)
          if existsb (fun f => mem f tree) (untracked s)
          then (failed "error: untracked working tree files would be overwritten" 1, s)
          else
            (ok "",
             mkState b (heads s) (config s) (commits s) (index s)
                     (untracked s) (remote s) (messages s) (conflicting s)
                     (hookRejects s) (offline s))
      | None => (failed ("error: pathspec '" ++ b ++ "' did not match") 1, s)
      end
  | CheckoutForce b =>
      match lookup b (heads s) with
      | Some tree =>
          (ok "",
           mkState b (heads s) (config s) (commits s) []
                   (filter (fun f => negb (mem f tree)) (untracked s))
                   (remote s) (messages s) (conflicting s) (hookRejects s)
                   (offline s))
      | None => (failed ("error: pathspec '" ++ b ++ "' did not match") 1, s)
      end
  | BranchDelete b =>
      if b =? head s
      then (failed ("error: Cannot delete branch '" ++ b ++ "' checked out") 1, s)
      else
        match lookup b (heads s) with
        | Some _ =>
            (ok "",
             mkState (head s) (filter (fun bt => negb (fst bt =? b)) (heads s))
                     (config s) (commits s) (index s) (untracked s) (remote s)
                     (messages s) (conflicting s) (hookRejects s) (offline s))
        | None => (failed ("error: branch '" ++ b ++ "' not found") 1, s)
        end
  end.

Definition gateway : Gateway := {|
  Repo := State;
  git := exec;
  branches := fun s => map fst (heads s);
  staged := index;
  worktree := fun s => (index s ++ untracked s)%list
|}.

(** A repository like the one of the tests: [main] with one initial commit,
    [feature-branch] checked out, and the commits below made on it. *)
Definition repository (history : list (string * (string * list string)))
           (conflicts : list string) (rejects off : bool) : State :=
  mkState "feature-branch"
          [("feature-branch", concat (map (fun c => snd (snd c)) history));
           ("main", [])]
          [] history [] [] [] [] conflicts rejects off.

(** The same repository with the given configuration. *)
Definition configure (settings : list (string * string)) (s : State) : State :=
  mkState (head s) (heads s) settings (commits s) (index s) (untracked s)
          (remote s) (messages s) (conflicting s) (hookRejects s) (offline s).

(** The settings of the test [Test_CustomConfig], the patterns written with
    blanks and an empty entry. *)
Definition customSettings : list (string * string) :=
  [("prrompt.commitPrefix", "custom-prefix");
   ("prrompt.branchPrefix", "custom-branch");
   ("prrompt.baseBranch", "main");
   ("prrompt.promptPatterns", "custom/prompts/, docs/prompts/ ,,")].

Definition customPrompt : string * (string * list string) :=
  ("6666666fffffff", ("Add prompt file", ["custom/prompts/test.md"])).

Definition start (s : State) : World gateway := mkWorld (G := gateway) s [] [].

(** The commits used below. *)
Definition promptOnly : string * (string * list string) :=
  ("1111111aaaaaaa", ("Add prompt file", [".claude/skills/test.md"])).

Definition mixed : string * (string * list string) :=
  ("2222222bbbbbbb", ("Add prompt and code", ["prompts/test.md"; "src/main.go"])).

Definition codeOnly : string * (string * list string) :=
  ("3333333ccccccc", ("Add code file", ["src/main.go"])).

Definition spaced : string * (string * list string) :=
  ("5555555eeeeeee", ("Add files", ["src/main.go"; " prompts/test.md"])).

Definition abbreviated : string * (string * list string) :=
  ("4444dd", ("Add prompt file", ["prompts/test.md"])).

End SimGit.

(* ================================================================== *)
(** ** The oldest variant as a whole                                   *)
(* ================================================================== *)

(** [src/prrompt.go]: the program under its first name, with the branch
    prefix, the base branch and the patterns fixed in the source.  Its
    [runGit], [cleanup] and [truncate] are those of the newer variant. *)
Module SkillExtractor.

Definition branchPrefix : string := "skill-update".
Definition baseBranch : string := "main".

Definition skillPatterns : list string := [".claude/skills/"; "prompts/"].

Record CommitInfo : Type := mkCommitInfo {
  SHA : string;
  Message : string;
  SkillFiles : list string;
  OtherFiles : list string;
  IsMixed : bool;
  SourceBranch : string
}.

Definition isSkillFile (path : string) : bool :=
  matchesAny skillPatterns path.

(** The loop of [analyzeCommit] (lines 104-114). *)
Fixpoint classifyFiles (files : list string) (info : CommitInfo)
  : CommitInfo :=
  match files with
  | [] => info
  | file :: rest =>
      let file := TrimSpace file in
      if file =? "" then classifyFiles rest info
      else if isSkillFile file
      then classifyFiles rest
             (mkCommitInfo (SHA info) (Message info)
                           (SkillFiles info ++ [file])%list (OtherFiles info)
                           (IsMixed info) (SourceBranch info))
      else classifyFiles rest
             (mkCommitInfo (SHA info) (Message info)
                           (SkillFiles info) (OtherFiles info ++ [file])%list
                           (IsMixed info) (SourceBranch info))
  end.

Section Program.

Context {G : Gateway}.

Definition analyzeCommit (sha : string) : M G (CommitInfo + error) :=
  '(msg, err) <- runGit (LogMessage sha);;
  match err with
  | Some e => ret (inr (Errorf "failed to get commit message: " e))
  | None =>
      '(branch, err) <- runGit CurrentBranch;;
      match err with
      | Some e => ret (inr (Errorf "failed to get current branch: " e))
      | None =>
          '(files, err) <- runGit (DiffTree sha);;
          match err with
          | Some e => ret (inr (Errorf "failed to get changed files: " e))
          | None =>
              let info :=
                classifyFiles (Split files nl)
                              (mkCommitInfo sha msg [] [] false branch) in
              ret (inl (mkCommitInfo (SHA info) (Message info)
                          (SkillFiles info) (OtherFiles info)
                          (0 <? List.length (OtherFiles info))%nat
                          (SourceBranch info)))
          end
      end
  end.

Definition generatePRURL (branch : string) : M G string :=
  '(remoteURL, err) <- runGit (ConfigGet "remote.origin.url");;
  match err with
  | Some _ => ret ("Create PR manually for branch: " ++ branch)
  | None =>
      let repoPath :=
        if HasPrefix remoteURL "git@github.com:"
        then TrimSuffix (TrimPrefix remoteURL "git@github.com:") ".git"
        else if Contains remoteURL "github.com/"
        then
          let parts := Split remoteURL "github.com/" in
          if (List.length parts =? 2)%nat
          then TrimSuffix (nth 1 parts "") ".git"
          else ""
        else "" in
      if repoPath =? "" then ret ("Create PR manually for branch: " ++ branch)
      else
        ret ("https://github.com/" ++ repoPath ++ "/compare/" ++ baseBranch
             ++ "..." ++ branch ++ "?expand=1")
  end.

(** The loop of [extractSkills] over the other files (lines 153-157). *)
Fixpoint removeOthers (files : list string) : M G unit :=
  match files with
  | [] => ret tt
  | file :: rest =>
      print ("  Removing: " ++ file ++ nl);;;
      runGit (RestoreStaged file);;;
      runGit (RestoreWorktree file);;;
      removeOthers rest
  end.

Definition extractSkills (info : CommitInfo) : M G (option error) :=
  shortSHA <- sliceTo (SHA info) 7;;
  let skillBranch := branchPrefix ++ "/" ++ shortSHA in
  print (nl ++ Repeat "=" 60 ++ nl);;;
  print ("Processing commit: " ++ shortSHA ++ nl);;;
  print ("Message: " ++ truncate (Message info) 60 ++ nl);;;
  print ("Skill files: " ++ itoa (List.length (SkillFiles info)) ++ nl);;;
  print ("Other files: " ++ itoa (List.length (OtherFiles info)) ++ nl);;;
  (if IsMixed info then print ("Type: MIXED" ++ nl)
   else print ("Type: SKILL-ONLY" ++ nl));;;
  print (Repeat "=" 60 ++ nl);;;
  print (nl ++ "Creating branch: " ++ skillBranch ++ nl);;;
  '(_, err) <- runGit (CheckoutNew skillBranch baseBranch);;
  match err with
  | Some e => ret (Some (Errorf "failed to create branch: " e))
  | None =>
      print ("Cherry-picking commit " ++ shortSHA ++ "..." ++ nl);;;
      '(_, err) <- runGit (CherryPickNoCommit (SHA info));;
      match err with
      | Some e =>
          cleanup (SourceBranch info) skillBranch;;;
          ret (Some (Errorf "failed to cherry-pick: " e))
      | None =>
          (if IsMixed info
           then
             print ("Mixed commit detected - extracting only skill files..."
                    ++ nl);;;
             removeOthers (OtherFiles info)
           else ret tt);;;
          let commitMsg := "skill: " ++ Message info in
          let commitMsg :=
            if IsMixed info
            then commitMsg ++ nl ++ nl ++ "Extracted from "
                           ++ SourceBranch info ++ " (" ++ shortSHA ++ ")"
            else commitMsg in
          '(_, err) <- runGit (Commit commitMsg);;
          match err with
          | Some e =>
              cleanup (SourceBranch info) skillBranch;;;
              ret (Some (Errorf "failed to commit: " e))
          | None =>
              print ("✓ Created skill branch: " ++ skillBranch ++ nl);;;
              print ("Pushing to origin..." ++ nl);;;
              '(_, err) <- runGit (Push skillBranch);;
              match err with
              | Some e =>
                  print ("Warning: failed to push (you may need to push manually): "
                         ++ Error e ++ nl)
              | None => print ("✓ Pushed to origin/" ++ skillBranch ++ nl)
              end;;;
              '(_, err) <- runGit (Checkout (SourceBranch info));;
              match err with
              | Some e =>
                  ret (Some (Errorf "failed to return to original branch: " e))
              | None =>
                  prURL <- generatePRURL skillBranch;;
                  print (nl ++ "✓ Skill extraction complete!" ++ nl);;;
                  print (nl ++ "Create PR: " ++ prURL ++ nl ++ nl);;;
                  ret None
              end
          end
      end
  end.

(** [main], with [args] standing for [os.Args]. *)
Definition main (args : list string) : M G unit :=
  if (List.length args <? 2)%nat
  then
    print ("Usage: skill-extractor <commit-sha>" ++ nl);;;
    print ("This tool is meant to be run as a git post-commit hook" ++ nl);;;
    osExit 1
  else
    let commitSHA := nth 1 args "" in
    '(currentBranch, err) <- runGit CurrentBranch;;
    if match err with
       | None => HasPrefix currentBranch (branchPrefix ++ "/")
       | Some _ => false
       end
    then ret tt
    else
      analysis <- analyzeCommit commitSHA;;
      match analysis with
      | inr e => print ("Error analyzing commit: " ++ Error e ++ nl);;; osExit 1
      | inl info =>
          if (List.length (SkillFiles info) =? 0)%nat then ret tt
          else
            err <- extractSkills info;;
            match err with
            | Some e =>
                print ("Error extracting skills: " ++ Error e ++ nl);;; osExit 1
            | None => ret tt
            end
      end.

End Program.

End SkillExtractor.

(* ================================================================== *)
(** ** More vocabulary                                                 *)
(* ================================================================== *)

(** The repository path [generatePRURL] reads off the URL of the remote
    (lines 256-267); empty when the URL is not recognised. *)
Definition repoPathOf (remoteURL : string) : string :=
  if HasPrefix remoteURL "git@github.com:"
  then TrimSuffix (TrimPrefix remoteURL "git@github.com:") ".git"
  else if Contains remoteURL "github.com/"
  then
    let parts := Split remoteURL "github.com/" in
    if (List.length parts =? 2)%nat
    then TrimSuffix (nth 1 parts "") ".git"
    else ""
  else "".

Definition manualNote (branch : string) : string :=
  "Create PR manually for branch: " ++ branch.

Definition compareURL (repoPath baseBranch branch : string) : string :=
  "https://github.com/" ++ repoPath ++ "/compare/" ++ baseBranch
  ++ "..." ++ branch ++ "?expand=1".

(** The commands an extraction of [info] onto [promptBranch] may issue. *)
Definition extractionCommand (info : CommitInfo) (promptBranch : string)
           (c : GitCmd) : Prop :=
  match c with
  | ConfigGet key =>
      In key ["prrompt.branchPrefix"; "prrompt.baseBranch";
              "prrompt.commitPrefix"; "remote.origin.url"]
  | CheckoutNew branch _ => branch = promptBranch
  | CherryPickNoCommit sha => sha = SHA info
  | CherryPickAbort => True
  | RestoreStaged file => In file (OtherFiles info)
  | Commit _ => True
  | Push branch => branch = promptBranch
  | Checkout branch => branch = SourceBranch info
  | CheckoutForce branch => branch = SourceBranch info
  | BranchDelete branch => branch = promptBranch
  | CurrentBranch | LogMessage _ | DiffTree _ | RestoreWorktree _ => False
  end.

(** The commands an extraction of the first variant may issue for [info]. *)
Definition skillExtractionCommand (info : SkillExtractor.CommitInfo)
           (c : GitCmd) : Prop :=
  let skillBranch :=
    SkillExtractor.branchPrefix ++ "/" ++ take 7 (SkillExtractor.SHA info) in
  match c with
  | ConfigGet key => key = "remote.origin.url"
  | CheckoutNew branch base =>
      branch = skillBranch /\ base = SkillExtractor.baseBranch
  | CherryPickNoCommit sha => sha = SkillExtractor.SHA info
  | CherryPickAbort => True
  | RestoreStaged file | RestoreWorktree file =>
      SkillExtractor.IsMixed info = true
      /\ In file (SkillExtractor.OtherFiles info)
  | Commit _ => True
  | Push branch => branch = skillBranch
  | Checkout branch => branch = SkillExtractor.SourceBranch info
  | BranchDelete branch => branch = skillBranch
  | CheckoutForce _ | CurrentBranch | LogMessage _ | DiffTree _ => False
  end.

Section MoreObservations.

Context {G : Gateway}.

(** The trimmed output of a command, as [runGit] returns it. *)
Definition gitOut (c : GitCmd) (r : Repo G) : string :=
  TrimSpace (fst (fst (git G c r))).

(** Started in [w], the computation issues commands that satisfy [P]
    only, however it ends. *)
Definition IssuesOnly {A} (P : GitCmd -> Prop) (m : M G A) (w : World G)
  : Prop :=
  exists o w' t,
    m w = (o, w') /\ trace w' = (trace w ++ t)%list /\ Forall P t.

End MoreObservations.

(* ================================================================== *)
(** ** A second reference gateway                                      *)
(* ================================================================== *)

(** The reference repository with no commit on the branch checked out:
    git cannot name the current branch, everything else is as in
    [SimGit]. *)
Module Unborn.

Definition exec (c : GitCmd) (s : SimGit.State) : Reply * SimGit.State :=
  match c with
  | CurrentBranch =>
      (SimGit.failed "fatal: ambiguous argument 'HEAD': unknown revision" 128,
       s)
  | _ => SimGit.exec c s
  end.

Definition gateway : Gateway := {|
  Repo := SimGit.State;
  git := exec;
  branches := branches SimGit.gateway;
  staged := staged SimGit.gateway;
  worktree := worktree SimGit.gateway
|}.

Definition start (s : SimGit.State) : World gateway :=
  mkWorld (G := gateway) s [] [].

End Unborn.

(** Repositories used below: one in which the extraction branch of
    [SimGit.promptOnly] exists already, one whose checked-out branch has been
    deleted, and one with a remote on github.com. *)
Definition extractedBefore : SimGit.State :=
  SimGit.mkState "feature-branch"
                 [("skill-update/1111111", [".claude/skills/test.md"]);
                  ("feature-branch", [".claude/skills/test.md"]);
                  ("main", [])]
                 [] [SimGit.promptOnly] [] [] [] [] [] false false.

Definition headless : SimGit.State :=
  SimGit.mkState "gone" [("main", [])] [] [SimGit.promptOnly] [] [] [] [] []
                 false false.

(* ================================================================== *)
(** ** Running the monad                                               *)
(* ================================================================== *)

Section Running.

Context {G : Gateway}.

Lemma bind_Ret {A B} (m : M G A) (f : A -> M G B) w a w' :
  m w = (Ret a, w') -> bind m f w = f a w'.
Proof. intros H. unfold bind. now rewrite H. Qed.

Lemma bind_Panic {A B} (m : M G A) (f : A -> M G B) w msg w' :
  m w = (Panic msg, w') -> bind m f w = (Panic msg, w').
Proof. intros H. unfold bind. now rewrite H. Qed.

Lemma bind_inv {A B} (m : M G A) (f : A -> M G B) w b w2 :
  bind m f w = (Ret b, w2) ->
  exists a w1, m w = (Ret a, w1) /\ f a w1 = (Ret b, w2).
Proof.
  unfold bind. destruct (m w) as [[a | code | msg] w1]; intros H.
  - now exists a, w1.
  - discriminate.
  - discriminate.
Qed.

Lemma runGit_run c (w : World G) :
  runGit c w
  = (Ret (TrimSpace (fst (fst (git G c (repo w)))), gitErr c (repo w)),
     after c w).
Proof.
  unfold runGit, after, gitErr, gitNext.
  destruct (git G c (repo w)) as [[output err] r]. reflexivity.
Qed.

Lemma print_run s (w : World G) : print s w = (Ret tt, printed s w).
Proof. reflexivity. Qed.

Lemma configured_cases key (r : Repo G) :
  configured key r
  = match gitErr (ConfigGet key) r with
    | Some _ => None
    | None =>
        if TrimSpace (fst (fst (git G (ConfigGet key) r))) =? ""
        then None
        else Some (TrimSpace (fst (fst (git G (ConfigGet key) r))))
    end.
Proof.
  unfold configured, gitErr.
  destruct (git G (ConfigGet key) r) as [[output [e|]] r']; reflexivity.
Qed.

Lemma getCommitPrefix_run (w : World G) :
  getCommitPrefix w
  = (Ret (valueOr "prrompt.commitPrefix" defaultCommitPrefix (repo w)),
     after (ConfigGet "prrompt.commitPrefix") w).
Proof.
  unfold getCommitPrefix, valueOr.
  rewrite (bind_Ret _ _ _ _ _ (runGit_run _ w)), configured_cases.
  destruct (gitErr _ (repo w)); [reflexivity|].
  destruct (_ =? ""); reflexivity.
Qed.

Lemma getBranchPrefix_run (w : World G) :
  getBranchPrefix w
  = (Ret (valueOr "prrompt.branchPrefix" defaultBranchPrefix (repo w)),
     after (ConfigGet "prrompt.branchPrefix") w).
Proof.
  unfold getBranchPrefix, valueOr.
  rewrite (bind_Ret _ _ _ _ _ (runGit_run _ w)), configured_cases.
  destruct (gitErr _ (repo w)); [reflexivity|].
  destruct (_ =? ""); reflexivity.
Qed.

Lemma getBaseBranch_run (w : World G) :
  getBaseBranch w
  = (Ret (valueOr "prrompt.baseBranch" defaultBaseBranch (repo w)),
     after (ConfigGet "prrompt.baseBranch") w).
Proof.
  unfold getBaseBranch, valueOr.
  rewrite (bind_Ret _ _ _ _ _ (runGit_run _ w)), configured_cases.
  destruct (gitErr _ (repo w)); [reflexivity|].
  destruct (_ =? ""); reflexivity.
Qed.

Lemma getPromptPatterns_run (w : World G) :
  getPromptPatterns w
  = (Ret (patternsIn (repo w)), after (ConfigGet "prrompt.promptPatterns") w).
Proof.
  unfold getPromptPatterns, patternsIn.
  rewrite (bind_Ret _ _ _ _ _ (runGit_run _ w)), configured_cases.
  destruct (gitErr _ (repo w)); [reflexivity|].
  destruct (_ =? ""); [reflexivity|].
  destruct (trimmedEntries _); reflexivity.
Qed.

Lemma isPromptFile_run path (w : World G) :
  isPromptFile path w
  = (Ret (matchesAny (patternsIn (repo w)) path),
     after (ConfigGet "prrompt.promptPatterns") w).
Proof.
  unfold isPromptFile. now rewrite (bind_Ret _ _ _ _ _ (getPromptPatterns_run w)).
Qed.

End Running.

(* ================================================================== *)
(** ** Read-only and total computations                                *)
(* ================================================================== *)

Section Effects.

Context {G : Gateway}.

Lemma ReadOnly_ret {A} (a : A) : ReadOnly (G := G) (ret a).
Proof.
  intros w. exists a, w, [].
  split; [reflexivity|].
  split; [now rewrite app_nil_r|].
  split; [constructor|].
  split; [reflexivity|].
  intros _. reflexivity.
Qed.

Lemma ReadOnly_bind {A B} (m : M G A) (f : A -> M G B) :
  ReadOnly m -> (forall a, ReadOnly (f a)) -> ReadOnly (bind m f).
Proof.
  intros Hm Hf w.
  destruct (Hm w) as (a & w1 & t1 & E1 & T1 & Q1 & S1 & R1).
  destruct (Hf a w1) as (b & w2 & t2 & E2 & T2 & Q2 & S2 & R2).
  exists b, w2, (t1 ++ t2)%list.
  split; [now rewrite (bind_Ret _ _ _ _ _ E1)|].
  split; [now rewrite T2, T1, app_assoc|].
  split; [now apply Forall_app|].
  split; [congruence|].
  intros L. rewrite (R2 L). now apply R1.
Qed.

Lemma ReadOnly_query c : isQuery c = true -> ReadOnly (G := G) (runGit c).
Proof.
  intros Hq w. eexists _, (after c w), [c].
  split; [apply runGit_run|].
  split; [reflexivity|].
  split; [auto|].
  split; [reflexivity|].
  intros L. simpl. now apply (query_pure L).
Qed.

Lemma ReadOnly_getBranchPrefix : ReadOnly (G := G) getBranchPrefix.
Proof.
  apply ReadOnly_bind; [now apply ReadOnly_query|].
  intros [value [e|]]; [apply ReadOnly_ret|].
  destruct (value =? ""); apply ReadOnly_ret.
Qed.

Lemma ReadOnly_getPromptPatterns : ReadOnly (G := G) getPromptPatterns.
Proof.
  apply ReadOnly_bind; [now apply ReadOnly_query|].
  intros [value [e|]]; [apply ReadOnly_ret|].
  destruct (value =? ""); [apply ReadOnly_ret|].
  cbv zeta. destruct (_ =? 0)%nat; apply ReadOnly_ret.
Qed.

Lemma ReadOnly_isPromptFile path : ReadOnly (G := G) (isPromptFile path).
Proof.
  apply ReadOnly_bind; [apply ReadOnly_getPromptPatterns|].
  intros patterns. apply ReadOnly_ret.
Qed.

Lemma ReadOnly_classifyFiles files :
  forall info, ReadOnly (G := G) (classifyFiles files info).
Proof.
  induction files as [|file rest IH]; intros info; simpl.
  - apply ReadOnly_ret.
  - destruct (TrimSpace file =? ""); [apply IH|].
    apply ReadOnly_bind; [apply ReadOnly_isPromptFile|].
    intros [|]; apply IH.
Qed.

Lemma ReadOnly_analyzeCommit sha : ReadOnly (G := G) (analyzeCommit sha).
Proof.
  apply ReadOnly_bind; [now apply ReadOnly_query|].
  intros [commitMessage [e|]]; [apply ReadOnly_ret|].
  apply ReadOnly_bind; [now apply ReadOnly_query|].
  intros [currentBranch [e|]]; [apply ReadOnly_ret|].
  apply ReadOnly_bind; [now apply ReadOnly_query|].
  intros [changedFiles [e|]]; [apply ReadOnly_ret|].
  apply ReadOnly_bind; [apply ReadOnly_classifyFiles|].
  intros info. apply ReadOnly_ret.
Qed.

Lemma ReadOnly_onPromptBranch : ReadOnly (G := G) onPromptBranch.
Proof.
  apply ReadOnly_bind; [now apply ReadOnly_query|].
  intros [currentBranch [e|]]; [apply ReadOnly_ret|].
  apply ReadOnly_bind; [apply ReadOnly_getBranchPrefix|].
  intros branchPrefix. apply ReadOnly_ret.
Qed.

Lemma ReadOnly_Total {A} (m : M G A) : ReadOnly m -> Total m.
Proof.
  intros H w. destruct (H w) as (a & w' & t & E & T & _).
  now exists a, w', t.
Qed.

Lemma Total_ret {A} (a : A) : Total (G := G) (ret a).
Proof. apply ReadOnly_Total, ReadOnly_ret. Qed.

Lemma Total_bind {A B} (m : M G A) (f : A -> M G B) :
  Total m -> (forall a, Total (f a)) -> Total (bind m f).
Proof.
  intros Hm Hf w.
  destruct (Hm w) as (a & w1 & t1 & E1 & T1).
  destruct (Hf a w1) as (b & w2 & t2 & E2 & T2).
  exists b, w2, (t1 ++ t2)%list. split.
  - now rewrite (bind_Ret _ _ _ _ _ E1).
  - now rewrite T2, T1, app_assoc.
Qed.

Lemma Total_runGit c : Total (G := G) (runGit c).
Proof.
  intros w. eexists _, (after c w), [c].
  split; [apply runGit_run|reflexivity].
Qed.

Lemma Total_print s : Total (G := G) (print s).
Proof.
  intros w. exists tt, (printed s w), []. split; [reflexivity|].
  simpl. now rewrite app_nil_r.
Qed.

Lemma Total_cleanup originalBranch skillBranch :
  Total (G := G) (cleanup originalBranch skillBranch).
Proof.
  repeat (apply Total_bind; [apply Total_runGit|intros ?]).
  apply Total_ret.
Qed.

Lemma Total_getBaseBranch : Total (G := G) getBaseBranch.
Proof.
  intros w. eexists _, (after (ConfigGet "prrompt.baseBranch") w), [_].
  split; [apply getBaseBranch_run|reflexivity].
Qed.

Lemma Total_generatePRURL branch : Total (G := G) (generatePRURL branch).
Proof.
  apply Total_bind; [apply Total_runGit|].
  intros [remoteURL [e|]]; [apply Total_ret|].
  cbv zeta. destruct (_ =? ""); [apply Total_ret|].
  apply Total_bind; [apply Total_getBaseBranch|]. intros ?. apply Total_ret.
Qed.

Lemma Total_publish info promptBranch :
  Total (G := G) (publish info promptBranch).
Proof.
  assert (Hrest : Total (G := G)
            ('(_, err) <- runGit (CheckoutForce (SourceBranch info));;
             match err with
             | Some e =>
                 ret (Some (Errorf "failed to return to original branch: " e))
             | None =>
                 prURL <- generatePRURL promptBranch;;
                 print (nl ++ "✓ Skill extraction complete!" ++ nl);;;
                 print (nl ++ "Create PR: " ++ prURL ++ nl ++ nl);;;
                 ret None
             end)).
  { apply Total_bind; [apply Total_runGit|].
    intros [out [e|]]; [apply Total_ret|].
    apply Total_bind; [apply Total_generatePRURL|intros prURL].
    repeat (apply Total_bind; [apply Total_print|intros _]).
    apply Total_ret. }
  apply Total_bind; [apply Total_print|intros _].
  apply Total_bind; [apply Total_runGit|].
  intros [out [e|]];
    (apply Total_bind; [apply Total_print|intros _; exact Hrest]).
Qed.

End Effects.

(* ================================================================== *)
(** ** The reference gateway obeys the laws                            *)
(* ================================================================== *)

Section SimGitLaws.

Import SimGit.

Lemma mem_In x l : mem x l = true <-> In x l.
Proof.
  unfold mem. rewrite existsb_exists. split.
  - intros (y & Hy & E). apply String.eqb_eq in E. now subst.
  - intros H. exists x. split; [assumption|apply String.eqb_refl].
Qed.

Lemma In_without p x l : In p (without x l) <-> In p l /\ p <> x.
Proof.
  unfold without. rewrite filter_In. split; intros [H1 H2]; split; auto.
  - intros E. subst. now rewrite String.eqb_refl in H2.
  - apply negb_true_iff. now apply String.eqb_neq.
Qed.

Lemma heads_after_commit b tree (hs : list (string * list string)) :
  map fst (map (fun bt : string * list string =>
                  if fst bt =? b then (fst bt, (snd bt ++ tree)%list) else bt)
               hs)
  = map fst hs.
Proof.
  induction hs as [|[name t] rest IH]; simpl; [reflexivity|].
  rewrite IH. now destruct (name =? b).
Qed.

Lemma sim_laws : GitLaws gateway.
Proof.
  constructor.
  - intros c r Hq. unfold gitNext. simpl.
    destruct c; try discriminate; simpl.
    + now destruct (lookup key (config r)).
    + reflexivity.
    + now destruct (lookup sha (commits r)) as [[msg paths]|].
    + now destruct (lookup sha (commits r)) as [[msg paths]|].
  - intros b base r. unfold gitErr, gitNext. simpl.
    destruct (lookup b (heads r)); [discriminate|].
    destruct (lookup base (heads r)); [|discriminate].
    intros _. simpl. now left.
  - intros b r. unfold gitErr, gitNext. simpl.
    destruct (b =? head r); [discriminate|].
    destruct (lookup b (heads r)); [|discriminate].
    intros _. simpl. rewrite in_map_iff. intros ([name t] & E & Hin).
    simpl in E. subst name. apply filter_In in Hin. destruct Hin as [_ Hne].
    simpl in Hne. now rewrite String.eqb_refl in Hne.
  - intros c r. unfold gitNext.
    destruct c; simpl; auto.
    + now destruct (lookup key (config r)).
    + now destruct (lookup sha (commits r)) as [[msg paths]|].
    + now destruct (lookup sha (commits r)) as [[msg paths]|].
    + destruct (lookup sha (commits r)) as [[msg paths]|]; [|reflexivity].
      now destruct (mem sha (conflicting r)).
    + now destruct (mem file (index r)).
    + destruct (hookRejects r); [reflexivity|].
      destruct (index r); [reflexivity|].
      destruct (lookup (head r) (heads r)); [|reflexivity].
      simpl. apply heads_after_commit.
    + destruct (offline r); [reflexivity|].
      now destruct (lookup branch (heads r)).
    + destruct (lookup branch (heads r)); [|reflexivity].
      now destruct (existsb _ (untracked r)).
    + now destruct (lookup branch (heads r)).
  - intros f r p. unfold gitErr, gitNext. simpl.
    destruct (mem f (index r)); simpl.
    + intros H. apply In_without in H. destruct H. split; auto.
    + intros H. split; [assumption|discriminate].
  - intros f r p Hin Hne. unfold gitNext. simpl.
    destruct (mem f (index r)); simpl; [|assumption].
    apply In_without. now split.
  - intros f r p. unfold gitNext. simpl.
    destruct (mem f (index r)) eqn:Hm; simpl; [|reflexivity].
    apply mem_In in Hm.
    rewrite !in_app_iff, In_without. simpl.
    destruct (string_dec p f) as [->|Hne]; [tauto|].
    split; [intros [[H _]|[H|[H|[]]]]|intros [H|H]]; auto; congruence.
Qed.

End SimGitLaws.

(* ================================================================== *)
(** ** The parts of an extraction, step by step                        *)
(* ================================================================== *)

Section Steps.

Context {G : Gateway}.

Lemma sliceTo_short s n (w : World G) :
  String.length s < n ->
  sliceTo s n w
  = (Panic ("runtime error: slice bounds out of range [:" ++ itoa n
            ++ "] with length " ++ itoa (String.length s)), w).
Proof.
  intros H. unfold sliceTo.
  destruct (Nat.leb_spec n (String.length s)); [lia|reflexivity].
Qed.

Lemma sliceTo_long s n (w : World G) :
  n <= String.length s -> sliceTo s n w = (Ret (take n s), w).
Proof.
  intros H. unfold sliceTo.
  destruct (Nat.leb_spec n (String.length s)); [reflexivity|lia].
Qed.

Lemma createBranch_short info (w : World G) :
  String.length (SHA info) < 7 ->
  createBranch info w = (Panic (sliceFailure (String.length (SHA info))), w).
Proof.
  intros H. unfold createBranch.
  now rewrite (bind_Panic _ _ _ _ _ (sliceTo_short _ _ w H)).
Qed.

Lemma createBranch_long info (w : World G) :
  7 <= String.length (SHA info) ->
  let shortSHA := take 7 (SHA info) in
  let promptBranch :=
    valueOr "prrompt.branchPrefix" defaultBranchPrefix (repo w)
    ++ "/" ++ shortSHA in
  let r1 := gitNext (ConfigGet "prrompt.branchPrefix") (repo w) in
  let baseBranch := valueOr "prrompt.baseBranch" defaultBaseBranch r1 in
  let r2 := gitNext (ConfigGet "prrompt.baseBranch") r1 in
  createBranch info w
  = (Ret (shortSHA, promptBranch,
          gitErr (CheckoutNew promptBranch baseBranch) r2),
     mkWorld (gitNext (CheckoutNew promptBranch baseBranch) r2)
             (stdout w ++ banner info shortSHA promptBranch)%list
             (trace w ++ [ConfigGet "prrompt.branchPrefix";
                          ConfigGet "prrompt.baseBranch";
                          CheckoutNew promptBranch baseBranch])%list).
Proof.
  intros H. unfold createBranch.
  rewrite (bind_Ret _ _ _ _ _ (sliceTo_long _ _ w H)).
  rewrite (bind_Ret _ _ _ _ _ (getBranchPrefix_run w)).
  repeat (erewrite bind_Ret by apply print_run).
  erewrite bind_Ret by apply getBaseBranch_run.
  erewrite bind_Ret by apply runGit_run.
  unfold ret, after, printed, banner. simpl.
  repeat rewrite <- app_assoc. reflexivity.
Qed.

Lemma cherryPick_run info shortSHA (w : World G) :
  cherryPick info shortSHA w
  = (Ret (gitErr (CherryPickNoCommit (SHA info)) (repo w)),
     after (CherryPickNoCommit (SHA info))
           (printed ("Cherry-picking commit " ++ shortSHA ++ "..." ++ nl) w)).
Proof.
  unfold cherryPick.
  erewrite bind_Ret by apply print_run.
  erewrite bind_Ret by apply runGit_run.
  reflexivity.
Qed.

Lemma cleanup_run originalBranch skillBranch (w : World G) :
  cleanup originalBranch skillBranch w
  = (Ret tt, cleanedUp originalBranch skillBranch w).
Proof.
  unfold cleanup, cleanedUp.
  repeat (erewrite bind_Ret by apply runGit_run). reflexivity.
Qed.

(** The world in which the unstage loop ends. *)
Lemma unstageAll_run files :
  forall w : World G,
    exists w',
      unstageAll files w = (Ret tt, w')
      /\ trace w' = (trace w ++ map RestoreStaged files)%list
      /\ stdout w' = stdout w.
Proof.
  induction files as [|file rest IH]; intros w; simpl.
  - exists w. split; [reflexivity|]. split; [now rewrite app_nil_r|reflexivity].
  - destruct (IH (after (RestoreStaged file) w)) as (w' & E & T & S).
    exists w'. split; [|split].
    + erewrite bind_Ret by apply runGit_run. exact E.
    + rewrite T. simpl. now rewrite <- app_assoc.
    + rewrite S. reflexivity.
Qed.

Lemma prepareCommit_run info shortSHA (w : World G) :
  exists w2,
    (if IsMixed info then unstageAll (OtherFiles info) else ret tt) w
    = (Ret tt, w2)
    /\ prepareCommit info shortSHA w
       = (Ret (commitMessage
                 (valueOr "prrompt.commitPrefix" defaultCommitPrefix (repo w2))
                 info shortSHA),
          after (ConfigGet "prrompt.commitPrefix") w2)
    /\ trace w2
       = (trace w ++ (if IsMixed info
                      then map RestoreStaged (OtherFiles info) else []))%list
    /\ stdout w2 = stdout w.
Proof.
  unfold prepareCommit. destruct (IsMixed info).
  - destruct (unstageAll_run (OtherFiles info) w) as (w2 & E & T & S).
    exists w2. split; [exact E|]. split; [|split; assumption].
    rewrite (bind_Ret _ _ _ _ _ E).
    now rewrite (bind_Ret _ _ _ _ _ (getCommitPrefix_run w2)).
  - exists w. split; [reflexivity|]. split; [|split].
    + unfold bind at 1. unfold ret at 1.
      now rewrite (bind_Ret _ _ _ _ _ (getCommitPrefix_run w)).
    + now rewrite app_nil_r.
    + reflexivity.
Qed.

Lemma Total_prepareCommit info shortSHA :
  Total (G := G) (prepareCommit info shortSHA).
Proof.
  intros w. destruct (prepareCommit_run info shortSHA w) as (w2 & _ & E & T & _).
  eexists _, _, (_ ++ [_])%list. split; [exact E|].
  simpl. rewrite T. now rewrite <- app_assoc.
Qed.

(** Once its branch exists, an extraction goes on with the cherry-pick. *)
Lemma extractPrompts_created info (w : World G) shortSHA promptBranch w1 :
  createBranch info w = (Ret (shortSHA, promptBranch, None), w1) ->
  extractPrompts info w
  = (err <- cherryPick info shortSHA;;
     match err with
     | Some e =>
         cleanup (SourceBranch info) promptBranch;;;
         ret (Some (Errorf "failed to cherry-pick: " e))
     | None =>
         commitMsg <- prepareCommit info shortSHA;;
         '(_, err) <- runGit (Commit commitMsg);;
         match err with
         | Some e =>
             cleanup (SourceBranch info) promptBranch;;;
             ret (Some (Errorf "failed to commit: " e))
         | None => publish info promptBranch
         end
     end) w1.
Proof.
  intros H. unfold extractPrompts. now rewrite (bind_Ret _ _ _ _ _ H).
Qed.

Lemma extractPrompts_fails info (w : World G) shortSHA promptBranch w1
      prefix e wf :
  createBranch info w = (Ret (shortSHA, promptBranch, None), w1) ->
  FailsAfterCreation info shortSHA w1 prefix e wf ->
  extractPrompts info w
  = (Ret (Some (Errorf prefix e)),
     cleanedUp (SourceBranch info) promptBranch wf).
Proof.
  intros Hc Hf. rewrite (extractPrompts_created _ _ _ _ _ Hc).
  destruct Hf as [e wf Hp | w2 commitMsg w3 e Hp Hm He].
  - rewrite (bind_Ret _ _ _ _ _ Hp).
    now rewrite (bind_Ret _ _ _ _ _ (cleanup_run _ _ _)).
  - rewrite (bind_Ret _ _ _ _ _ Hp), (bind_Ret _ _ _ _ _ Hm).
    rewrite (bind_Ret _ _ _ _ _ (runGit_run _ _)), He.
    now rewrite (bind_Ret _ _ _ _ _ (cleanup_run _ _ _)).
Qed.

Lemma extractPrompts_committed info (w : World G) shortSHA promptBranch w1
      commitMsg w4 :
  createBranch info w = (Ret (shortSHA, promptBranch, None), w1) ->
  Committed info shortSHA w1 commitMsg w4 ->
  extractPrompts info w = publish info promptBranch w4.
Proof.
  intros Hc Hk. rewrite (extractPrompts_created _ _ _ _ _ Hc).
  destruct Hk as [w2 commitMsg w3 Hp Hm He].
  rewrite (bind_Ret _ _ _ _ _ Hp), (bind_Ret _ _ _ _ _ Hm).
  now rewrite (bind_Ret _ _ _ _ _ (runGit_run _ _)), He.
Qed.

Lemma Total_cherryPick info shortSHA : Total (G := G) (cherryPick info shortSHA).
Proof.
  intros w. eexists _, _, [_]. split; [apply cherryPick_run|reflexivity].
Qed.

(** An extraction on an identifier of seven bytes or more always returns. *)
Lemma extractPrompts_returns info (w : World G) :
  7 <= String.length (SHA info) ->
  exists res w', extractPrompts info w = (Ret res, w').
Proof.
  intros H. unfold extractPrompts.
  rewrite (bind_Ret _ _ _ _ _ (createBranch_long info w H)).
  destruct (gitErr (CheckoutNew _ _) _); [now eexists _, _|].
  match goal with |- context [bind ?m ?f ?x] =>
    assert (Hk : Total (bind m f)); [|destruct (Hk x) as (res & w' & t & E & _)]
  end.
  - apply Total_bind; [apply Total_cherryPick|].
    intros [e|].
    { apply Total_bind; [apply Total_cleanup|intros _; apply Total_ret]. }
    apply Total_bind; [apply Total_prepareCommit|intros commitMsg].
    apply Total_bind; [apply Total_runGit|].
    intros [out [e|]]; [|apply Total_publish].
    apply Total_bind; [apply Total_cleanup|intros _; apply Total_ret].
  - now exists res, w'.
Qed.

End Steps.

(* ================================================================== *)
(** ** The entry point, step by step                                   *)
(* ================================================================== *)

Section Entry.

Context {G : Gateway}.

Lemma ReadOnly_at {A} (m : M G A) (w : World G) a w' :
  ReadOnly m -> m w = (Ret a, w') ->
  (exists t, trace w' = (trace w ++ t)%list
             /\ Forall (fun c => isQuery c = true) t)
  /\ stdout w' = stdout w
  /\ (GitLaws G -> repo w' = repo w).
Proof.
  intros H E. destruct (H w) as (a0 & w0 & t & E0 & T & Q & S & R).
  rewrite E in E0. injection E0 as <- <-.
  split; [now exists t|]. now split.
Qed.

(** Two read-only computations in a row. *)
Lemma ReadOnly_at2 {A B} (m1 : M G A) (m2 : M G B) (w : World G) a w1 b w2 :
  ReadOnly m1 -> ReadOnly m2 ->
  m1 w = (Ret a, w1) -> m2 w1 = (Ret b, w2) ->
  (exists t, trace w2 = (trace w ++ t)%list
             /\ Forall (fun c => isQuery c = true) t)
  /\ stdout w2 = stdout w
  /\ (GitLaws G -> repo w2 = repo w).
Proof.
  intros H1 H2 E1 E2.
  destruct (ReadOnly_at _ _ _ _ H1 E1) as ((t1 & T1 & Q1) & S1 & R1).
  destruct (ReadOnly_at _ _ _ _ H2 E2) as ((t2 & T2 & Q2) & S2 & R2).
  split; [|split].
  - exists (t1 ++ t2)%list. split; [now rewrite T2, T1, app_assoc|].
    now apply Forall_app.
  - congruence.
  - intros L. rewrite (R2 L). now apply R1.
Qed.

Lemma branchName_cases (r : Repo G) :
  branchName r
  = match gitErr CurrentBranch r with
    | Some _ => None
    | None => Some (TrimSpace (fst (fst (git G CurrentBranch r))))
    end.
Proof.
  unfold branchName, gitErr.
  destruct (git G CurrentBranch r) as [[output [e|]] r']; reflexivity.
Qed.

Lemma onPromptBranch_run (w : World G) :
  onPromptBranch w
  = match branchName (repo w) with
    | None => (Ret false, after CurrentBranch w)
    | Some currentBranch =>
        (Ret (HasPrefix currentBranch
                (valueOr "prrompt.branchPrefix" defaultBranchPrefix
                         (gitNext CurrentBranch (repo w)) ++ "/")),
         after (ConfigGet "prrompt.branchPrefix") (after CurrentBranch w))
    end.
Proof.
  unfold onPromptBranch.
  rewrite (bind_Ret _ _ _ _ _ (runGit_run _ w)), branchName_cases.
  destruct (gitErr CurrentBranch (repo w)); [reflexivity|].
  now rewrite (bind_Ret _ _ _ _ _ (getBranchPrefix_run _)).
Qed.

Lemma processCommit_skips sha (w w1 : World G) :
  onPromptBranch w = (Ret true, w1) -> processCommit sha w = (Ret None, w1).
Proof.
  intros H. unfold processCommit. now rewrite (bind_Ret _ _ _ _ _ H).
Qed.

Lemma processCommit_analysis_fails sha (w w1 w2 : World G) e :
  onPromptBranch w = (Ret false, w1) ->
  analyzeCommit sha w1 = (Ret (inr e), w2) ->
  processCommit sha w
  = (Ret (Some (Errorf "error analyzing commit: " e)), w2).
Proof.
  intros H1 H2. unfold processCommit.
  now rewrite (bind_Ret _ _ _ _ _ H1), (bind_Ret _ _ _ _ _ H2).
Qed.

Lemma processCommit_nothing_to_extract sha (w w1 w2 : World G) info :
  onPromptBranch w = (Ret false, w1) ->
  analyzeCommit sha w1 = (Ret (inl info), w2) ->
  PromptFiles info = [] ->
  processCommit sha w = (Ret None, w2).
Proof.
  intros H1 H2 H3. unfold processCommit.
  rewrite (bind_Ret _ _ _ _ _ H1), (bind_Ret _ _ _ _ _ H2).
  now rewrite H3.
Qed.

Lemma processCommit_extracts sha (w w1 w2 : World G) info :
  onPromptBranch w = (Ret false, w1) ->
  analyzeCommit sha w1 = (Ret (inl info), w2) ->
  PromptFiles info <> [] ->
  processCommit sha w
  = (err <- extractPrompts info;;
     match err with
     | Some e => ret (Some (Errorf "error extracting prompts: " e))
     | None => ret None
     end) w2.
Proof.
  intros H1 H2 H3. unfold processCommit.
  rewrite (bind_Ret _ _ _ _ _ H1), (bind_Ret _ _ _ _ _ H2).
  destruct (PromptFiles info); [contradiction|reflexivity].
Qed.

(** [main] on an argument vector that names a commit. *)
Lemma main_run prog sha rest (w : World G) :
  main (prog :: sha :: rest) w
  = (err <- processCommit sha;;
     match err with
     | Some e => print (Error e ++ nl);;; osExit 1
     | None => ret tt
     end) w.
Proof. reflexivity. Qed.

(** The loop of the classification keeps the other fields. *)
Lemma classifyFiles_fields files :
  forall info (w : World G) info' w',
    classifyFiles files info w = (Ret info', w') ->
    SHA info' = SHA info /\ Message info' = Message info
    /\ SourceBranch info' = SourceBranch info.
Proof.
  induction files as [|file rest IH]; intros info w info' w'; simpl.
  - intros E. injection E as <- _. auto.
  - destruct (TrimSpace file =? ""); [apply IH|].
    intros E. apply bind_inv in E. destruct E as ([|] & w1 & _ & E);
      apply IH in E; exact E.
Qed.

Lemma analyzeCommit_info sha (w : World G) info w' :
  analyzeCommit sha w = (Ret (inl info), w') ->
  SHA info = sha
  /\ IsMixed info = (0 <? List.length (OtherFiles info))%nat.
Proof.
  unfold analyzeCommit. intros E.
  apply bind_inv in E. destruct E as ([commitMessage [e|]] & w1 & _ & E);
    [discriminate|].
  apply bind_inv in E. destruct E as ([currentBranch [e|]] & w2 & _ & E);
    [discriminate|].
  apply bind_inv in E. destruct E as ([changedFiles [e|]] & w3 & _ & E);
    [discriminate|].
  apply bind_inv in E. destruct E as (info0 & w4 & Hc & E).
  apply classifyFiles_fields in Hc. destruct Hc as (Hs & _ & _).
  injection E as <- _. simpl. now split.
Qed.

Lemma analyzeCommit_rejected sha (w : World G) e :
  gitErr (LogMessage sha) (repo w) = Some e ->
  analyzeCommit sha w
  = (Ret (inr (Errorf "failed to get commit message: " e)),
     after (LogMessage sha) w).
Proof.
  intros H. unfold analyzeCommit.
  now rewrite (bind_Ret _ _ _ _ _ (runGit_run _ w)), H.
Qed.

End Entry.

(* ================================================================== *)
(** ** C1: the compensating sequence                                   *)
(* ================================================================== *)

(** What the code keeps of C1.  Whenever the cherry-pick or the commit of
    an extraction fails after the extraction branch was created, the three
    commands of the compensating sequence are issued in order (abort the
    cherry-pick, switch back to the source branch, force-delete the
    extraction branch), each one whatever the result of the others, nothing
    is printed by the recovery, and the error returned wraps the error of
    the step that failed.  Whether the branch is gone is left to git: it is
    when the force-delete itself succeeds. *)
Theorem failed_extraction_runs_cleanup
        (G : Gateway) (L : GitLaws G) (info : CommitInfo) (w : World G)
        (shortSHA promptBranch : string) (w1 : World G)
        (prefix : string) (e : error) (wf : World G) :
  createBranch info w = (Ret (shortSHA, promptBranch, None), w1) ->
  FailsAfterCreation info shortSHA w1 prefix e wf ->
  let wc := cleanedUp (SourceBranch info) promptBranch wf in
  extractPrompts info w = (Ret (Some (Errorf prefix e)), wc)
  /\ rootCause (Errorf prefix e) = rootCause e
  /\ trace wc
     = (trace wf ++ [CherryPickAbort; Checkout (SourceBranch info);
                     BranchDelete promptBranch])%list
  /\ stdout wc = stdout wf
  /\ (forall sha (w0 wa : World G),
         onPromptBranch w0 = (Ret false, wa) ->
         analyzeCommit sha wa = (Ret (inl info), w) ->
         PromptFiles info <> [] ->
         processCommit sha w0
         = (Ret (Some (Errorf "error extracting prompts: " (Errorf prefix e))),
            wc))
  /\ (gitErr (BranchDelete promptBranch)
             (gitNext (Checkout (SourceBranch info))
                      (gitNext CherryPickAbort (repo wf))) = None ->
      ~ In promptBranch (branches G (repo wc))).
Proof.
  intros Hc Hf wc.
  assert (He := extractPrompts_fails _ _ _ _ _ _ _ _ Hc Hf).
  split; [exact He|].
  split; [reflexivity|].
  split; [unfold wc, cleanedUp, after; simpl; now rewrite <- !app_assoc|].
  split; [reflexivity|].
  split.
  - intros sha w0 wa Hg Ha Hp.
    rewrite (processCommit_extracts sha _ _ _ _ Hg Ha Hp).
    now rewrite (bind_Ret _ _ _ _ _ He).
  - intros Hd. unfold wc, cleanedUp, after. simpl.
    now apply (delete_removes L).
Qed.

(** A prompt-only commit whose extraction commit is refused by a hook: the
    branch is created, the commit fails, the recovery removes the branch. *)
Lemma failed_extraction_runs_cleanup_witness :
  let info :=
    mkCommitInfo "1111111aaaaaaa" "Add prompt file"
                 [".claude/skills/test.md"] [] false "feature-branch" in
  let w0 := SimGit.start (SimGit.repository [SimGit.promptOnly] [] true false) in
  exists wc,
    extractPrompts info w0
    = (Ret (Some (Errorf "failed to commit: " (ProcessError "exit status 1"))),
       wc)
    /\ ~ In "skill-update/1111111" (branches SimGit.gateway (repo wc)).
Proof.
  intros info w0.
  edestruct (@failed_extraction_runs_cleanup SimGit.gateway sim_laws info w0)
    as (E & _ & _ & _ & _ & D).
  - vm_compute. reflexivity.
  - eapply commit_fails; vm_compute; reflexivity.
  - eexists. split; [exact E|]. apply D. vm_compute. reflexivity.
Defined.

(** C1, where the code misses it: a mixed commit whose extraction commit
    is refused by a hook.  The recovery runs, but its switch back is a
    plain checkout, which git refuses because of the unstaged file (the
    path without failure switches back with the forced checkout for this
    reason), and the checked-out branch cannot be deleted: the extraction
    branch is still there, and checked out, when the error is returned. *)
Lemma cleanup_can_leave_the_branch_behind :
  let sha := "2222222bbbbbbb" in
  let w0 := SimGit.start (SimGit.repository [SimGit.mixed] [] true false) in
  let failure :=
    Errorf "error extracting prompts: "
           (Errorf "failed to commit: " (ProcessError "exit status 1")) in
  exists wend before,
    processCommit sha w0 = (Ret (Some failure), wend)
    /\ trace wend
       = (before ++ [CheckoutNew "skill-update/2222222" "main";
                     CherryPickNoCommit sha; RestoreStaged "src/main.go";
                     ConfigGet "prrompt.commitPrefix";
                     Commit ("[prompt] Add prompt and code" ++ nl ++ nl
                             ++ "Extracted from feature-branch (2222222)");
                     CherryPickAbort; Checkout "feature-branch";
                     BranchDelete "skill-update/2222222"])%list
    /\ ~ In "skill-update/2222222" (branches SimGit.gateway (repo w0))
    /\ In "skill-update/2222222" (branches SimGit.gateway (repo wend))
    /\ SimGit.head (repo wend) = "skill-update/2222222".
Proof.
  intros sha w0 failure.
  eexists _, [CurrentBranch; ConfigGet "prrompt.branchPrefix";
              LogMessage sha; CurrentBranch; DiffTree sha;
              ConfigGet "prrompt.promptPatterns";
              ConfigGet "prrompt.promptPatterns";
              ConfigGet "prrompt.branchPrefix"; ConfigGet "prrompt.baseBranch"].
  split; [vm_compute; reflexivity|].
  split; [reflexivity|].
  split; [simpl; intros [H|[H|[]]]; discriminate|].
  split; [simpl; now left|reflexivity].
Qed.

(* ================================================================== *)
(** ** C3: the entry guard                                             *)
(* ================================================================== *)

(** C3.  Whatever the commit identifier and whatever the commit holds, when
    the branch checked out at invocation starts with the branch prefix
    followed by "/", [processCommit] returns without error ([main] ends
    with status 0), having printed nothing and issued only the two queries
    of the guard: the repository is left as it was found. *)
Theorem prompt_branch_guard_is_noop
        (G : Gateway) (L : GitLaws G) (sha prog : string) (rest : list string)
        (w : World G) (currentBranch : string) :
  branchName (repo w) = Some currentBranch ->
  HasPrefix currentBranch
            (valueOr "prrompt.branchPrefix" defaultBranchPrefix (repo w) ++ "/")
  = true ->
  let w1 := after (ConfigGet "prrompt.branchPrefix") (after CurrentBranch w) in
  processCommit sha w = (Ret None, w1)
  /\ main (prog :: sha :: rest) w = (Ret tt, w1)
  /\ trace w1 = (trace w ++ [CurrentBranch; ConfigGet "prrompt.branchPrefix"])%list
  /\ stdout w1 = stdout w
  /\ repo w1 = repo w.
Proof.
  intros Hb Hp w1.
  assert (Hg : onPromptBranch w = (Ret true, w1)).
  { rewrite onPromptBranch_run, Hb.
    rewrite (query_pure L CurrentBranch (repo w) eq_refl). now rewrite Hp. }
  assert (Hs := processCommit_skips sha _ _ Hg).
  split; [exact Hs|].
  split; [rewrite main_run; now rewrite (bind_Ret _ _ _ _ _ Hs)|].
  split; [unfold w1, after; simpl; now rewrite <- app_assoc|].
  split; [reflexivity|].
  unfold w1, after. simpl.
  rewrite (query_pure L (ConfigGet _) _ eq_refl).
  now rewrite (query_pure L CurrentBranch _ eq_refl).
Qed.

(** The tool invoked on an extraction branch, as in the test
    [Test_SkipOnPromptBranch]. *)
Lemma prompt_branch_guard_is_noop_witness :
  let s :=
    SimGit.mkState "skill-update/test123"
                   [("skill-update/test123", [".claude/skills/test.md"]);
                    ("feature-branch", []); ("main", [])]
                   [] [SimGit.promptOnly] [] [] [] [] [] false false in
  exists w1,
    processCommit "1111111aaaaaaa" (SimGit.start s) = (Ret None, w1)
    /\ repo w1 = s.
Proof.
  intros s.
  destruct (@prompt_branch_guard_is_noop SimGit.gateway sim_laws
              "1111111aaaaaaa" "prrompt" [] (SimGit.start s)
              "skill-update/test123")
    as (E & _ & _ & _ & R).
  - vm_compute. reflexivity.
  - vm_compute. reflexivity.
  - eexists. split; [exact E|exact R].
Defined.

(* ================================================================== *)
(** ** C6: a commit without prompt files                               *)
(* ================================================================== *)

(** C6.  When the analysis of a commit finds no prompt file,
    [processCommit] returns without error and [main] ends with status 0;
    nothing was printed, only queries were issued, and the repository, so
    its set of branches, is as before. *)
Theorem no_prompt_files_is_silent_noop
        (G : Gateway) (L : GitLaws G) (sha prog : string) (rest : list string)
        (w w1 w2 : World G) (info : CommitInfo) :
  onPromptBranch w = (Ret false, w1) ->
  analyzeCommit sha w1 = (Ret (inl info), w2) ->
  PromptFiles info = [] ->
  processCommit sha w = (Ret None, w2)
  /\ main (prog :: sha :: rest) w = (Ret tt, w2)
  /\ exitStatus (fst (main (prog :: sha :: rest) w)) = 0
  /\ stdout w2 = stdout w
  /\ (exists t, trace w2 = (trace w ++ t)%list
                /\ Forall (fun c => isQuery c = true) t)
  /\ repo w2 = repo w
  /\ branches G (repo w2) = branches G (repo w).
Proof.
  intros Hg Ha Hp.
  assert (Hs := processCommit_nothing_to_extract sha _ _ _ _ Hg Ha Hp).
  assert (Hm : main (prog :: sha :: rest) w = (Ret tt, w2)).
  { rewrite main_run. now rewrite (bind_Ret _ _ _ _ _ Hs). }
  destruct (ReadOnly_at2 _ _ _ _ _ _ _ ReadOnly_onPromptBranch
                         (ReadOnly_analyzeCommit sha) Hg Ha)
    as (T & S & R).
  split; [exact Hs|]. split; [exact Hm|].
  split; [now rewrite Hm|].
  split; [exact S|]. split; [exact T|].
  split; [now apply R|]. now rewrite (R L).
Qed.

(** A commit that touches code only, as in the test [Test_NoPromptFiles]. *)
Lemma no_prompt_files_is_silent_noop_witness :
  let s := SimGit.repository [SimGit.codeOnly] [] false false in
  exists w2,
    main ["prrompt"; "3333333ccccccc"] (SimGit.start s) = (Ret tt, w2)
    /\ stdout w2 = []
    /\ branches SimGit.gateway (repo w2) = ["feature-branch"; "main"].
Proof.
  intros s.
  edestruct (@no_prompt_files_is_silent_noop SimGit.gateway sim_laws
               "3333333ccccccc" "prrompt" [] (SimGit.start s))
    as (_ & E & _ & S & _ & _ & B).
  - vm_compute. reflexivity.
  - vm_compute. reflexivity.
  - reflexivity.
  - eexists. split; [exact E|]. split; [exact S|exact B].
Defined.

(* ================================================================== *)
(** ** C7: an identifier git does not know                             *)
(* ================================================================== *)

Lemma query_not_cleanup c : isQuery c = true -> isCleanup c = false.
Proof. destruct c; simpl; congruence. Qed.

(** C7.  When git rejects the commit identifier, the analysis fails at its
    first command and returns its error; [processCommit] returns that
    error, wrapped, at once and [main] prints it and ends with status 1.
    Only queries were issued, none of them a command of the compensating
    sequence, no branch was created and the repository is as before. *)
Theorem invalid_commit_fails_analysis
        (G : Gateway) (L : GitLaws G) (sha prog : string) (rest : list string)
        (w w1 : World G) (e : error) :
  onPromptBranch w = (Ret false, w1) ->
  gitErr (LogMessage sha) (repo w1) = Some e ->
  let failure :=
    Errorf "error analyzing commit: "
           (Errorf "failed to get commit message: " e) in
  let w2 := after (LogMessage sha) w1 in
  analyzeCommit sha w1
  = (Ret (inr (Errorf "failed to get commit message: " e)), w2)
  /\ processCommit sha w = (Ret (Some failure), w2)
  /\ main (prog :: sha :: rest) w
     = (Exit 1, printed (Error failure ++ nl) w2)
  /\ rootCause failure = rootCause e
  /\ (exists t, trace w2 = (trace w ++ t)%list
                /\ Forall (fun c => isQuery c = true) t
                /\ Forall (fun c => isCleanup c = false) t)
  /\ repo w2 = repo w
  /\ branches G (repo w2) = branches G (repo w).
Proof.
  intros Hg He failure w2.
  assert (Ha := analyzeCommit_rejected sha w1 e He).
  assert (Hs := processCommit_analysis_fails sha _ _ _ _ Hg Ha).
  destruct (ReadOnly_at2 _ _ _ _ _ _ _ ReadOnly_onPromptBranch
                         (ReadOnly_analyzeCommit sha) Hg Ha)
    as (T & S & R).
  split; [exact Ha|]. split; [exact Hs|].
  split; [rewrite main_run; now rewrite (bind_Ret _ _ _ _ _ Hs)|].
  assert (Hr : repo w2 = repo w) by (apply R; exact L).
  split; [reflexivity|].
  split.
  { destruct T as (t & Ht & Hq). exists t. split; [exact Ht|].
    split; [exact Hq|].
    eapply Forall_impl; [|exact Hq]. intros c. apply query_not_cleanup. }
  split; [exact Hr|]. now rewrite Hr.
Qed.

(** The identifier of the test [Test_InvalidCommitSHA]. *)
Lemma invalid_commit_fails_analysis_witness :
  let s := SimGit.repository [SimGit.promptOnly] [] false false in
  exists w2,
    main ["prrompt"; "invalid-sha-12345"] (SimGit.start s)
    = (Exit 1, w2)
    /\ stdout w2
       = ["error analyzing commit: failed to get commit message: exit status 128"
          ++ nl]
    /\ repo w2 = s.
Proof.
  intros s.
  edestruct (@invalid_commit_fails_analysis SimGit.gateway sim_laws
               "invalid-sha-12345" "prrompt" [] (SimGit.start s))
    as (_ & _ & E & _ & _ & R & _).
  - vm_compute. reflexivity.
  - vm_compute. reflexivity.
  - eexists. split; [exact E|]. split; [reflexivity|exact R].
Defined.

(* ================================================================== *)
(** ** C10: the short SHA                                              *)
(* ================================================================== *)

Lemma take_first n : forall s,
  n <= String.length s ->
  String.length (take n s) = n /\ HasPrefix s (take n s) = true.
Proof.
  unfold take, HasPrefix.
  induction n as [|n IH]; intros s H.
  - destruct s; simpl; auto.
  - destruct s as [|c s]; simpl in *; [lia|].
    destruct (IH s) as [Hl Hp]; [lia|].
    split; [now rewrite Hl|].
    destruct (ascii_dec c c); [exact Hp|contradiction].
Qed.

Lemma extractPrompts_short {G : Gateway} info (w : World G) :
  String.length (SHA info) < 7 ->
  extractPrompts info w
  = (Panic (sliceFailure (String.length (SHA info))), w).
Proof.
  intros H. unfold extractPrompts.
  now rewrite (bind_Panic _ _ _ _ _ (createBranch_short info w H)).
Qed.

(** C10.  The short SHA is the first seven bytes of the identifier, taken
    with a slice that is not guarded: an extraction panics exactly when the
    identifier has fewer than seven bytes, and otherwise names its branch
    after these seven bytes.  For an identifier shorter than seven bytes
    that the analysis accepted with prompt files, the panic comes before
    anything is printed and when only queries were issued: the repository
    is as before, and the process dies with the panic. *)
Theorem short_identifier_panics_before_any_mutation
        (G : Gateway) (L : GitLaws G) (sha prog : string) (rest : list string)
        (w w1 w2 : World G) (info : CommitInfo) :
  onPromptBranch w = (Ret false, w1) ->
  analyzeCommit sha w1 = (Ret (inl info), w2) ->
  PromptFiles info <> [] ->
  String.length sha < 7 ->
  let crash := sliceFailure (String.length sha) in
  extractPrompts info w2 = (Panic crash, w2)
  /\ processCommit sha w = (Panic crash, w2)
  /\ main (prog :: sha :: rest) w = (Panic crash, w2)
  /\ exitStatus (fst (main (prog :: sha :: rest) w)) = 2
  /\ stdout w2 = stdout w
  /\ (exists t, trace w2 = (trace w ++ t)%list
                /\ Forall (fun c => isQuery c = true) t)
  /\ repo w2 = repo w
  /\ (forall info' (w' : World G),
         (exists msg w'', extractPrompts info' w' = (Panic msg, w''))
         <-> String.length (SHA info') < 7)
  /\ (forall info' (w' : World G),
         7 <= String.length (SHA info') ->
         exists promptBranch err w'',
           createBranch info' w'
           = (Ret (take 7 (SHA info'), promptBranch, err), w'')
           /\ String.length (take 7 (SHA info')) = 7
           /\ HasPrefix (SHA info') (take 7 (SHA info')) = true).
Proof.
  intros Hg Ha Hp Hlen crash.
  destruct (analyzeCommit_info _ _ _ _ Ha) as [Hsha _].
  assert (He : extractPrompts info w2 = (Panic crash, w2)).
  { unfold crash. rewrite <- Hsha. apply extractPrompts_short.
    now rewrite Hsha. }
  assert (Hs : processCommit sha w = (Panic crash, w2)).
  { rewrite (processCommit_extracts sha _ _ _ _ Hg Ha Hp).
    now rewrite (bind_Panic _ _ _ _ _ He). }
  assert (Hm : main (prog :: sha :: rest) w = (Panic crash, w2)).
  { rewrite main_run. now rewrite (bind_Panic _ _ _ _ _ Hs). }
  destruct (ReadOnly_at2 _ _ _ _ _ _ _ ReadOnly_onPromptBranch
                         (ReadOnly_analyzeCommit sha) Hg Ha)
    as (T & S & R).
  split; [exact He|]. split; [exact Hs|]. split; [exact Hm|].
  split; [now rewrite Hm|]. split; [exact S|]. split; [exact T|].
  split; [now apply R|]. split.
  - intros info' w'. split.
    + intros (msg & w'' & E).
      destruct (Nat.lt_ge_cases (String.length (SHA info')) 7) as [|Hge];
        [assumption|].
      destruct (extractPrompts_returns info' w' Hge) as (res & wr & E').
      rewrite E in E'. discriminate.
    + intros Hlt. eexists _, _. now apply extractPrompts_short.
  - intros info' w' Hge.
    eexists _, _, _. split; [apply (createBranch_long info' w' Hge)|].
    now apply take_first.
Qed.

(** A commit named by an abbreviated identifier of six bytes. *)
Lemma short_identifier_panics_before_any_mutation_witness :
  let s := SimGit.repository [SimGit.abbreviated] [] false false in
  exists w2,
    main ["prrompt"; "4444dd"] (SimGit.start s)
    = (Panic "runtime error: slice bounds out of range [:7] with length 6", w2)
    /\ repo w2 = s.
Proof.
  intros s.
  edestruct (@short_identifier_panics_before_any_mutation
               SimGit.gateway sim_laws "4444dd" "prrompt" []
               (SimGit.start s))
    as (_ & _ & E & _ & _ & _ & R & _).
  - vm_compute. reflexivity.
  - vm_compute. reflexivity.
  - vm_compute. discriminate.
  - vm_compute. lia.
  - eexists. split; [exact E|exact R].
Defined.

(* ================================================================== *)
(** ** C2: the classification                                          *)
(* ================================================================== *)

Lemma trimmedEntries_kept entries : trimmedEntries entries = keptPaths entries.
Proof.
  unfold keptPaths. induction entries as [|entry rest IH]; simpl;
    [reflexivity|].
  destruct (TrimSpace entry =? ""); simpl; now rewrite IH.
Qed.

Lemma matchesAny_exists patterns path :
  matchesAny patterns path = true
  <-> exists pattern, In pattern patterns /\ HasPrefix path pattern = true.
Proof.
  induction patterns as [|p rest IH]; simpl.
  - split; [discriminate|intros (x & [] & _)].
  - destruct (HasPrefix path p) eqn:E.
    + split; [intros _; exists p; auto|reflexivity].
    + rewrite IH. split.
      * intros (x & Hin & Hx). exists x. auto.
      * intros (x & [<-|Hin] & Hx); [congruence|]. exists x. auto.
Qed.

Lemma filter_split_length {A} (f : A -> bool) l :
  List.length (filter f l) + List.length (filter (fun x => negb (f x)) l)
  = List.length l.
Proof.
  induction l as [|x l IH]; simpl; [reflexivity|].
  destruct (f x); simpl; lia.
Qed.

Lemma In_keptPaths files path :
  In path (keptPaths files)
  <-> path <> "" /\ exists file, In file files /\ path = TrimSpace file.
Proof.
  unfold keptPaths. rewrite filter_In, in_map_iff, negb_true_iff.
  rewrite String.eqb_neq. split.
  - intros ((file & E & Hin) & Hne). split; [assumption|]. now exists file.
  - intros (Hne & file & Hin & E). split; [|assumption]. now exists file.
Qed.

(** Under the laws a query leaves the world as it is, but for its entry in
    the list of commands. *)
Lemma after_query {G : Gateway} (L : GitLaws G) c (w : World G) :
  isQuery c = true ->
  after c w = mkWorld (repo w) (stdout w) (trace w ++ [c])%list.
Proof.
  intros H. unfold after. now rewrite (query_pure L c (repo w) H).
Qed.

Lemma classifyFiles_run {G : Gateway} (L : GitLaws G) files :
  forall info (w : World G),
    let patterns := patternsIn (repo w) in
    let kept := keptPaths files in
    classifyFiles files info w
    = (Ret (mkCommitInfo
              (SHA info) (Message info)
              (PromptFiles info ++ filter (matchesAny patterns) kept)%list
              (OtherFiles info
               ++ filter (fun f => negb (matchesAny patterns f)) kept)%list
              (IsMixed info) (SourceBranch info)),
       mkWorld (repo w) (stdout w)
               (trace w ++ repeat (ConfigGet "prrompt.promptPatterns")
                                  (List.length kept))%list).
Proof.
  induction files as [|file rest IH]; intros info w; cbv zeta.
  - simpl. rewrite !app_nil_r. now destruct info, w.
  - simpl. unfold keptPaths. simpl.
    destruct (TrimSpace file =? "") eqn:E; simpl.
    + apply IH.
    + rewrite (bind_Ret _ _ _ _ _ (isPromptFile_run _ w)).
      rewrite (after_query L (ConfigGet "prrompt.promptPatterns") w eq_refl).
      destruct (matchesAny (patternsIn (repo w)) (TrimSpace file)) eqn:Hm;
        rewrite IH; simpl; rewrite <- !app_assoc; reflexivity.
Qed.

(** C2 (as amended).  The classification trims every entry of the list of
    changed paths and discards the blank ones; every remaining, trimmed
    path is placed in exactly one of the two sequences, in [PromptFiles]
    if and only if it starts with at least one pattern and in [OtherFiles]
    otherwise, and both sequences keep the order of the input. *)
Theorem classification_partitions_trimmed_paths
        (G : Gateway) (L : GitLaws G) (files : list string)
        (info : CommitInfo) (w : World G) :
  let patterns := patternsIn (repo w) in
  let kept := keptPaths files in
  let prompt := filter (matchesAny patterns) kept in
  let other := filter (fun path => negb (matchesAny patterns path)) kept in
  (exists w',
      classifyFiles files info w
      = (Ret (mkCommitInfo (SHA info) (Message info)
                           (PromptFiles info ++ prompt)%list
                           (OtherFiles info ++ other)%list
                           (IsMixed info) (SourceBranch info)), w')
      /\ repo w' = repo w /\ stdout w' = stdout w)
  /\ (forall path,
         In path kept
         <-> path <> "" /\ exists file, In file files /\ path = TrimSpace file)
  /\ (forall anyPatterns path,
         matchesAny anyPatterns path = true
         <-> exists pattern,
             In pattern anyPatterns /\ HasPrefix path pattern = true)
  /\ (forall path,
         In path prompt <-> In path kept /\ matchesAny patterns path = true)
  /\ (forall path,
         In path other <-> In path kept /\ matchesAny patterns path = false)
  /\ List.length prompt + List.length other = List.length kept.
Proof.
  intros patterns kept prompt other.
  split.
  { eexists. split; [apply (classifyFiles_run L)|]. split; reflexivity. }
  split; [intros path; apply In_keptPaths|].
  split; [intros anyPatterns path; apply matchesAny_exists|].
  split; [intros path; unfold prompt; now rewrite filter_In|].
  split; [|apply filter_split_length].
  intros path. unfold other. now rewrite filter_In, negb_true_iff.
Qed.

(** The changed paths of a commit, one of them with white space around, a
    blank line among them. *)
Lemma classification_partitions_trimmed_paths_witness :
  let s := SimGit.repository [] [] false false in
  let files := ["prompts/a.md"; "src/main.go "; "  "; ".claude/skills/b.md"] in
  exists info w',
    classifyFiles files (mkCommitInfo "" "" [] [] false "") (SimGit.start s)
    = (Ret info, w')
    /\ PromptFiles info = ["prompts/a.md"; ".claude/skills/b.md"]
    /\ OtherFiles info = ["src/main.go"].
Proof.
  intros s files.
  destruct (@classification_partitions_trimmed_paths
              SimGit.gateway sim_laws files
              (mkCommitInfo "" "" [] [] false "") (SimGit.start s))
    as ((w' & E & _) & _).
  eexists _, w'. split; [exact E|]. split; reflexivity.
Defined.

(** C2 as stated fails: a changed path with a leading blank, which starts
    with no pattern and so belongs to the other files as the claim words
    it.  The analysis trims it and places the trimmed path among the prompt
    files; the path itself is in neither sequence. *)
Lemma classification_places_the_trimmed_path :
  let s := SimGit.repository [SimGit.spaced] [] false false in
  let changed := ["src/main.go"; " prompts/test.md"] in
  exists info w',
    analyzeCommit "5555555eeeeeee" (SimGit.start s) = (Ret (inl info), w')
    /\ patternsIn (G := SimGit.gateway) s = defaultPromptPatterns
    /\ classifyAsWorded defaultPromptPatterns changed = ([], changed)
    /\ PromptFiles info = ["prompts/test.md"]
    /\ OtherFiles info = ["src/main.go"]
    /\ (PromptFiles info, OtherFiles info)
       <> classifyAsWorded defaultPromptPatterns changed
    /\ ~ In " prompts/test.md" (PromptFiles info ++ OtherFiles info)%list.
Proof.
  intros s changed. eexists _, _.
  split; [vm_compute; reflexivity|].
  split; [reflexivity|]. split; [reflexivity|].
  split; [reflexivity|]. split; [reflexivity|].
  split; [discriminate|].
  simpl. intros [H|[H|[]]]; discriminate.
Qed.

(* ================================================================== *)
(** ** What the extraction leaves in the repository                    *)
(* ================================================================== *)

Section Frames.

Context {G : Gateway} (L : GitLaws G).

Lemma createBranch_inv info (w : World G) shortSHA promptBranch err w1 :
  createBranch info w = (Ret (shortSHA, promptBranch, err), w1) ->
  7 <= String.length (SHA info)
  /\ shortSHA = take 7 (SHA info)
  /\ promptBranch
     = valueOr "prrompt.branchPrefix" defaultBranchPrefix (repo w)
       ++ "/" ++ shortSHA
  /\ trace w1
     = (trace w ++ [ConfigGet "prrompt.branchPrefix";
                    ConfigGet "prrompt.baseBranch";
                    CheckoutNew promptBranch
                      (valueOr "prrompt.baseBranch" defaultBaseBranch
                               (gitNext (ConfigGet "prrompt.branchPrefix")
                                        (repo w)))])%list.
Proof.
  intros E.
  destruct (Nat.lt_ge_cases (String.length (SHA info)) 7) as [Hlt|Hge].
  { rewrite (createBranch_short info w Hlt) in E. discriminate. }
  rewrite (createBranch_long info w Hge) in E.
  injection E as <- <- <- <-.
  split; [assumption|]. split; [reflexivity|]. split; reflexivity.
Qed.

Lemma createBranch_adds info (w : World G) shortSHA promptBranch w1 :
  createBranch info w = (Ret (shortSHA, promptBranch, None), w1) ->
  In promptBranch (branches G (repo w1)).
Proof.
  intros E.
  destruct (Nat.lt_ge_cases (String.length (SHA info)) 7) as [Hlt|Hge].
  { rewrite (createBranch_short info w Hlt) in E. discriminate. }
  rewrite (createBranch_long info w Hge) in E.
  injection E as <- <- He <-. simpl. now apply (create_adds L).
Qed.

(** The unstage loop on the index and on the files on disk. *)
Lemma unstageAll_state files :
  forall w w' : World G,
    unstageAll files w = (Ret tt, w') ->
    (forall p, In p (worktree G (repo w')) <-> In p (worktree G (repo w)))
    /\ (forall p, In p (staged G (repo w')) -> In p (staged G (repo w)))
    /\ (forall p, In p (staged G (repo w)) -> ~ In p files ->
                  In p (staged G (repo w')))
    /\ (unstagesOk files (repo w) ->
        forall p, In p files -> ~ In p (staged G (repo w')))
    /\ branches G (repo w') = branches G (repo w).
Proof.
  induction files as [|file rest IH]; intros w w' E; simpl in E.
  - injection E as <-. repeat split; auto.
  - rewrite (bind_Ret _ _ _ _ _ (runGit_run _ w)) in E.
    destruct (IH _ _ E) as (Hw & Hs & Hk & Ho & Hb). simpl in *.
    split; [|split; [|split; [|split]]].
    + intros p. rewrite Hw. apply (unstage_worktree L).
    + intros p Hp. apply Hs in Hp. now apply (unstage_staged L) in Hp.
    + intros p Hp Hn. apply Hk.
      * apply (unstage_others L); [assumption|]. intros ->. apply Hn. now left.
      * intros Hin. apply Hn. now right.
    + intros [Hok Hrest] p [<-|Hin].
      * intros Hp. apply Hs in Hp.
        apply (unstage_staged L) in Hp. destruct Hp as [_ Hne].
        now apply (Hne Hok).
      * now apply Ho.
    + rewrite Hb. apply (branches_frame L (RestoreStaged file)).
Qed.

Lemma prepareCommit_state info shortSHA (w w3 : World G) commitMsg :
  prepareCommit info shortSHA w = (Ret commitMsg, w3) ->
  exists w2,
    (if IsMixed info then unstageAll (OtherFiles info) else ret tt) w
    = (Ret tt, w2)
    /\ w3 = after (ConfigGet "prrompt.commitPrefix") w2
    /\ repo w3 = repo w2
    /\ commitMsg
       = commitMessage
           (valueOr "prrompt.commitPrefix" defaultCommitPrefix (repo w2))
           info shortSHA
    /\ trace w3
       = (trace w ++ (if IsMixed info
                      then map RestoreStaged (OtherFiles info) else [])
                  ++ [ConfigGet "prrompt.commitPrefix"])%list
    /\ stdout w3 = stdout w
    /\ branches G (repo w3) = branches G (repo w).
Proof.
  intros E.
  destruct (prepareCommit_run info shortSHA w) as (w2 & Eu & Ep & T & S).
  rewrite Ep in E. injection E as <- <-.
  exists w2. split; [exact Eu|]. split; [reflexivity|].
  assert (Hr : repo (after (ConfigGet "prrompt.commitPrefix") w2) = repo w2)
    by apply (query_pure L (ConfigGet "prrompt.commitPrefix") _ eq_refl).
  split; [exact Hr|]. split; [reflexivity|].
  split; [simpl; rewrite T; now rewrite <- app_assoc|].
  split; [exact S|].
  rewrite Hr. destruct (IsMixed info).
  - now destruct (unstageAll_state _ _ _ Eu) as (_ & _ & _ & _ & Hb).
  - injection Eu as <-. reflexivity.
Qed.

(** Once its branch exists and the cherry-pick went through, an extraction
    issues the commit next, and returns. *)
Lemma extractPrompts_picked info (w w1 w2 w3 : World G) shortSHA promptBranch
      commitMsg :
  createBranch info w = (Ret (shortSHA, promptBranch, None), w1) ->
  cherryPick info shortSHA w1 = (Ret None, w2) ->
  prepareCommit info shortSHA w2 = (Ret commitMsg, w3) ->
  exists res wend after_commit,
    extractPrompts info w = (Ret res, wend)
    /\ trace wend = (trace w3 ++ Commit commitMsg :: after_commit)%list.
Proof.
  intros Hc Hp Hm. rewrite (extractPrompts_created _ _ _ _ _ Hc).
  rewrite (bind_Ret _ _ _ _ _ Hp), (bind_Ret _ _ _ _ _ Hm).
  rewrite (bind_Ret _ _ _ _ _ (runGit_run _ _)).
  destruct (gitErr (Commit commitMsg) (repo w3)).
  - rewrite (bind_Ret _ _ _ _ _ (cleanup_run _ _ _)).
    eexists _, _, _. split; [reflexivity|].
    unfold cleanedUp, after. simpl. rewrite <- !app_assoc. reflexivity.
  - destruct (Total_publish info promptBranch (after (Commit commitMsg) w3))
      as (res & wend & t & E & T).
    exists res, wend, t. split; [exact E|].
    rewrite T. simpl. now rewrite <- app_assoc.
Qed.

Lemma Committed_branches info shortSHA (w1 w4 : World G) commitMsg :
  Committed info shortSHA w1 commitMsg w4 ->
  branches G (repo w4) = branches G (repo w1).
Proof.
  intros [w2 msg w3 Hp Hm He].
  rewrite cherryPick_run in Hp. injection Hp as _ <-.
  destruct (prepareCommit_state _ _ _ _ _ Hm) as (_ & _ & _ & _ & _ & _ & _ & Hb).
  simpl. rewrite (branches_frame L (Commit msg)), Hb. simpl.
  apply (branches_frame L (CherryPickNoCommit (SHA info))).
Qed.

Lemma ReadOnly_generatePRURL branch : ReadOnly (G := G) (generatePRURL branch).
Proof.
  apply ReadOnly_bind; [now apply ReadOnly_query|].
  intros [remoteURL [e|]]; [apply ReadOnly_ret|].
  cbv zeta. destruct (_ =? ""); [apply ReadOnly_ret|].
  apply ReadOnly_bind; [|intros ?; apply ReadOnly_ret].
  apply ReadOnly_bind; [now apply ReadOnly_query|].
  intros [value [e|]]; [apply ReadOnly_ret|].
  destruct (value =? ""); apply ReadOnly_ret.
Qed.

End Frames.

(* ================================================================== *)
(** ** C4: the other files of a mixed commit                           *)
(* ================================================================== *)

(** What the code keeps of C4.  For a mixed commit, once the branch exists
    and the cherry-pick went through, the tool issues exactly one unstage
    command per path of [OtherFiles], in order, and nothing else but the
    read of the commit prefix before it commits.  The files on disk are
    those the cherry-pick left; every path staged by the cherry-pick
    outside [OtherFiles] is still staged when the commit is made, and,
    when each unstage command succeeds, no path of [OtherFiles] is. *)
Theorem mixed_commit_unstages_only
        (G : Gateway) (L : GitLaws G) (info : CommitInfo)
        (w w1 w2 : World G) (shortSHA promptBranch : string) :
  IsMixed info = true ->
  createBranch info w = (Ret (shortSHA, promptBranch, None), w1) ->
  cherryPick info shortSHA w1 = (Ret None, w2) ->
  exists commitMsg w3 res wend after_commit,
    prepareCommit info shortSHA w2 = (Ret commitMsg, w3)
    /\ extractPrompts info w = (Ret res, wend)
    /\ trace wend
       = (trace w2 ++ map RestoreStaged (OtherFiles info)
                   ++ [ConfigGet "prrompt.commitPrefix"; Commit commitMsg]
                   ++ after_commit)%list
    /\ (forall p, In p (worktree G (repo w3)) <-> In p (worktree G (repo w2)))
    /\ (forall p, In p (staged G (repo w3)) -> In p (staged G (repo w2)))
    /\ (forall p, In p (staged G (repo w2)) -> ~ In p (OtherFiles info) ->
                  In p (staged G (repo w3)))
    /\ (unstagesOk (OtherFiles info) (repo w2) ->
        forall p, In p (OtherFiles info) -> ~ In p (staged G (repo w3))).
Proof.
  intros Hmix Hc Hp.
  destruct (Total_prepareCommit info shortSHA w2)
    as (commitMsg & w3 & t & Hm & _).
  destruct (extractPrompts_picked _ _ _ _ _ _ _ _ Hc Hp Hm)
    as (res & wend & rest & E & T).
  destruct (prepareCommit_state L _ _ _ _ _ Hm)
    as (wu & Eu & _ & Hr & _ & T3 & _ & _).
  rewrite Hmix in Eu, T3.
  destruct (unstageAll_state L _ _ _ Eu) as (Hw & Hs & Hk & Ho & _).
  exists commitMsg, w3, res, wend, rest.
  split; [exact Hm|]. split; [exact E|].
  split; [rewrite T, T3; now rewrite <- !app_assoc|].
  rewrite Hr. auto.
Qed.

(** The mixed commit of the test [Test_MixedCommit]. *)
Lemma mixed_commit_unstages_only_witness :
  let info :=
    mkCommitInfo "2222222bbbbbbb" "Add prompt and code" ["prompts/test.md"]
                 ["src/main.go"] true "feature-branch" in
  let w := SimGit.start (SimGit.repository [SimGit.mixed] [] false false) in
  exists commitMsg w3,
    prepareCommit info "2222222"
                  (snd (cherryPick info "2222222" (snd (createBranch info w))))
    = (Ret commitMsg, w3)
    /\ In "prompts/test.md" (staged SimGit.gateway (repo w3))
    /\ ~ In "src/main.go" (staged SimGit.gateway (repo w3))
    /\ In "src/main.go" (worktree SimGit.gateway (repo w3)).
Proof.
  intros info w.
  edestruct (@mixed_commit_unstages_only SimGit.gateway sim_laws info w)
    as (commitMsg & w3 & res & wend & rest & Hm & _ & _ & Hw & _ & Hk & Ho).
  - reflexivity.
  - vm_compute. reflexivity.
  - vm_compute. reflexivity.
  - exists commitMsg, w3. split; [exact Hm|]. split; [|split].
    + apply Hk; [vm_compute; auto|].
      simpl. intros [H|[]]. discriminate.
    + apply Ho; [vm_compute; auto|]. simpl. now left.
    + apply Hw. vm_compute. auto.
Defined.

(** C4, where the code misses it: a mixed commit whose other file has a
    name that ends with a blank.  The analysis records the trimmed name,
    the unstage command is given that name and fails, its result is
    discarded and the commit is made all the same: [processCommit] returns
    without error, the committed tree of the extraction branch holds the
    other file beside the prompt file, and no file is left uncommitted in
    the working tree. *)
Lemma mixed_commit_can_commit_an_other_file :
  let sha := "7777777abcdef0" in
  let changed := ["prompts/test.md"; "src/main.go "] in
  let s := SimGit.repository [(sha, ("Add prompt and code", changed))]
                             [] false false in
  let w0 := SimGit.start s in
  exists info wa w wend before after_commit,
    onPromptBranch w0 = (Ret false, wa)
    /\ analyzeCommit sha wa = (Ret (inl info), w)
    /\ IsMixed info = true
    /\ PromptFiles info = ["prompts/test.md"]
    /\ OtherFiles info = ["src/main.go"]
    /\ processCommit sha w0 = (Ret None, wend)
    /\ main ["prrompt"; sha] w0 = (Ret tt, wend)
    /\ trace wend
       = (before ++ [CherryPickNoCommit sha; RestoreStaged "src/main.go";
                     ConfigGet "prrompt.commitPrefix";
                     Commit ("[prompt] Add prompt and code" ++ nl ++ nl
                             ++ "Extracted from feature-branch (7777777)")]
                 ++ after_commit)%list
    /\ (forall wu : World SimGit.gateway,
           staged SimGit.gateway (repo wu) = changed ->
           gitErr (RestoreStaged "src/main.go") (repo wu)
           = Some (ProcessError "exit status 1"))
    /\ SimGit.lookup "skill-update/7777777" (SimGit.heads (repo wend))
       = Some changed
    /\ worktree SimGit.gateway (repo wend) = [].
Proof.
  intros sha changed s w0.
  eexists _, _, _, _,
    [CurrentBranch; ConfigGet "prrompt.branchPrefix";
     LogMessage sha; CurrentBranch; DiffTree sha;
     ConfigGet "prrompt.promptPatterns"; ConfigGet "prrompt.promptPatterns";
     ConfigGet "prrompt.branchPrefix"; ConfigGet "prrompt.baseBranch";
     CheckoutNew "skill-update/7777777" "main"],
    [Push "skill-update/7777777"; CheckoutForce "feature-branch";
     ConfigGet "remote.origin.url"].
  split; [vm_compute; reflexivity|].
  split; [vm_compute; reflexivity|].
  split; [reflexivity|]. split; [reflexivity|]. split; [reflexivity|].
  split; [vm_compute; reflexivity|].
  split; [vm_compute; reflexivity|].
  split; [vm_compute; reflexivity|].
  split.
  { intros wu Hs. unfold gitErr. simpl in Hs. simpl.
    unfold SimGit.exec. rewrite Hs. reflexivity. }
  split; reflexivity.
Qed.

(* ================================================================== *)
(** ** C5: the message of the extraction commit                        *)
(* ================================================================== *)

(** C5.  For an analysed commit whose extraction reaches the commit, the
    message committed is "[" + commitPrefix + "] " followed by the original
    message; two newlines and "Extracted from " + sourceBranch + " (" +
    shortSha + ")" are appended exactly when the commit is mixed, that is
    when it has other files, so the message of a prompt-only commit ends
    with the original message.  The short SHA is the first seven bytes of
    the identifier and the prefix is the one read from the
    configuration. *)
Theorem extraction_commit_message
        (G : Gateway) (sha : string) (info : CommitInfo)
        (wa w w1 w2 : World G) (shortSHA promptBranch : string) :
  analyzeCommit sha wa = (Ret (inl info), w) ->
  createBranch info w = (Ret (shortSHA, promptBranch, None), w1) ->
  cherryPick info shortSHA w1 = (Ret None, w2) ->
  exists commitPrefix commitMsg w3 res wend after_commit,
    prepareCommit info shortSHA w2 = (Ret commitMsg, w3)
    /\ extractPrompts info w = (Ret res, wend)
    /\ trace wend = (trace w3 ++ Commit commitMsg :: after_commit)%list
    /\ fst (getCommitPrefix
              (snd ((if IsMixed info then unstageAll (OtherFiles info)
                     else ret tt) w2)))
       = Ret commitPrefix
    /\ shortSHA = take 7 sha
    /\ (IsMixed info = true <-> OtherFiles info <> [])
    /\ (OtherFiles info = [] ->
        commitMsg = "[" ++ commitPrefix ++ "] " ++ Message info)
    /\ (OtherFiles info <> [] ->
        commitMsg
        = ("[" ++ commitPrefix ++ "] " ++ Message info)
            ++ nl ++ nl ++ "Extracted from " ++ SourceBranch info
            ++ " (" ++ take 7 sha ++ ")").
Proof.
  intros Ha Hc Hp.
  destruct (analyzeCommit_info _ _ _ _ Ha) as [Hsha Hmixed].
  destruct (prepareCommit_run info shortSHA w2) as (wu & Eu & Hm & _).
  destruct (extractPrompts_picked _ _ _ _ _ _ _ _ Hc Hp Hm)
    as (res & wend & rest & E & T).
  assert (Hshort : shortSHA = take 7 sha).
  { destruct (createBranch_inv _ _ _ _ _ _ Hc) as (_ & Hs & _). now rewrite Hs, Hsha. }
  assert (Hiff : IsMixed info = true <-> OtherFiles info <> []).
  { rewrite Hmixed. destruct (OtherFiles info); simpl.
    - split; [discriminate|congruence].
    - split; [discriminate|reflexivity]. }
  eexists _, _, _, res, wend, rest.
  split; [exact Hm|]. split; [exact E|]. split; [exact T|].
  split; [rewrite Eu; simpl; now rewrite getCommitPrefix_run|].
  split; [exact Hshort|]. split; [exact Hiff|].
  unfold commitMessage. split.
  - intros Ho. destruct (IsMixed info) eqn:Hi; [|reflexivity].
    destruct Hiff as [Hi' _]. now destruct (Hi' eq_refl).
  - intros Ho. apply Hiff in Ho. now rewrite Ho, Hshort.
Qed.

(** The mixed commit of the test [Test_MixedCommit]. *)
Lemma extraction_commit_message_witness :
  let info :=
    mkCommitInfo "2222222bbbbbbb" "Add prompt and code" ["prompts/test.md"]
                 ["src/main.go"] true "feature-branch" in
  let w :=
    snd (analyzeCommit "2222222bbbbbbb"
           (SimGit.start (SimGit.repository [SimGit.mixed] [] false false))) in
  exists (w3 : World SimGit.gateway) res wend after_commit,
    extractPrompts info w = (Ret res, wend)
    /\ trace wend
       = (trace w3
          ++ Commit ("[prompt] Add prompt and code" ++ nl ++ nl
                     ++ "Extracted from feature-branch (2222222)")
             :: after_commit)%list.
Proof.
  intros info w.
  edestruct (@extraction_commit_message SimGit.gateway "2222222bbbbbbb" info
               (SimGit.start (SimGit.repository [SimGit.mixed] [] false false))
               w)
    as (cp & msg & w3 & res & wend & rest & _ & E & T & Hcp & _ & _ & _ & Hm).
  - vm_compute. reflexivity.
  - vm_compute. reflexivity.
  - vm_compute. reflexivity.
  - exists w3, res, wend, rest. split; [exact E|].
    rewrite T, Hm by discriminate.
    vm_compute in Hcp. injection Hcp as <-. reflexivity.
Defined.

(* ================================================================== *)
(** ** C8: a push that fails                                           *)
(* ================================================================== *)

(** C8.  When the extraction commit was made and the push fails, the tool
    prints a warning that carries the error and goes on: it switches back
    to the source branch and, when that switch succeeds, computes the
    comparison URL with queries only, and returns without error.  No
    command deletes the extraction branch, which still exists locally. *)
Theorem push_failure_is_only_a_warning
        (G : Gateway) (L : GitLaws G) (info : CommitInfo)
        (w w1 w4 : World G) (shortSHA promptBranch commitMsg : string)
        (e : error) :
  createBranch info w = (Ret (shortSHA, promptBranch, None), w1) ->
  Committed info shortSHA w1 commitMsg w4 ->
  gitErr (Push promptBranch) (repo w4) = Some e ->
  gitErr (CheckoutForce (SourceBranch info))
         (gitNext (Push promptBranch) (repo w4)) = None ->
  exists wend queries,
    extractPrompts info w = (Ret None, wend)
    /\ In ("Warning: failed to push (you may need to push manually): "
           ++ Error e ++ nl) (stdout wend)
    /\ trace wend
       = (trace w4 ++ [Push promptBranch; CheckoutForce (SourceBranch info)]
                   ++ queries)%list
    /\ Forall (fun c => isQuery c = true) queries
    /\ In promptBranch (branches G (repo wend)).
Proof.
  intros Hc Hk Hpush Hback.
  rewrite (extractPrompts_committed _ _ _ _ _ _ _ Hc Hk).
  assert (Hin : In promptBranch (branches G (repo w4))).
  { rewrite (Committed_branches L _ _ _ _ _ Hk).
    now apply (createBranch_adds L _ _ _ _ _ Hc). }
  unfold publish.
  erewrite bind_Ret by apply print_run.
  erewrite bind_Ret by apply runGit_run.
  cbn [repo printed]. rewrite Hpush.
  erewrite bind_Ret by apply print_run.
  erewrite bind_Ret by apply runGit_run.
  cbn [repo printed after]. rewrite Hback.
  cbv beta iota.
  match goal with |- context [bind (generatePRURL ?b) _ ?x] =>
    destruct (ReadOnly_generatePRURL b x)
      as (prURL & wu & t & Eu & Tu & Qu & Su & Ru)
  end.
  rewrite (bind_Ret _ _ _ _ _ Eu).
  repeat (erewrite bind_Ret by apply print_run).
  eexists _, t. split; [reflexivity|].
  split; [|split; [|split]].
  - simpl. rewrite Su. simpl. rewrite !in_app_iff. simpl. tauto.
  - simpl. rewrite Tu. simpl. now rewrite <- !app_assoc.
  - exact Qu.
  - simpl. rewrite (Ru L). simpl.
    rewrite (branches_frame L (CheckoutForce (SourceBranch info))).
    now rewrite (branches_frame L (Push promptBranch)).
Qed.

(** A prompt-only commit extracted while the remote cannot be reached. *)
Lemma push_failure_is_only_a_warning_witness :
  let info :=
    mkCommitInfo "1111111aaaaaaa" "Add prompt file"
                 [".claude/skills/test.md"] [] false "feature-branch" in
  let w := SimGit.start (SimGit.repository [SimGit.promptOnly] [] false true) in
  exists wend,
    extractPrompts info w = (Ret None, wend)
    /\ In ("Warning: failed to push (you may need to push manually): "
           ++ "exit status 128" ++ nl) (stdout wend)
    /\ In "skill-update/1111111" (branches SimGit.gateway (repo wend)).
Proof.
  intros info w.
  edestruct (@push_failure_is_only_a_warning SimGit.gateway sim_laws info w)
    as (wend & queries & E & W & _ & _ & B).
  - vm_compute. reflexivity.
  - eapply committed; vm_compute; reflexivity.
  - vm_compute. reflexivity.
  - vm_compute. reflexivity.
  - exists wend. split; [exact E|]. split; [exact W|exact B].
Defined.

(* ================================================================== *)
(** ** C9: the configuration                                           *)
(* ================================================================== *)

(** C9.  Each of the four readers returns the value configured for its key
    and its default when the key is absent (git reports an error) or its
    value is empty.  The patterns are the entries of the comma-separated
    value, each trimmed, the empty ones dropped, and the defaults when no
    entry is left.  The values read are the ones used: the extraction
    branch is named with the configured branch prefix and created from the
    configured base branch, the commit message is built with the configured
    commit prefix, and a path is a prompt file exactly when it starts with
    one of the configured patterns. *)
Theorem configuration_defaults_and_overrides (G : Gateway) (w : World G) :
  (fst (getCommitPrefix w)
   = Ret (valueOr "prrompt.commitPrefix" "prompt" (repo w))
   /\ fst (getBranchPrefix w)
      = Ret (valueOr "prrompt.branchPrefix" "skill-update" (repo w))
   /\ fst (getBaseBranch w)
      = Ret (valueOr "prrompt.baseBranch" "main" (repo w))
   /\ fst (getPromptPatterns w) = Ret (patternsIn (repo w)))
  /\ (forall key,
         configured key (repo w) = None
         <-> (gitErr (ConfigGet key) (repo w) <> None
              \/ TrimSpace (fst (fst (git G (ConfigGet key) (repo w)))) = ""))
  /\ (forall key value,
         configured key (repo w) = Some value
         <-> (gitErr (ConfigGet key) (repo w) = None
              /\ value = TrimSpace (fst (fst (git G (ConfigGet key) (repo w))))
              /\ value <> ""))
  /\ (forall key default,
         configured key (repo w) = None -> valueOr key default (repo w) = default)
  /\ (forall key default value,
         configured key (repo w) = Some value ->
         valueOr key default (repo w) = value)
  /\ (configured "prrompt.promptPatterns" (repo w) = None ->
      patternsIn (repo w) = [".claude/skills/"; "prompts/"])
  /\ (forall value,
         configured "prrompt.promptPatterns" (repo w) = Some value ->
         keptPaths (Split value ",") = [] ->
         patternsIn (repo w) = [".claude/skills/"; "prompts/"])
  /\ (forall value,
         configured "prrompt.promptPatterns" (repo w) = Some value ->
         keptPaths (Split value ",") <> [] ->
         patternsIn (repo w) = keptPaths (Split value ","))
  /\ (forall path,
         fst (isPromptFile path w) = Ret (matchesAny (patternsIn (repo w)) path))
  /\ (forall info,
         7 <= String.length (SHA info) ->
         exists err w',
           createBranch info w
           = (Ret (take 7 (SHA info),
                   valueOr "prrompt.branchPrefix" "skill-update" (repo w)
                   ++ "/" ++ take 7 (SHA info), err), w')
           /\ trace w'
              = (trace w
                 ++ [ConfigGet "prrompt.branchPrefix";
                     ConfigGet "prrompt.baseBranch";
                     CheckoutNew
                       (valueOr "prrompt.branchPrefix" "skill-update" (repo w)
                        ++ "/" ++ take 7 (SHA info))
                       (valueOr "prrompt.baseBranch" "main"
                          (gitNext (ConfigGet "prrompt.branchPrefix")
                                   (repo w)))])%list)
  /\ (forall info shortSHA,
         IsMixed info = false ->
         fst (prepareCommit info shortSHA w)
         = Ret ("[" ++ valueOr "prrompt.commitPrefix" "prompt" (repo w)
                ++ "] " ++ Message info)).
Proof.
  split.
  { rewrite getCommitPrefix_run, getBranchPrefix_run, getBaseBranch_run,
      getPromptPatterns_run. auto. }
  split.
  { intros key. rewrite configured_cases.
    destruct (gitErr (ConfigGet key) (repo w)) as [e|].
    - split; [intros _; left; discriminate|reflexivity].
    - destruct (TrimSpace _ =? "") eqn:E.
      + apply String.eqb_eq in E. split; [now right|reflexivity].
      + apply String.eqb_neq in E. split; [discriminate|].
        intros [H|H]; [now destruct H|contradiction]. }
  split.
  { intros key value. rewrite configured_cases.
    destruct (gitErr (ConfigGet key) (repo w)) as [e|].
    - split; [discriminate|intros (H & _); discriminate].
    - destruct (TrimSpace _ =? "") eqn:E.
      + apply String.eqb_eq in E. split; [discriminate|].
        intros (_ & -> & H). contradiction.
      + apply String.eqb_neq in E. split.
        * intros H. injection H as <-. auto.
        * intros (_ & -> & _). reflexivity. }
  split; [intros key default H; unfold valueOr; now rewrite H|].
  split; [intros key default value H; unfold valueOr; now rewrite H|].
  split; [intros H; unfold patternsIn; now rewrite H|].
  split.
  { intros value H Hk. unfold patternsIn.
    now rewrite H, trimmedEntries_kept, Hk. }
  split.
  { intros value H Hk. unfold patternsIn.
    rewrite H, trimmedEntries_kept.
    destruct (keptPaths (Split value ",")); [contradiction|reflexivity]. }
  split; [intros path; now rewrite isPromptFile_run|].
  split.
  { intros info Hlen. eexists _, _.
    split; [apply (createBranch_long info w Hlen)|reflexivity]. }
  intros info shortSHA Hmix.
  destruct (prepareCommit_run info shortSHA w) as (w2 & Eu & E & _).
  rewrite Hmix in Eu. injection Eu as <-.
  rewrite E. unfold commitMessage. now rewrite Hmix.
Qed.

(** The settings of the test [Test_CustomConfig]. *)
Lemma configuration_defaults_and_overrides_witness :
  let w :=
    SimGit.start
      (SimGit.configure SimGit.customSettings
         (SimGit.repository [SimGit.customPrompt] [] false false)) in
  let info :=
    mkCommitInfo "6666666fffffff" "Add prompt file" ["custom/prompts/test.md"]
                 [] false "feature-branch" in
  patternsIn (repo w) = ["custom/prompts/"; "docs/prompts/"]
  /\ fst (isPromptFile "custom/prompts/test.md" w) = Ret true
  /\ fst (isPromptFile "prompts/test.md" w) = Ret false
  /\ fst (prepareCommit info "6666666" w) = Ret "[custom-prefix] Add prompt file"
  /\ exists err w',
       createBranch info w = (Ret ("6666666", "custom-branch/6666666", err), w')
       /\ In (CheckoutNew "custom-branch/6666666" "main") (trace w').
Proof.
  intros w info.
  destruct (@configuration_defaults_and_overrides SimGit.gateway w)
    as (_ & _ & _ & _ & _ & _ & _ & Hpat & Hfile & Hbranch & Hmsg).
  split; [apply (Hpat "custom/prompts/, docs/prompts/ ,,");
          [reflexivity|discriminate]|].
  split; [now rewrite Hfile|]. split; [now rewrite Hfile|].
  split; [now rewrite Hmsg|].
  destruct (Hbranch info) as (err & w' & E & T); [simpl; lia|].
  exists err, w'. split; [exact E|].
  rewrite T. simpl. auto.
Defined.

(* ================================================================== *)
(** ** The older variant between cherry-pick and commit                *)
(* ================================================================== *)

(** The older variant issues two commands per non-skill file: the unstage
    and the restore of the working tree. *)
Lemma legacy_removeAll_run (G : Gateway) files :
  forall w : World G,
    exists w',
      Legacy.removeAll files w = (Ret tt, w')
      /\ trace w'
         = (trace w
            ++ flat_map (fun f => [RestoreStaged f; RestoreWorktree f]) files)%list.
Proof.
  induction files as [|file rest IH]; intros w; simpl.
  - exists w. split; [reflexivity|now rewrite app_nil_r].
  - destruct (IH (after (RestoreWorktree file)
                    (after (RestoreStaged file)
                       (printed ("  Removing: " ++ file ++ nl) w))))
      as (w' & E & T).
    exists w'. split.
    + erewrite bind_Ret by apply print_run.
      erewrite bind_Ret by apply runGit_run.
      erewrite bind_Ret by apply runGit_run.
      exact E.
    + rewrite T. simpl. now rewrite <- !app_assoc.
Qed.

(** Its commit message starts with the fixed text "skill: ". *)
Lemma legacy_commit_message (G : Gateway) info shortSHA (w : World G) :
  IsMixed info = false ->
  Legacy.prepareCommit info shortSHA w = (Ret ("skill: " ++ Message info), w).
Proof.
  intros H. unfold Legacy.prepareCommit. rewrite H. reflexivity.
Qed.

(* ================================================================== *)
(** ** The scenarios of the test suite on the reference gateway        *)
(* ================================================================== *)

(** [Test_PromptOnlyCommit]: back on the source branch, the extraction
    branch holds the prompt file, the message carries the prefix. *)
Example scenario_prompt_only_commit :
  let s := SimGit.repository [SimGit.promptOnly] [] false false in
  let run := processCommit "1111111aaaaaaa" (SimGit.start s) in
  fst run = Ret None
  /\ SimGit.head (repo (snd run)) = "feature-branch"
  /\ SimGit.lookup "skill-update/1111111" (SimGit.heads (repo (snd run)))
     = Some [".claude/skills/test.md"]
  /\ SimGit.messages (repo (snd run))
     = [("skill-update/1111111", "[prompt] Add prompt file")]
  /\ SimGit.remote (repo (snd run)) = ["skill-update/1111111"].
Proof. vm_compute. repeat split. Qed.

(** [Test_MixedCommit]: the extraction branch holds the prompt file only,
    the message names the source branch and the short SHA. *)
Example scenario_mixed_commit :
  let s := SimGit.repository [SimGit.mixed] [] false false in
  let run := processCommit "2222222bbbbbbb" (SimGit.start s) in
  fst run = Ret None
  /\ SimGit.head (repo (snd run)) = "feature-branch"
  /\ SimGit.lookup "skill-update/2222222" (SimGit.heads (repo (snd run)))
     = Some ["prompts/test.md"]
  /\ SimGit.messages (repo (snd run))
     = [("skill-update/2222222",
         "[prompt] Add prompt and code" ++ nl ++ nl
         ++ "Extracted from feature-branch (2222222)")].
Proof. vm_compute. repeat split. Qed.

(** [Test_CustomConfig]: the configured prefixes name the branch and open
    the message. *)
Example scenario_custom_config :
  let s :=
    SimGit.configure SimGit.customSettings
      (SimGit.repository [SimGit.customPrompt] [] false false) in
  let run := processCommit "6666666fffffff" (SimGit.start s) in
  fst run = Ret None
  /\ SimGit.lookup "custom-branch/6666666" (SimGit.heads (repo (snd run)))
     = Some ["custom/prompts/test.md"]
  /\ SimGit.messages (repo (snd run))
     = [("custom-branch/6666666", "[custom-prefix] Add prompt file")].
Proof. vm_compute. repeat split. Qed.

(** [Test_NoPromptFiles] and [Test_InvalidCommitSHA]: no command but
    queries. *)
Example scenario_nothing_to_extract :
  let s := SimGit.repository [SimGit.codeOnly] [] false false in
  trace (snd (processCommit "3333333ccccccc" (SimGit.start s)))
  = [CurrentBranch; ConfigGet "prrompt.branchPrefix";
     LogMessage "3333333ccccccc"; CurrentBranch; DiffTree "3333333ccccccc";
     ConfigGet "prrompt.promptPatterns"]
  /\ trace (snd (processCommit "invalid-sha-12345" (SimGit.start s)))
     = [CurrentBranch; ConfigGet "prrompt.branchPrefix";
        LogMessage "invalid-sha-12345"].
Proof. vm_compute. split; reflexivity. Qed.

(* ================================================================== *)
(** ** Facts about the string functions                                *)
(* ================================================================== *)

Lemma append_nil_r s : s ++ "" = s.
Proof. induction s as [|c s IH]; simpl; [reflexivity|now rewrite IH]. Qed.

Lemma append_assoc_r a b c : (a ++ b) ++ c = a ++ b ++ c.
Proof. induction a as [|x a IH]; simpl; [reflexivity|now rewrite IH]. Qed.

Lemma string_length_app a b :
  String.length (a ++ b) = String.length a + String.length b.
Proof. induction a as [|x a IH]; simpl; [reflexivity|now rewrite IH]. Qed.

Lemma HasPrefix_app a b : HasPrefix (a ++ b) a = true.
Proof.
  unfold HasPrefix. induction a as [|x a IH]; simpl.
  - now destruct b.
  - destruct (ascii_dec x x); [exact IH|contradiction].
Qed.

Lemma HasPrefix_empty p : p <> "" -> HasPrefix "" p = false.
Proof. destruct p; [contradiction|reflexivity]. Qed.

Lemma drop_app a b : drop (String.length a) (a ++ b) = b.
Proof. induction a as [|x a IH]; simpl; [now destruct b|exact IH]. Qed.

Lemma take_app a b : take (String.length a) (a ++ b) = a.
Proof.
  unfold take. induction a as [|x a IH]; simpl.
  - now destruct b.
  - now rewrite IH.
Qed.

Lemma take_length_le n : forall s, String.length (take n s) <= n.
Proof.
  unfold take. induction n as [|n IH]; intros [|c s]; simpl; try lia.
  specialize (IH s). lia.
Qed.

Lemma take_all n : forall s, String.length s <= n -> take n s = s.
Proof.
  unfold take. induction n as [|n IH]; intros [|c s] H; simpl in *;
    try reflexivity; try lia.
  rewrite IH; [reflexivity|lia].
Qed.

Lemma TrimPrefix_app p s : TrimPrefix (p ++ s) p = s.
Proof. unfold TrimPrefix. now rewrite HasPrefix_app, drop_app. Qed.

Lemma TrimSuffix_app s suffix : TrimSuffix (s ++ suffix) suffix = s.
Proof.
  unfold TrimSuffix, HasSuffix. rewrite string_length_app.
  replace (String.length s + String.length suffix - String.length suffix)
    with (String.length s) by lia.
  rewrite drop_app, String.eqb_refl, take_app.
  destruct (Nat.leb_spec (String.length suffix)
                         (String.length s + String.length suffix));
    [reflexivity|lia].
Qed.

(** Without an occurrence of the separator nothing is cut. *)
Lemma splitFrom_whole sep : forall s cur,
  Contains s sep = false -> splitFrom sep s 0 cur = [cur ++ s].
Proof.
  induction s as [|c s IH]; intros cur H; simpl in *.
  - now rewrite append_nil_r.
  - apply orb_false_iff in H. destruct H as [Hp Hc].
    rewrite Hp, (IH _ Hc), append_assoc_r. reflexivity.
Qed.

(* ================================================================== *)
(** ** [truncate] and [generatePRURL]                                  *)
(* ================================================================== *)

(** X1.  [truncate] returns at most [maxLen] + 3 bytes, always starts with
    the first [maxLen] bytes of the string, and is either the string
    itself or, for a string longer than [maxLen], its first [maxLen] bytes
    followed by three dots. *)
Theorem truncate_bounds (s : string) (maxLen : nat) :
  String.length (truncate s maxLen) <= maxLen + 3
  /\ HasPrefix (truncate s maxLen) (take maxLen s) = true
  /\ ((String.length s <= maxLen /\ truncate s maxLen = s)
      \/ (maxLen < String.length s
          /\ truncate s maxLen = take maxLen s ++ "..."
          /\ String.length (truncate s maxLen) = maxLen + 3)).
Proof.
  unfold truncate.
  destruct (Nat.leb_spec (String.length s) maxLen) as [H|H].
  - split; [lia|]. split; [|now left].
    rewrite (take_all _ _ H). rewrite <- (append_nil_r s) at 1.
    apply HasPrefix_app.
  - assert (Hl : String.length (take maxLen s) = maxLen)
      by (apply take_first; lia).
    split; [rewrite string_length_app, Hl; simpl; lia|].
    split; [apply HasPrefix_app|]. right.
    split; [assumption|]. split; [reflexivity|].
    rewrite string_length_app, Hl. reflexivity.
Qed.

Lemma generatePRURL_run (G : Gateway) branch (w : World G) :
  let q := ConfigGet "remote.origin.url" in
  generatePRURL branch w
  = match gitErr q (repo w) with
    | Some _ => (Ret (manualNote branch), after q w)
    | None =>
        if repoPathOf (gitOut q (repo w)) =? ""
        then (Ret (manualNote branch), after q w)
        else
          (Ret (compareURL (repoPathOf (gitOut q (repo w)))
                           (valueOr "prrompt.baseBranch" defaultBaseBranch
                                    (gitNext q (repo w)))
                           branch),
           after (ConfigGet "prrompt.baseBranch") (after q w))
    end.
Proof.
  intros q. unfold generatePRURL.
  rewrite (bind_Ret _ _ _ _ _ (runGit_run q w)).
  destruct (gitErr q (repo w)); [reflexivity|].
  cbv zeta. fold (gitOut q (repo w)). fold (repoPathOf (gitOut q (repo w))).
  destruct (repoPathOf (gitOut q (repo w)) =? ""); [reflexivity|].
  now rewrite (bind_Ret _ _ _ _ _ (getBaseBranch_run _)).
Qed.


Lemma repoPathOf_ssh path :
  repoPathOf ("git@github.com:" ++ path ++ ".git") = path.
Proof.
  unfold repoPathOf.
  now rewrite HasPrefix_app, TrimPrefix_app, TrimSuffix_app.
Qed.

Lemma HasPrefix_nil s : HasPrefix s "" = true.
Proof. now destruct s. Qed.

Lemma Contains_here s sub : HasPrefix s sub = true -> Contains s sub = true.
Proof. intros H. destruct s; cbn [Contains]; now rewrite H. Qed.

Lemma Contains_later a : forall s sub,
  Contains s sub = true -> Contains (a ++ s) sub = true.
Proof.
  induction a as [|c a IH]; intros s sub H; cbn [append Contains];
    [assumption|].
  rewrite (IH _ _ H). apply orb_true_r.
Qed.

Lemma splitFrom_pass sep c s cur :
  HasPrefix (String c s) sep = false ->
  splitFrom sep (String c s) 0 cur = splitFrom sep s 0 (cur ++ String c "").
Proof. intros H. cbn [splitFrom]. now rewrite H. Qed.

Lemma splitFrom_skip sep a : forall s cur,
  splitFrom sep (a ++ s) (String.length a) cur = splitFrom sep s 0 cur.
Proof.
  induction a as [|c a IH]; intros s cur; simpl; [|apply IH].
  destruct s; reflexivity.
Qed.

(** At an occurrence of the separator the piece ends and the separator is
    passed over. *)
Lemma splitFrom_cut c sep s cur :
  splitFrom (String c sep) (String c sep ++ s) 0 cur
  = cur :: splitFrom (String c sep) s 0 "".
Proof.
  change (splitFrom (String c sep) (String c sep ++ s) 0 cur)
    with (if HasPrefix (String c sep ++ s) (String c sep)
          then cur :: splitFrom (String c sep) (sep ++ s)
                        (String.length (String c sep) - 1) ""
          else splitFrom (String c sep) (sep ++ s) 0 (cur ++ String c "")).
  rewrite HasPrefix_app. cbn [String.length].
  replace (S (String.length sep) - 1) with (String.length sep) by lia.
  now rewrite splitFrom_skip.
Qed.

Lemma Split_https rest :
  Contains rest "github.com/" = false ->
  Split ("https://github.com/" ++ rest) "github.com/" = ["https://"; rest].
Proof.
  intros H. unfold Split. cbn [append].
  repeat (rewrite splitFrom_pass by reflexivity).
  change (splitFrom "github.com/" (String "g" "ithub.com/" ++ rest) 0
                    "https://" = ["https://"; rest]).
  rewrite (splitFrom_cut "g" "ithub.com/" rest "https://").
  now rewrite (splitFrom_whole _ _ _ H).
Qed.

Lemma repoPathOf_https path :
  Contains (path ++ ".git") "github.com/" = false ->
  repoPathOf ("https://github.com/" ++ path ++ ".git") = path.
Proof.
  intros H. unfold repoPathOf.
  replace (HasPrefix ("https://github.com/" ++ path ++ ".git")
                     "git@github.com:") with false by reflexivity.
  replace (Contains ("https://github.com/" ++ path ++ ".git") "github.com/")
    with true.
  - cbv zeta. rewrite (Split_https _ H). simpl. apply TrimSuffix_app.
  - symmetry.
    apply (Contains_later "https://" ("github.com/" ++ path ++ ".git")).
    apply Contains_here, HasPrefix_app.
Qed.

(** X3.  For a remote of the form git@github.com:PATH.git or
    https://github.com/PATH.git (PATH not empty and, in the second form,
    without a further "github.com/"), [generatePRURL] returns the compare
    link of PATH from the configured base branch to the branch. *)
Theorem pr_url_of_github_remote
        (G : Gateway) (branch path : string) (w : World G) :
  let q := ConfigGet "remote.origin.url" in
  gitErr q (repo w) = None ->
  path <> "" ->
  gitOut q (repo w) = "git@github.com:" ++ path ++ ".git"
  \/ (gitOut q (repo w) = "https://github.com/" ++ path ++ ".git"
      /\ Contains (path ++ ".git") "github.com/" = false) ->
  fst (generatePRURL branch w)
  = Ret ("https://github.com/" ++ path ++ "/compare/"
         ++ valueOr "prrompt.baseBranch" "main" (gitNext q (repo w))
         ++ "..." ++ branch ++ "?expand=1").
Proof.
  intros q He Hp Hurl. rewrite generatePRURL_run. fold q. rewrite He.
  assert (Hr : repoPathOf (gitOut q (repo w)) = path).
  { destruct Hurl as [->|[-> Hc]];
      [apply repoPathOf_ssh|now apply repoPathOf_https]. }
  rewrite Hr. apply String.eqb_neq in Hp. now rewrite Hp.
Qed.

(** A remote given by its HTTPS address. *)
Lemma pr_url_of_github_remote_witness :
  let s :=
    SimGit.configure
      [("remote.origin.url", "https://github.com/user/repo.git");
       ("prrompt.baseBranch", "develop")]
      (SimGit.repository [SimGit.promptOnly] [] false false) in
  fst (generatePRURL "skill-update/1111111" (SimGit.start s))
  = Ret "https://github.com/user/repo/compare/develop...skill-update/1111111?expand=1".
Proof.
  intros s.
  rewrite (@pr_url_of_github_remote SimGit.gateway "skill-update/1111111"
             "user/repo" (SimGit.start s)).
  - reflexivity.
  - reflexivity.
  - discriminate.
  - right. split; reflexivity.
Defined.

(* ================================================================== *)
(** ** The analysis as a whole                                         *)
(* ================================================================== *)

(** The loop of the classification issues one read of the patterns per
    kept path and places each kept path in one of the two lists, whatever
    the patterns read. *)
Lemma classifyFiles_counts (G : Gateway) files :
  forall info (w : World G),
    exists info' w',
      classifyFiles files info w = (Ret info', w')
      /\ trace w'
         = (trace w ++ repeat (ConfigGet "prrompt.promptPatterns")
                              (List.length (keptPaths files)))%list
      /\ stdout w' = stdout w
      /\ List.length (PromptFiles info') + List.length (OtherFiles info')
         = List.length (PromptFiles info) + List.length (OtherFiles info)
           + List.length (keptPaths files).
Proof.
  induction files as [|file rest IH]; intros info w.
  - exists info, w. simpl. rewrite app_nil_r. repeat split; lia.
  - simpl. unfold keptPaths. simpl.
    destruct (TrimSpace file =? "") eqn:E; simpl.
    + apply IH.
    + rewrite (bind_Ret _ _ _ _ _ (isPromptFile_run _ w)).
      destruct (matchesAny (patternsIn (repo w)) (TrimSpace file));
        match goal with |- context [classifyFiles rest ?i ?x] =>
          destruct (IH i x) as (info' & w' & Ec & T & S & Hl)
        end;
        exists info', w'; (split; [exact Ec|]);
        (split; [rewrite T; simpl; now rewrite <- app_assoc|]);
        (split; [exact S|]);
        rewrite Hl; simpl; rewrite ?List.length_app; simpl;
        fold (keptPaths rest); lia.
Qed.

(** X4.  The analysis issues its three commands in order and stops at the
    first that fails, returning the error of that command under its own
    text.  When all three succeed it returns the commit with the
    identifier given, the trimmed message, the trimmed name of the branch
    checked out then, and [IsMixed] set exactly when there are other
    files; it has then issued one read of the patterns per kept path of
    the changed-file list, and each kept path is in one of the two
    lists.  It prints nothing. *)
Theorem analysis_outcomes (G : Gateway) (sha : string) (w : World G) :
  let r1 := gitNext (LogMessage sha) (repo w) in
  let r2 := gitNext CurrentBranch r1 in
  let kept := keptPaths (Split (gitOut (DiffTree sha) r2) nl) in
  exists res w',
    analyzeCommit sha w = (Ret res, w')
    /\ stdout w' = stdout w
    /\ match gitErr (LogMessage sha) (repo w), gitErr CurrentBranch r1,
             gitErr (DiffTree sha) r2 with
       | Some e, _, _ =>
           res = inr (Errorf "failed to get commit message: " e)
           /\ trace w' = (trace w ++ [LogMessage sha])%list
       | None, Some e, _ =>
           res = inr (Errorf "failed to get current branch: " e)
           /\ trace w' = (trace w ++ [LogMessage sha; CurrentBranch])%list
       | None, None, Some e =>
           res = inr (Errorf "failed to get changed files: " e)
           /\ trace w'
              = (trace w ++ [LogMessage sha; CurrentBranch; DiffTree sha])%list
       | None, None, None =>
           exists info,
             res = inl info
             /\ SHA info = sha
             /\ Message info = gitOut (LogMessage sha) (repo w)
             /\ SourceBranch info = gitOut CurrentBranch r1
             /\ (IsMixed info = true <-> OtherFiles info <> [])
             /\ List.length (PromptFiles info) + List.length (OtherFiles info)
                = List.length kept
             /\ trace w'
                = (trace w ++ [LogMessage sha; CurrentBranch; DiffTree sha]
                           ++ repeat (ConfigGet "prrompt.promptPatterns")
                                     (List.length kept))%list
       end.
Proof.
  intros r1 r2 kept. unfold analyzeCommit.
  rewrite (bind_Ret _ _ _ _ _ (runGit_run _ w)).
  destruct (gitErr (LogMessage sha) (repo w)) as [e|].
  { eexists _, _. split; [reflexivity|]. split; [reflexivity|]. now split. }
  rewrite (bind_Ret _ _ _ _ _ (runGit_run _ _)). cbn [repo after]. fold r1.
  destruct (gitErr CurrentBranch r1) as [e|].
  { eexists _, _. split; [reflexivity|]. split; [reflexivity|].
    split; [reflexivity|]. simpl. now rewrite <- app_assoc. }
  rewrite (bind_Ret _ _ _ _ _ (runGit_run _ _)). cbn [repo after]. fold r1 r2.
  destruct (gitErr (DiffTree sha) r2) as [e|].
  { eexists _, _. split; [reflexivity|]. split; [reflexivity|].
    split; [reflexivity|]. simpl. now rewrite <- !app_assoc. }
  match goal with |- context [bind (classifyFiles ?f ?i) _ ?x] =>
    destruct (classifyFiles_counts G f i x) as (info & w' & E & T & S & Hl);
    destruct (classifyFiles_fields f i x info w' E) as (Hs & Hm & Hb)
  end.
  rewrite (bind_Ret _ _ _ _ _ E).
  eexists _, _. split; [reflexivity|]. split; [exact S|].
  eexists. split; [reflexivity|]. cbn [SHA Message SourceBranch IsMixed
                                        PromptFiles OtherFiles].
  split; [exact Hs|]. split; [exact Hm|]. split; [exact Hb|].
  split.
  { destruct (OtherFiles info); simpl.
    - split; [discriminate|congruence].
    - split; [discriminate|reflexivity]. }
  split; [exact Hl|].
  rewrite T. simpl. now rewrite <- !app_assoc.
Qed.

(* ================================================================== *)
(** ** The patterns in force                                           *)
(* ================================================================== *)

Lemma matchesAny_empty_path patterns :
  ~ In "" patterns -> matchesAny patterns "" = false.
Proof.
  induction patterns as [|p rest IH]; intros H; cbn [matchesAny];
    [reflexivity|].
  rewrite HasPrefix_empty by (intros ->; apply H; now left).
  apply IH. intros Hin. apply H. now right.
Qed.

(** X5.  Whatever the configuration holds, the list of patterns
    [getPromptPatterns] returns is not empty and contains no empty
    pattern: no setting makes every path a prompt file through an empty
    prefix, and the empty path is never a prompt file. *)
Theorem patterns_are_never_empty (G : Gateway) (w : World G) :
  exists patterns w',
    getPromptPatterns w = (Ret patterns, w')
    /\ patterns <> []
    /\ ~ In "" patterns
    /\ matchesAny patterns "" = false.
Proof.
  rewrite getPromptPatterns_run. eexists _, _. split; [reflexivity|].
  assert (H : patternsIn (repo w) <> [] /\ ~ In "" (patternsIn (repo w))).
  { unfold patternsIn.
    destruct (configured "prrompt.promptPatterns" (repo w)) as [value|].
    - destruct (trimmedEntries (Split value ",")) as [|p rest] eqn:E.
      + split; [discriminate|]. simpl. intros [H|[H|[]]]; discriminate.
      + split; [discriminate|]. rewrite <- E, trimmedEntries_kept.
        intros Hin. apply In_keptPaths in Hin. now destruct Hin.
    - split; [discriminate|]. simpl. intros [H|[H|[]]]; discriminate. }
  destruct H as [Hne Hin]. split; [exact Hne|]. split; [exact Hin|].
  now apply matchesAny_empty_path.
Qed.

(* ================================================================== *)
(** ** The entry guard and the names of the branches                   *)
(* ================================================================== *)

Lemma unborn_laws : GitLaws Unborn.gateway.
Proof.
  constructor.
  - intros c r H. destruct c; try discriminate; try reflexivity;
      exact (query_pure sim_laws _ r H).
  - exact (create_adds sim_laws).
  - exact (delete_removes sim_laws).
  - intros c r. destruct c; try exact I; try reflexivity;
      match goal with |- branches _ (gitNext ?c _) = _ =>
        exact (branches_frame sim_laws c r)
      end.
  - exact (unstage_staged sim_laws).
  - exact (unstage_others sim_laws).
  - exact (unstage_worktree sim_laws).
Qed.

(** X6.  When git cannot name the branch checked out but knows the
    commit, the guard does not skip and does not read the branch prefix:
    the analysis runs and fails on the same question, so the tool reports
    "error analyzing commit: failed to get current branch" with git's
    error and ends with status 1, having issued three queries. *)
Theorem unreadable_branch_is_reported
        (G : Gateway) (L : GitLaws G) (sha prog : string) (rest : list string)
        (w : World G) (e : error) :
  gitErr CurrentBranch (repo w) = Some e ->
  gitErr (LogMessage sha) (repo w) = None ->
  let failure :=
    Errorf "error analyzing commit: "
           (Errorf "failed to get current branch: " e) in
  exists w',
    processCommit sha w = (Ret (Some failure), w')
    /\ main (prog :: sha :: rest) w = (Exit 1, printed (Error failure ++ nl) w')
    /\ trace w' = (trace w ++ [CurrentBranch; LogMessage sha; CurrentBranch])%list
    /\ stdout w' = stdout w
    /\ repo w' = repo w.
Proof.
  intros Hb Hl failure.
  assert (Hg : onPromptBranch w = (Ret false, after CurrentBranch w)).
  { rewrite onPromptBranch_run, branchName_cases. now rewrite Hb. }
  assert (Hq : forall c, isQuery c = true -> gitNext c (repo w) = repo w)
    by (intros c Hc; apply (query_pure L c _ Hc)).
  assert (Ha : analyzeCommit sha (after CurrentBranch w)
               = (Ret (inr (Errorf "failed to get current branch: " e)),
                  after CurrentBranch
                        (after (LogMessage sha) (after CurrentBranch w)))).
  { unfold analyzeCommit.
    rewrite (bind_Ret _ _ _ _ _ (runGit_run _ _)). cbn [repo after].
    rewrite (Hq CurrentBranch eq_refl), Hl.
    rewrite (bind_Ret _ _ _ _ _ (runGit_run _ _)). cbn [repo after].
    rewrite (Hq CurrentBranch eq_refl), (Hq (LogMessage sha) eq_refl).
    now rewrite Hb. }
  assert (Hs := processCommit_analysis_fails sha _ _ _ _ Hg Ha).
  eexists. split; [exact Hs|].
  split; [rewrite main_run; now rewrite (bind_Ret _ _ _ _ _ Hs)|].
  split; [simpl; now rewrite <- !app_assoc|].
  split; [reflexivity|].
  simpl. rewrite (Hq CurrentBranch eq_refl), (Hq (LogMessage sha) eq_refl).
  apply (Hq CurrentBranch eq_refl).
Qed.

(** A commit of another branch named while no commit is checked out. *)
Lemma unreadable_branch_is_reported_witness :
  let s := SimGit.repository [SimGit.promptOnly] [] false false in
  exists w',
    main ["prrompt"; "1111111aaaaaaa"] (Unborn.start s) = (Exit 1, w')
    /\ stdout w'
       = ["error analyzing commit: failed to get current branch: exit status 128"
          ++ nl].
Proof.
  intros s.
  edestruct (@unreadable_branch_is_reported Unborn.gateway unborn_laws
               "1111111aaaaaaa" "prrompt" [] (Unborn.start s))
    as (w' & _ & E & _ & S & _).
  - vm_compute. reflexivity.
  - vm_compute. reflexivity.
  - eexists. split; [exact E|]. simpl. rewrite S. reflexivity.
Defined.

(** The branch a successful analysis recorded is the one git named when
    asked, after the message was read. *)
Lemma analyzeCommit_source (G : Gateway) sha (w : World G) info w' :
  analyzeCommit sha w = (Ret (inl info), w') ->
  let r1 := gitNext (LogMessage sha) (repo w) in
  gitErr CurrentBranch r1 = None
  /\ SourceBranch info = gitOut CurrentBranch r1.
Proof.
  intros E r1. unfold analyzeCommit in E.
  rewrite (bind_Ret _ _ _ _ _ (runGit_run _ w)) in E.
  destruct (gitErr (LogMessage sha) (repo w)); [discriminate|].
  rewrite (bind_Ret _ _ _ _ _ (runGit_run _ _)) in E.
  cbn [repo after] in E. fold r1 in E.
  destruct (gitErr CurrentBranch r1); [discriminate|].
  rewrite (bind_Ret _ _ _ _ _ (runGit_run _ _)) in E.
  destruct (gitErr (DiffTree sha) _); [discriminate|].
  apply bind_inv in E. destruct E as (info0 & w4 & Hc & E).
  apply classifyFiles_fields in Hc. destruct Hc as (_ & _ & Hb).
  unfold ret in E. injection E as <- _. split; [reflexivity|exact Hb].
Qed.

Lemma promptBranch_has_prefix branchPrefix shortSHA :
  HasPrefix (branchPrefix ++ "/" ++ shortSHA) (branchPrefix ++ "/") = true.
Proof. rewrite <- append_assoc_r. apply HasPrefix_app. Qed.

(** X7.  In a run that passes the guard and whose analysis succeeds, the
    source branch recorded is the branch the guard saw, it does not start
    with the branch prefix followed by "/", and the extraction branch
    does: the two names differ, so the recovery never deletes the branch
    the commit was made on. *)
Theorem extraction_branch_is_not_the_source_branch
        (G : Gateway) (L : GitLaws G) (sha : string) (w w1 w2 w3 : World G)
        (info : CommitInfo) (shortSHA promptBranch : string)
        (err : option error) :
  onPromptBranch w = (Ret false, w1) ->
  analyzeCommit sha w1 = (Ret (inl info), w2) ->
  createBranch info w2 = (Ret (shortSHA, promptBranch, err), w3) ->
  let branchPrefix :=
    valueOr "prrompt.branchPrefix" defaultBranchPrefix (repo w) in
  branchName (repo w) = Some (SourceBranch info)
  /\ HasPrefix (SourceBranch info) (branchPrefix ++ "/") = false
  /\ HasPrefix promptBranch (branchPrefix ++ "/") = true
  /\ promptBranch <> SourceBranch info.
Proof.
  intros Hg Ha Hc branchPrefix.
  destruct (ReadOnly_at _ _ _ _ ReadOnly_onPromptBranch Hg) as (_ & _ & R1).
  destruct (ReadOnly_at _ _ _ _ (ReadOnly_analyzeCommit sha) Ha)
    as (_ & _ & R2).
  specialize (R1 L). specialize (R2 L).
  assert (Hq : forall c r, isQuery c = true -> gitNext c r = r)
    by (intros c r Hc'; apply (query_pure L c _ Hc')).
  (* the branch the analysis recorded *)
  destruct (analyzeCommit_source G sha w1 info w2 Ha) as (Hb & Hsrc).
  rewrite (Hq (LogMessage sha) _ eq_refl) in Hb, Hsrc.
  rewrite R1 in Hb, Hsrc.
  (* what the guard saw *)
  rewrite onPromptBranch_run, branchName_cases, Hb in Hg.
  rewrite (Hq CurrentBranch _ eq_refl) in Hg. injection Hg as Hp _.
  fold (gitOut CurrentBranch (repo w)) in Hp. rewrite <- Hsrc in Hp.
  fold branchPrefix in Hp.
  (* the name of the extraction branch *)
  destruct (createBranch_inv _ _ _ _ _ _ Hc) as (_ & _ & Hpb & _).
  rewrite R2, R1 in Hpb. fold branchPrefix in Hpb.
  assert (Ht : HasPrefix promptBranch (branchPrefix ++ "/") = true)
    by (rewrite Hpb; apply promptBranch_has_prefix).
  split; [rewrite branchName_cases, Hb; now rewrite Hsrc|].
  split; [exact Hp|]. split; [exact Ht|].
  intros Heq. rewrite Heq in Ht. congruence.
Qed.

(** The prompt-only commit of the tests. *)
Lemma extraction_branch_is_not_the_source_branch_witness :
  let w := SimGit.start (SimGit.repository [SimGit.promptOnly] [] false false) in
  exists info w2 promptBranch w3,
    analyzeCommit "1111111aaaaaaa" (snd (onPromptBranch w)) = (Ret (inl info), w2)
    /\ createBranch info w2 = (Ret ("1111111", promptBranch, None), w3)
    /\ promptBranch <> SourceBranch info.
Proof.
  intros w.
  edestruct (@extraction_branch_is_not_the_source_branch
               SimGit.gateway sim_laws "1111111aaaaaaa" w)
    as (_ & _ & _ & Hne).
  - vm_compute. reflexivity.
  - vm_compute. reflexivity.
  - vm_compute. reflexivity.
  - eexists _, _, _, _. split; [vm_compute; reflexivity|].
    split; [vm_compute; reflexivity|]. exact Hne.
Defined.

(** X8.  The tool skips the commits made on the branches it creates: when
    the branch checked out is one an extraction named and the branch
    prefix is configured as it was, [processCommit] returns at the guard
    without error. *)
Theorem tool_skips_its_own_branches
        (G : Gateway) (L : GitLaws G) (info : CommitInfo) (w w1 w' : World G)
        (shortSHA promptBranch sha' : string) (err : option error) :
  createBranch info w = (Ret (shortSHA, promptBranch, err), w1) ->
  branchName (repo w') = Some promptBranch ->
  valueOr "prrompt.branchPrefix" defaultBranchPrefix (repo w')
  = valueOr "prrompt.branchPrefix" defaultBranchPrefix (repo w) ->
  processCommit sha' w'
  = (Ret None, after (ConfigGet "prrompt.branchPrefix") (after CurrentBranch w')).
Proof.
  intros Hc Hb Hv.
  destruct (createBranch_inv _ _ _ _ _ _ Hc) as (_ & _ & Hpb & _).
  apply processCommit_skips.
  rewrite onPromptBranch_run, Hb.
  rewrite (query_pure L CurrentBranch (repo w') eq_refl), Hv, Hpb.
  now rewrite promptBranch_has_prefix.
Qed.

(** The hook runs again on the commit the extraction made. *)
Lemma tool_skips_its_own_branches_witness :
  let info :=
    mkCommitInfo "1111111aaaaaaa" "Add prompt file"
                 [".claude/skills/test.md"] [] false "feature-branch" in
  let w := SimGit.start (SimGit.repository [SimGit.promptOnly] [] false false) in
  let s' :=
    SimGit.mkState "skill-update/1111111"
                   [("skill-update/1111111", [".claude/skills/test.md"]);
                    ("feature-branch", [".claude/skills/test.md"]);
                    ("main", [])]
                   [] [SimGit.promptOnly] [] [] [] [] [] false false in
  fst (processCommit "9999999abcdef" (SimGit.start s')) = Ret None.
Proof.
  intros info w s'.
  erewrite (@tool_skips_its_own_branches SimGit.gateway sim_laws info w).
  - reflexivity.
  - vm_compute. reflexivity.
  - vm_compute. reflexivity.
  - vm_compute. reflexivity.
Defined.

(* ================================================================== *)
(** ** The commands an extraction issues                               *)
(* ================================================================== *)

Section Issuing.

Context {G : Gateway} (P : GitCmd -> Prop).

Lemma IssuesOnly_ret {A} (a : A) (w : World G) : IssuesOnly P (ret a) w.
Proof.
  exists (Ret a), w, []. split; [reflexivity|].
  split; [now rewrite app_nil_r|constructor].
Qed.

Lemma IssuesOnly_print s (w : World G) : IssuesOnly P (print s) w.
Proof.
  exists (Ret tt), (printed s w), []. split; [reflexivity|].
  split; [simpl; now rewrite app_nil_r|constructor].
Qed.

Lemma IssuesOnly_runGit c (w : World G) : P c -> IssuesOnly P (runGit c) w.
Proof.
  intros H. eexists _, (after c w), [c]. split; [apply runGit_run|].
  split; [reflexivity|]. now constructor.
Qed.

Lemma IssuesOnly_bind {A B} (m : M G A) (f : A -> M G B) (w : World G) :
  IssuesOnly P m w ->
  (forall a w1, m w = (Ret a, w1) -> IssuesOnly P (f a) w1) ->
  IssuesOnly P (bind m f) w.
Proof.
  intros (o & w1 & t1 & E1 & T1 & F1) Hf. unfold IssuesOnly, bind.
  rewrite E1. destruct o as [a|code|msg].
  - destruct (Hf a w1 E1) as (o2 & w2 & t2 & E2 & T2 & F2).
    exists o2, w2, (t1 ++ t2)%list. split; [exact E2|].
    split; [now rewrite T2, T1, app_assoc|now apply Forall_app].
  - now exists (Exit code), w1, t1.
  - now exists (Panic msg), w1, t1.
Qed.

Lemma IssuesOnly_seq {A B} (m : M G A) (k : M G B) (w : World G) :
  IssuesOnly P m w -> (forall w1, IssuesOnly P k w1) ->
  IssuesOnly P (bind m (fun _ => k)) w.
Proof. intros Hm Hk. apply IssuesOnly_bind; auto. Qed.

End Issuing.

Lemma IssuesOnly_unstageAll (G : Gateway) info files :
  incl files (OtherFiles info) ->
  forall (promptBranch : string) (w : World G),
    IssuesOnly (extractionCommand info promptBranch) (unstageAll files) w.
Proof.
  induction files as [|file rest IH]; intros Hi promptBranch w; simpl.
  - apply IssuesOnly_ret.
  - apply IssuesOnly_seq.
    + apply IssuesOnly_runGit. simpl. apply Hi. now left.
    + intros w1. apply IH. intros f Hf. apply Hi. now right.
Qed.

Lemma IssuesOnly_cleanup (G : Gateway) info promptBranch (w : World G) :
  IssuesOnly (extractionCommand info promptBranch)
             (cleanup (SourceBranch info) promptBranch) w.
Proof.
  unfold cleanup.
  repeat (apply IssuesOnly_seq; [now apply IssuesOnly_runGit|intros ?]).
  apply IssuesOnly_ret.
Qed.

Lemma IssuesOnly_getter (G : Gateway) info promptBranch key default
      (w : World G) :
  In key ["prrompt.branchPrefix"; "prrompt.baseBranch";
          "prrompt.commitPrefix"; "remote.origin.url"] ->
  IssuesOnly (extractionCommand info promptBranch)
             ('(value, err) <- runGit (ConfigGet key);;
              match err with
              | Some _ => ret default
              | None => if value =? "" then ret default else ret value
              end) w.
Proof.
  intros Hk. apply IssuesOnly_bind; [now apply IssuesOnly_runGit|].
  intros [value [e|]] w1 _; [apply IssuesOnly_ret|].
  destruct (value =? ""); apply IssuesOnly_ret.
Qed.

Lemma IssuesOnly_generatePRURL (G : Gateway) info promptBranch branch
      (w : World G) :
  IssuesOnly (extractionCommand info promptBranch) (generatePRURL branch) w.
Proof.
  unfold generatePRURL.
  apply IssuesOnly_bind; [apply IssuesOnly_runGit; simpl; tauto|].
  intros [remoteURL [e|]] w1 _; [apply IssuesOnly_ret|].
  cbv zeta. destruct (_ =? ""); [apply IssuesOnly_ret|].
  apply IssuesOnly_bind; [|intros; apply IssuesOnly_ret].
  apply IssuesOnly_getter. simpl. tauto.
Qed.

Lemma IssuesOnly_publish (G : Gateway) info promptBranch (w : World G) :
  IssuesOnly (extractionCommand info promptBranch)
             (publish info promptBranch) w.
Proof.
  unfold publish.
  apply IssuesOnly_seq; [apply IssuesOnly_print|intros w1].
  apply IssuesOnly_bind; [now apply IssuesOnly_runGit|].
  intros [out perr] w2 _.
  apply IssuesOnly_seq; [destruct perr; apply IssuesOnly_print|intros w3].
  apply IssuesOnly_bind; [now apply IssuesOnly_runGit|].
  intros [out' [e|]] w4 _; [apply IssuesOnly_ret|].
  apply IssuesOnly_bind; [apply IssuesOnly_generatePRURL|intros prURL w5 _].
  repeat (apply IssuesOnly_seq; [apply IssuesOnly_print|intros ?]).
  apply IssuesOnly_ret.
Qed.

(** X9.  However it ends, an extraction touches nothing but its own
    branch, the source branch and the other files: the only branch it
    creates, pushes or deletes is the extraction branch, the only branch
    it switches to is the source branch, the only paths it unstages are
    other files of the commit, the only commit it cherry-picks is the one
    analysed, and it never restores a file of the working tree. *)
Theorem extraction_touches_only_its_branch
        (G : Gateway) (info : CommitInfo) (w : World G) :
  let promptBranch :=
    valueOr "prrompt.branchPrefix" defaultBranchPrefix (repo w)
    ++ "/" ++ take 7 (SHA info) in
  exists o w' issued,
    extractPrompts info w = (o, w')
    /\ trace w' = (trace w ++ issued)%list
    /\ Forall (extractionCommand info promptBranch) issued
    /\ (forall file, ~ In (RestoreWorktree file) issued)
    /\ (forall branch, In (BranchDelete branch) issued \/ In (Push branch) issued ->
                       branch = promptBranch).
Proof.
  intros promptBranch.
  assert (H : IssuesOnly (extractionCommand info promptBranch)
                         (extractPrompts info) w).
  { unfold extractPrompts. apply IssuesOnly_bind.
    - destruct (Nat.lt_ge_cases (String.length (SHA info)) 7) as [Hlt|Hge].
      + eexists _, w, []. split; [apply (createBranch_short info w Hlt)|].
        split; [now rewrite app_nil_r|constructor].
      + eexists _, _, _. split; [apply (createBranch_long info w Hge)|].
        split; [reflexivity|]. repeat constructor; simpl; tauto.
    - intros [[shortSHA pb] err] w1 Hc.
      destruct (createBranch_inv _ _ _ _ _ _ Hc) as (_ & Hs & Hpb & _).
      assert (pb = promptBranch) as -> by (unfold promptBranch; congruence).
      destruct err as [e|]; [apply IssuesOnly_ret|].
      unfold cherryPick.
      apply IssuesOnly_bind.
      { apply IssuesOnly_seq; [apply IssuesOnly_print|intros w2].
        apply IssuesOnly_bind; [now apply IssuesOnly_runGit|].
        intros [out perr] w3 _. apply IssuesOnly_ret. }
      intros [e|] w2 _.
      { apply IssuesOnly_seq; [apply IssuesOnly_cleanup|intros ?].
        apply IssuesOnly_ret. }
      apply IssuesOnly_bind.
      { unfold prepareCommit. apply IssuesOnly_seq.
        - destruct (IsMixed info); [|apply IssuesOnly_ret].
          apply IssuesOnly_unstageAll. apply incl_refl.
        - intros w3. apply IssuesOnly_bind; [|intros; apply IssuesOnly_ret].
          apply IssuesOnly_getter. simpl. tauto. }
      intros commitMsg w3 _.
      apply IssuesOnly_bind; [now apply IssuesOnly_runGit|].
      intros [out [e|]] w4 _; [|apply IssuesOnly_publish].
      apply IssuesOnly_seq; [apply IssuesOnly_cleanup|intros ?].
      apply IssuesOnly_ret. }
  destruct H as (o & w' & issued & E & T & F).
  exists o, w', issued. split; [exact E|]. split; [exact T|].
  split; [exact F|]. rewrite Forall_forall in F. split.
  - intros file Hin. exact (F _ Hin).
  - intros branch [Hin|Hin]; exact (F _ Hin).
Qed.

(* ================================================================== *)
(** ** How an extraction ends                                          *)
(* ================================================================== *)

(** Once its branch exists, an extraction fails at the cherry-pick or at
    the commit, or makes its commit. *)
Lemma after_creation_cases (G : Gateway) info shortSHA (w1 : World G) :
  (exists prefix e wf, FailsAfterCreation info shortSHA w1 prefix e wf)
  \/ (exists commitMsg w4, Committed info shortSHA w1 commitMsg w4).
Proof.
  destruct (gitErr (CherryPickNoCommit (SHA info)) (repo w1)) as [e|] eqn:Hp.
  - left. eexists _, e, _. apply cherry_pick_fails.
    rewrite cherryPick_run. cbn [repo printed]. now rewrite Hp.
  - assert (Hc : cherryPick info shortSHA w1
                 = (Ret None,
                    after (CherryPickNoCommit (SHA info))
                      (printed ("Cherry-picking commit " ++ shortSHA
                                ++ "..." ++ nl) w1)))
      by (rewrite cherryPick_run; cbn [repo printed]; now rewrite Hp).
    match type of Hc with _ = (_, ?x) =>
      destruct (Total_prepareCommit info shortSHA x)
        as (commitMsg & w3 & t & Hm & _)
    end.
    destruct (gitErr (Commit commitMsg) (repo w3)) as [e|] eqn:He.
    + left. eexists _, e, _. eapply commit_fails; eassumption.
    + right. eexists commitMsg, _. eapply committed; eassumption.
Qed.

(** The command that made an extraction fail after the creation of its
    branch is the last one issued at that point. *)
Lemma FailsAfterCreation_command (G : Gateway) info shortSHA (w1 wf : World G)
      prefix e :
  FailsAfterCreation info shortSHA w1 prefix e wf ->
  exists c (r : Repo G) before,
    gitErr c r = Some e
    /\ trace wf = (before ++ [c])%list
    /\ ((prefix = "failed to cherry-pick: " /\ c = CherryPickNoCommit (SHA info))
        \/ (prefix = "failed to commit: " /\ exists msg, c = Commit msg)).
Proof.
  intros [e' wf' Hp | w2 commitMsg w3 e' Hp Hm He].
  - rewrite cherryPick_run in Hp. injection Hp as Hp <-.
    eexists _, _, _. split; [exact Hp|]. split; [reflexivity|]. now left.
  - eexists _, _, _. split; [exact He|]. split; [reflexivity|].
    right. split; [reflexivity|]. now exists commitMsg.
Qed.

(** The last part of an extraction, once the commit is made. *)
Lemma publish_cases (G : Gateway) info promptBranch (w4 : World G) :
  let src := SourceBranch info in
  let r5 := gitNext (Push promptBranch) (repo w4) in
  exists line,
    ((gitErr (Push promptBranch) (repo w4) = None
      /\ line = "✓ Pushed to origin/" ++ promptBranch ++ nl)
     \/ (exists e,
            gitErr (Push promptBranch) (repo w4) = Some e
            /\ line = "Warning: failed to push (you may need to push manually): "
                      ++ Error e ++ nl))
    /\ let w5 :=
         after (CheckoutForce src)
               (printed line
                  (after (Push promptBranch)
                     (printed ("✓ Created skill branch: " ++ promptBranch ++ nl)
                        w4))) in
       match gitErr (CheckoutForce src) r5 with
       | Some e =>
           publish info promptBranch w4
           = (Ret (Some (Errorf "failed to return to original branch: " e)), w5)
       | None =>
           exists prURL w6 queries,
             generatePRURL promptBranch w5 = (Ret prURL, w6)
             /\ trace w6 = (trace w5 ++ queries)%list
             /\ Forall (fun c => isQuery c = true) queries
             /\ stdout w6 = stdout w5
             /\ publish info promptBranch w4
                = (Ret None,
                   printed (nl ++ "Create PR: " ++ prURL ++ nl ++ nl)
                     (printed (nl ++ "✓ Skill extraction complete!" ++ nl) w6))
       end.
Proof.
  intros src r5. subst src. unfold publish.
  erewrite bind_Ret by apply print_run.
  erewrite bind_Ret by apply runGit_run. cbn [repo printed].
  destruct (gitErr (Push promptBranch) (repo w4)) as [pe|] eqn:Hpush;
    eexists; (split; [first [left; split; reflexivity
                            |right; eexists; split; reflexivity]|]);
    cbv zeta;
    erewrite bind_Ret by apply print_run;
    erewrite bind_Ret by apply runGit_run;
    cbn [repo printed after]; fold r5;
    (destruct (gitErr (CheckoutForce (SourceBranch info)) r5) as [e|];
     [reflexivity|]);
    cbv beta iota;
    match goal with |- context [bind (generatePRURL ?b) _ ?x] =>
      destruct (ReadOnly_generatePRURL b x)
        as (prURL & w6 & t & Eu & Tu & Qu & Su & _)
    end;
    exists prURL, w6, t;
    (split; [exact Eu|]); (split; [exact Tu|]); (split; [exact Qu|]);
    (split; [exact Su|]);
    rewrite (bind_Ret _ _ _ _ _ Eu);
    repeat (erewrite bind_Ret by apply print_run); reflexivity.
Qed.

(** X10.  When the creation of the extraction branch fails, the
    extraction returns "failed to create branch" with git's error at once:
    the failed creation is the last command issued, no command of the
    recovery runs and nothing is deleted. *)
Theorem failed_creation_stops_the_extraction
        (G : Gateway) (info : CommitInfo) (w : World G) (e : error) :
  7 <= String.length (SHA info) ->
  let promptBranch :=
    valueOr "prrompt.branchPrefix" defaultBranchPrefix (repo w)
    ++ "/" ++ take 7 (SHA info) in
  let r1 := gitNext (ConfigGet "prrompt.branchPrefix") (repo w) in
  let baseBranch := valueOr "prrompt.baseBranch" defaultBaseBranch r1 in
  gitErr (CheckoutNew promptBranch baseBranch)
         (gitNext (ConfigGet "prrompt.baseBranch") r1) = Some e ->
  exists w',
    extractPrompts info w
    = (Ret (Some (Errorf "failed to create branch: " e)), w')
    /\ trace w'
       = (trace w ++ [ConfigGet "prrompt.branchPrefix";
                      ConfigGet "prrompt.baseBranch";
                      CheckoutNew promptBranch baseBranch])%list
    /\ stdout w'
       = (stdout w ++ banner info (take 7 (SHA info)) promptBranch)%list.
Proof.
  intros Hlen promptBranch r1 baseBranch He.
  unfold extractPrompts.
  rewrite (bind_Ret _ _ _ _ _ (createBranch_long info w Hlen)).
  fold promptBranch r1 baseBranch. rewrite He.
  eexists. split; [reflexivity|]. split; reflexivity.
Qed.

(** The tool run a second time on a commit it extracted already: the
    branch exists, the creation fails, the branch is kept. *)
Lemma failed_creation_stops_the_extraction_witness :
  let info :=
    mkCommitInfo "1111111aaaaaaa" "Add prompt file"
                 [".claude/skills/test.md"] [] false "feature-branch" in
  exists w',
    extractPrompts info (SimGit.start extractedBefore)
    = (Ret (Some (Errorf "failed to create branch: "
                         (ProcessError "exit status 128"))), w')
    /\ repo w' = extractedBefore.
Proof.
  intros info.
  edestruct (@failed_creation_stops_the_extraction
               SimGit.gateway info (SimGit.start extractedBefore))
    as (w' & E & _ & _).
  - simpl. lia.
  - vm_compute. reflexivity.
  - exists w'. split; [exact E|].
    vm_compute in E. injection E as <-. reflexivity.
Defined.

(** X11.  When the extraction commit was made and the forced switch back
    to the source branch fails, the extraction returns "failed to return
    to original branch" with git's error, whether the push succeeded or
    not; the failed switch is the last command issued (the URL is not
    computed, the recovery does not run).  After the commit exactly two
    lines are printed: the line that names the branch created and the
    report of the push, which is the confirmation when the push succeeded
    and the warning with git's error when it failed.  Neither of the two
    completion lines is among them. *)
Theorem failed_return_is_reported
        (G : Gateway) (info : CommitInfo) (w w1 w4 : World G)
        (shortSHA promptBranch commitMsg : string) (e : error) :
  createBranch info w = (Ret (shortSHA, promptBranch, None), w1) ->
  Committed info shortSHA w1 commitMsg w4 ->
  gitErr (CheckoutForce (SourceBranch info))
         (gitNext (Push promptBranch) (repo w4)) = Some e ->
  exists wend line,
    extractPrompts info w
    = (Ret (Some (Errorf "failed to return to original branch: " e)), wend)
    /\ trace wend
       = (trace w4 ++ [Push promptBranch; CheckoutForce (SourceBranch info)])%list
    /\ stdout wend
       = (stdout w4
          ++ [("✓ Created skill branch: " ++ promptBranch ++ nl)%string;
              line])%list
    /\ ((gitErr (Push promptBranch) (repo w4) = None
         /\ line = "✓ Pushed to origin/" ++ promptBranch ++ nl)
        \/ (exists pushError,
               gitErr (Push promptBranch) (repo w4) = Some pushError
               /\ line
                  = "Warning: failed to push (you may need to push manually): "
                    ++ Error pushError ++ nl))
    /\ (forall printedLine prURL,
           In printedLine
              [("✓ Created skill branch: " ++ promptBranch ++ nl)%string; line] ->
           printedLine <> nl ++ "✓ Skill extraction complete!" ++ nl
           /\ printedLine <> nl ++ "Create PR: " ++ prURL ++ nl ++ nl).
Proof.
  intros Hc Hk He.
  rewrite (extractPrompts_committed _ _ _ _ _ _ _ Hc Hk).
  destruct (publish_cases G info promptBranch w4) as (line & Hline & H).
  cbv zeta in H. rewrite He in H. rewrite H.
  eexists _, line. split; [reflexivity|].
  split; [simpl; now rewrite <- !app_assoc|].
  split; [simpl; now rewrite <- !app_assoc|].
  split; [exact Hline|].
  intros printedLine prURL [<-|[<-|[]]].
  - split; discriminate.
  - destruct Hline as [(_ & ->)|(pushError & _ & ->)]; split; discriminate.
Qed.

(** A repository whose source branch was deleted in the meantime. *)
Lemma failed_return_is_reported_witness :
  let info :=
    mkCommitInfo "1111111aaaaaaa" "Add prompt file"
                 [".claude/skills/test.md"] [] false "gone" in
  exists wend,
    extractPrompts info (SimGit.start headless)
    = (Ret (Some (Errorf "failed to return to original branch: "
                         (ProcessError "exit status 1"))), wend)
    /\ SimGit.head (repo wend) = "skill-update/1111111".
Proof.
  intros info.
  edestruct (@failed_return_is_reported SimGit.gateway info
               (SimGit.start headless))
    as (wend & line & E & _ & _).
  - vm_compute. reflexivity.
  - eapply committed; vm_compute; reflexivity.
  - vm_compute. reflexivity.
  - exists wend. split; [exact E|].
    vm_compute in E. injection E as <-. reflexivity.
Defined.

Lemma Committed_trace (G : Gateway) info shortSHA (w1 w4 : World G) commitMsg :
  Committed info shortSHA w1 commitMsg w4 ->
  exists early,
    trace w4 = (trace w1 ++ early ++ [Commit commitMsg])%list
    /\ Forall (fun c => isCleanup c = false) early.
Proof.
  intros [w2 msg w3 Hp Hm He].
  assert (T2 : trace w2 = (trace w1 ++ [CherryPickNoCommit (SHA info)])%list)
    by (rewrite cherryPick_run in Hp; injection Hp as _ <-; reflexivity).
  destruct (prepareCommit_run info shortSHA w2) as (wu & _ & E & T & _).
  rewrite Hm in E. injection E as _ ->.
  exists (CherryPickNoCommit (SHA info)
          :: (if IsMixed info then map RestoreStaged (OtherFiles info) else [])
          ++ [ConfigGet "prrompt.commitPrefix"])%list.
  split.
  - simpl. rewrite T, T2. simpl. rewrite <- !app_assoc. reflexivity.
  - constructor; [reflexivity|]. apply Forall_app. split.
    + destruct (IsMixed info); [|constructor].
      apply Forall_forall. intros c Hin. apply in_map_iff in Hin.
      destruct Hin as (f & <- & _). reflexivity.
    + now constructor.
Qed.

Lemma createBranch_returns (G : Gateway) info (w : World G) :
  7 <= String.length (SHA info) ->
  exists shortSHA promptBranch err w1 first,
    createBranch info w = (Ret (shortSHA, promptBranch, err), w1)
    /\ trace w1 = (trace w ++ first)%list
    /\ Forall (fun c => isCleanup c = false) first.
Proof.
  intros H. eexists _, _, _, _, _.
  split; [apply (createBranch_long info w H)|].
  split; [reflexivity|]. repeat constructor.
Qed.

(** X12.  An extraction returns without error only when the creation of
    the branch, the cherry-pick, the commit and the forced switch back to
    the source branch all succeeded (the push may have failed).  The push
    and the switch back are then the last commands issued but for
    queries, no command of the recovery was issued, and the last two
    things printed are the completion line and the line with the link. *)
Theorem successful_extraction_ends_on_source_branch
        (G : Gateway) (info : CommitInfo) (w wend : World G) :
  extractPrompts info w = (Ret None, wend) ->
  exists shortSHA promptBranch w1 commitMsg w4 queries issued printedBefore
         prURL,
    createBranch info w = (Ret (shortSHA, promptBranch, None), w1)
    /\ Committed info shortSHA w1 commitMsg w4
    /\ gitErr (CheckoutForce (SourceBranch info))
              (gitNext (Push promptBranch) (repo w4)) = None
    /\ trace wend
       = (trace w4 ++ [Push promptBranch; CheckoutForce (SourceBranch info)]
                   ++ queries)%list
    /\ Forall (fun c => isQuery c = true) queries
    /\ trace wend = (trace w ++ issued)%list
    /\ Forall (fun c => isCleanup c = false) issued
    /\ stdout wend
       = (printedBefore
          ++ [(nl ++ "✓ Skill extraction complete!" ++ nl)%string;
              (nl ++ "Create PR: " ++ prURL ++ nl ++ nl)%string])%list.
Proof.
  intros E.
  destruct (Nat.lt_ge_cases (String.length (SHA info)) 7) as [Hlt|Hge].
  { rewrite (extractPrompts_short info w Hlt) in E. discriminate. }
  destruct (createBranch_returns G info w Hge)
    as (shortSHA & promptBranch & [failure|] & w1 & first & Hc & T1 & F1).
  { unfold extractPrompts in E. rewrite (bind_Ret _ _ _ _ _ Hc) in E.
    unfold ret in E. discriminate. }
  destruct (after_creation_cases G info shortSHA w1)
    as [(prefix & e & wf & Hf)|(commitMsg & w4 & Hk)].
  { rewrite (extractPrompts_fails _ _ _ _ _ _ _ _ Hc Hf) in E. discriminate. }
  rewrite (extractPrompts_committed _ _ _ _ _ _ _ Hc Hk) in E.
  destruct (publish_cases G info promptBranch w4) as (line & _ & H).
  cbv zeta in H.
  destruct (gitErr (CheckoutForce (SourceBranch info))
                   (gitNext (Push promptBranch) (repo w4))) as [e|] eqn:Hback.
  { rewrite H in E. discriminate. }
  destruct H as (prURL & w6 & queries & _ & T6 & Q & S6 & Hp).
  rewrite Hp in E. injection E as <-.
  destruct (Committed_trace _ _ _ _ _ _ Hk) as (early & T4 & Fe).
  exists shortSHA, promptBranch, w1, commitMsg, w4, queries.
  eexists _, _, prURL.
  split; [exact Hc|]. split; [exact Hk|]. split; [exact Hback|].
  split; [simpl; rewrite T6; simpl; now rewrite <- !app_assoc|].
  split; [exact Q|].
  split.
  { simpl. rewrite T6. simpl. rewrite T4, T1.
    rewrite <- !app_assoc. reflexivity. }
  split.
  { repeat (apply Forall_app; split);
      try exact F1; try exact Fe; try (repeat constructor; fail).
    eapply Forall_impl; [|exact Q]. intros c. apply query_not_cleanup. }
  simpl. rewrite S6. simpl. rewrite <- (app_assoc _ [_] [_]). reflexivity.
Qed.

(** The prompt-only commit of the tests, extracted. *)
Lemma successful_extraction_ends_on_source_branch_witness :
  let info :=
    mkCommitInfo "1111111aaaaaaa" "Add prompt file"
                 [".claude/skills/test.md"] [] false "feature-branch" in
  let w := SimGit.start (SimGit.repository [SimGit.promptOnly] [] false false) in
  exists (w4 : World SimGit.gateway) queries,
    trace (snd (extractPrompts info w))
    = (trace w4 ++ [Push "skill-update/1111111"; CheckoutForce "feature-branch"]
                ++ queries)%list.
Proof.
  intros info w.
  edestruct (@successful_extraction_ends_on_source_branch
               SimGit.gateway info w)
    as (s & pb & w1 & msg & w4 & queries & issued & pr & url
        & Hc & _ & _ & T & _).
  - vm_compute. reflexivity.
  - exists w4, queries. vm_compute in Hc. injection Hc as _ <- _.
    exact T.
Defined.

(* ================================================================== *)
(** ** The errors and the exit status                                 *)
(* ================================================================== *)

(** The error a failed analysis returns is that of one of its three
    commands, under the text of that command. *)
Lemma analyzeCommit_error (G : Gateway) sha (w : World G) e w' :
  analyzeCommit sha w = (Ret (inr e), w') ->
  exists step cause c (r : Repo G),
    e = Errorf step cause
    /\ gitErr c r = Some cause
    /\ In c (trace w')
    /\ In (step, c)
          [("failed to get commit message: ", LogMessage sha);
           ("failed to get current branch: ", CurrentBranch);
           ("failed to get changed files: ", DiffTree sha)].
Proof.
  intros E. unfold analyzeCommit in E.
  rewrite (bind_Ret _ _ _ _ _ (runGit_run _ w)) in E.
  destruct (gitErr (LogMessage sha) (repo w)) as [e1|] eqn:H1.
  { unfold ret in E. injection E as <- <-.
    eexists _, _, _, _. split; [reflexivity|]. split; [exact H1|].
    split; [|now left]. simpl. apply in_or_app. right. now left. }
  rewrite (bind_Ret _ _ _ _ _ (runGit_run _ _)) in E.
  destruct (gitErr CurrentBranch _) as [e2|] eqn:H2.
  { unfold ret in E. injection E as <- <-.
    eexists _, _, _, _. split; [reflexivity|]. split; [exact H2|].
    split; [|right; now left]. simpl. apply in_or_app. right. now left. }
  rewrite (bind_Ret _ _ _ _ _ (runGit_run _ _)) in E.
  destruct (gitErr (DiffTree sha) _) as [e3|] eqn:H3.
  { unfold ret in E. injection E as <- <-.
    eexists _, _, _, _. split; [reflexivity|]. split; [exact H3|].
    split; [|right; right; now left]. simpl. apply in_or_app. right. now left. }
  apply bind_inv in E. destruct E as (info0 & w4 & _ & E).
  unfold ret in E. discriminate.
Qed.

(** The error a failed extraction returns is that of the creation of the
    branch, of the cherry-pick, of the commit or of the forced switch
    back, under the text of that step. *)
Lemma extractPrompts_error (G : Gateway) info (w : World G) e w' :
  extractPrompts info w = (Ret (Some e), w') ->
  exists step cause c (r : Repo G),
    e = Errorf step cause
    /\ gitErr c r = Some cause
    /\ In c (trace w')
    /\ ((step = "failed to create branch: "
         /\ exists branch base, c = CheckoutNew branch base)
        \/ (step = "failed to cherry-pick: "
            /\ c = CherryPickNoCommit (SHA info))
        \/ (step = "failed to commit: " /\ exists msg, c = Commit msg)
        \/ (step = "failed to return to original branch: "
            /\ c = CheckoutForce (SourceBranch info))).
Proof.
  intros E.
  destruct (Nat.lt_ge_cases (String.length (SHA info)) 7) as [Hlt|Hge].
  { rewrite (extractPrompts_short info w Hlt) in E. discriminate. }
  assert (Hc := createBranch_long info w Hge). cbv zeta in Hc.
  match type of Hc with _ = (Ret (_, _, ?ce), _) =>
    destruct ce as [failure|] eqn:Hcreate
  end.
  { unfold extractPrompts in E. rewrite (bind_Ret _ _ _ _ _ Hc) in E.
    unfold ret in E. injection E as <- <-.
    eexists _, _, _, _. split; [reflexivity|]. split; [exact Hcreate|].
    split.
    - cbn [trace]. apply in_or_app. right. right. right. now left.
    - left. split; [reflexivity|]. now eexists _, _. }
  match type of Hc with _ = (Ret (?s, ?b, _), ?x) =>
    destruct (after_creation_cases G info s x)
      as [(prefix & fe & wf & Hf)|(commitMsg & w4 & Hk)]
  end.
  { rewrite (extractPrompts_fails _ _ _ _ _ _ _ _ Hc Hf) in E.
    injection E as <- <-.
    destruct (FailsAfterCreation_command _ _ _ _ _ _ _ Hf)
      as (c & r & before & He & T & Hw).
    exists prefix, fe, c, r. split; [reflexivity|]. split; [exact He|].
    split.
    - unfold cleanedUp, after. cbn [trace]. rewrite T.
      apply in_or_app. left. apply in_or_app. left. apply in_or_app. left.
      apply in_or_app. right. now left.
    - right. destruct Hw as [[-> ->]|[-> Hm]]; [now left|right; now left]. }
  rewrite (extractPrompts_committed _ _ _ _ _ _ _ Hc Hk) in E.
  match type of E with publish _ ?b _ = _ =>
    destruct (publish_cases G info b w4) as (line & _ & H)
  end.
  cbv zeta in H.
  match type of H with match ?g with _ => _ end =>
    destruct g as [be|] eqn:Hback
  end.
  - rewrite H in E. injection E as <- <-.
    eexists _, _, _, _. split; [reflexivity|]. split; [exact Hback|].
    split.
    + unfold after. cbn [trace]. apply in_or_app. right. now left.
    + right. right. right. now split.
  - destruct H as (prURL & w6 & queries & _ & _ & _ & _ & Hp).
    rewrite Hp in E. discriminate.
Qed.

(** X13.  Every error [processCommit] returns has two layers over the
    error of one git command the run issued: the stage, analysis or
    extraction, and the step that failed within it.  Only seven commands
    can be the cause: reading the message, the branch or the changed
    files, creating the branch, the cherry-pick, the commit and the forced
    switch back.  A failed push, unstaging or recovery command is never
    returned as the error. *)
Theorem reported_error_names_stage_and_step
        (G : Gateway) (sha : string) (w w' : World G) (e : error) :
  processCommit sha w = (Ret (Some e), w') ->
  exists stage step cause c (r : Repo G),
    e = Errorf stage (Errorf step cause)
    /\ Error e = stage ++ step ++ Error cause
    /\ gitErr c r = Some cause
    /\ In c (trace w')
    /\ ((stage = "error analyzing commit: "
         /\ In (step, c)
               [("failed to get commit message: ", LogMessage sha);
                ("failed to get current branch: ", CurrentBranch);
                ("failed to get changed files: ", DiffTree sha)])
        \/ (stage = "error extracting prompts: "
            /\ exists branch base msg source,
                In (step, c)
                   [("failed to create branch: ", CheckoutNew branch base);
                    ("failed to cherry-pick: ", CherryPickNoCommit sha);
                    ("failed to commit: ", Commit msg);
                    ("failed to return to original branch: ",
                     CheckoutForce source)])).
Proof.
  intros E.
  destruct (ReadOnly_onPromptBranch w) as (skip & w1 & t1 & Hg & _).
  destruct skip.
  { rewrite (processCommit_skips sha _ _ Hg) in E. discriminate. }
  destruct (ReadOnly_analyzeCommit sha w1) as (res & w2 & t2 & Ha & _).
  destruct res as [info|ea].
  - destruct (PromptFiles info) as [|file files] eqn:Hp.
    { rewrite (processCommit_nothing_to_extract sha _ _ _ _ Hg Ha Hp) in E.
      discriminate. }
    assert (Hne : PromptFiles info <> []) by (rewrite Hp; discriminate).
    rewrite (processCommit_extracts sha _ _ _ _ Hg Ha Hne) in E.
    apply bind_inv in E. destruct E as ([ex|] & w3 & Hx & E);
      unfold ret in E; [|discriminate].
    injection E as <- <-.
    destruct (analyzeCommit_info _ _ _ _ Ha) as (Hs & _).
    destruct (extractPrompts_error _ _ _ _ _ Hx)
      as (step & cause & c & r & -> & He & Hin & Hw).
    exists "error extracting prompts: ", step, cause, c, r.
    split; [reflexivity|]. split; [reflexivity|]. split; [exact He|].
    split; [exact Hin|]. right. split; [reflexivity|].
    rewrite Hs in Hw.
    destruct Hw as [(-> & branch & base & ->)
                   |[(-> & ->)|[(-> & msg & ->)|(-> & ->)]]].
    + exists branch, base, "", "". now left.
    + exists "", "", "", "". right. now left.
    + exists "", "", msg, "". right. right. now left.
    + exists "", "", "", (SourceBranch info). right. right. right. now left.
  - rewrite (processCommit_analysis_fails sha _ _ _ _ Hg Ha) in E.
    injection E as <- <-.
    destruct (analyzeCommit_error _ _ _ _ _ Ha)
      as (step & cause & c & r & -> & He & Hin & Hw).
    exists "error analyzing commit: ", step, cause, c, r.
    split; [reflexivity|]. split; [reflexivity|]. split; [exact He|].
    split; [exact Hin|]. left. now split.
Qed.

(** The identifier of the test [Test_InvalidCommitSHA]. *)
Lemma reported_error_names_stage_and_step_witness :
  let w := SimGit.start (SimGit.repository [SimGit.promptOnly] [] false false) in
  exists e cause,
    fst (processCommit "invalid-sha-12345" w) = Ret (Some e)
    /\ Error e
       = "error analyzing commit: failed to get commit message: "
         ++ Error cause.
Proof.
  intros w.
  edestruct (@reported_error_names_stage_and_step
               SimGit.gateway "invalid-sha-12345" w)
    as (stage & step & cause & c & r & He & Ht & _).
  - vm_compute. reflexivity.
  - vm_compute in He. injection He as <- <- <-.
    eexists _, _. split; [vm_compute; reflexivity|exact Ht].
Defined.

(** [processCommit] never ends the process itself; it panics only on an
    identifier shorter than seven bytes, before anything was printed. *)
Lemma processCommit_outcomes (G : Gateway) sha (w : World G) :
  exists o w',
    processCommit sha w = (o, w')
    /\ match o with
       | Ret _ => True
       | Exit _ => False
       | Panic msg =>
           String.length sha < 7
           /\ msg = sliceFailure (String.length sha)
           /\ stdout w' = stdout w
       end.
Proof.
  destruct (ReadOnly_onPromptBranch w) as (skip & w1 & t1 & Hg & _).
  destruct skip.
  { eexists _, _. split; [apply (processCommit_skips sha _ _ Hg)|exact I]. }
  destruct (ReadOnly_analyzeCommit sha w1) as (res & w2 & t2 & Ha & _).
  destruct res as [info|ea].
  - destruct (PromptFiles info) as [|file files] eqn:Hp.
    { eexists _, _.
      split; [apply (processCommit_nothing_to_extract sha _ _ _ _ Hg Ha Hp)|].
      exact I. }
    assert (Hne : PromptFiles info <> []) by (rewrite Hp; discriminate).
    rewrite (processCommit_extracts sha _ _ _ _ Hg Ha Hne).
    destruct (analyzeCommit_info _ _ _ _ Ha) as (Hs & _).
    destruct (Nat.lt_ge_cases (String.length (SHA info)) 7) as [Hlt|Hge].
    + rewrite (bind_Panic _ _ _ _ _ (extractPrompts_short info w2 Hlt)).
      eexists _, _. split; [reflexivity|]. rewrite <- Hs.
      split; [exact Hlt|]. split; [reflexivity|].
      destruct (ReadOnly_at2 _ _ _ _ _ _ _ ReadOnly_onPromptBranch
                             (ReadOnly_analyzeCommit sha) Hg Ha)
        as (_ & S & _).
      exact S.
    + destruct (extractPrompts_returns info w2 Hge) as (err & w3 & Hx).
      rewrite (bind_Ret _ _ _ _ _ Hx).
      destruct err; eexists _, _; (split; [reflexivity|exact I]).
  - eexists _, _.
    split; [apply (processCommit_analysis_fails sha _ _ _ _ Hg Ha)|exact I].
Qed.

(** X14.  [main] ends in one of three ways.  It returns (status 0) when
    [processCommit] returned no error, having printed nothing more.  It
    exits with status 1 either on fewer than two arguments, after the two
    usage lines and without any git command, or when [processCommit]
    returned an error, whose text is then the last line printed.  It
    panics (status 2) only when the identifier given has fewer than seven
    bytes. *)
Theorem main_ends_with_status_0_1_or_2
        (G : Gateway) (args : list string) (w : World G) :
  let sha := nth 1 args "" in
  exists o w',
    main args w = (o, w')
    /\ exitStatus o <= 2
    /\ match o with
       | Ret _ =>
           2 <= List.length args /\ processCommit sha w = (Ret None, w')
       | Exit code =>
           code = 1
           /\ ((List.length args < 2
                /\ w' = printed ("This tool is meant to be run as a git post-commit hook"
                                 ++ nl)
                          (printed ("Usage: prrompt <commit-sha>" ++ nl) w))
               \/ (2 <= List.length args
                   /\ exists e w1,
                       processCommit sha w = (Ret (Some e), w1)
                       /\ w' = printed (Error e ++ nl) w1))
       | Panic msg =>
           2 <= List.length args
           /\ String.length sha < 7
           /\ processCommit sha w = (Panic msg, w')
           /\ stdout w' = stdout w
       end.
Proof.
  intros sha. unfold main.
  destruct (List.length args <? 2)%nat eqn:Hn.
  - apply Nat.ltb_lt in Hn. eexists _, _. split; [reflexivity|].
    split; [simpl; lia|]. split; [reflexivity|]. left. now split.
  - apply Nat.ltb_ge in Hn. cbv zeta. fold sha.
    destruct (processCommit_outcomes G sha w) as (o & w' & E & H).
    destruct o as [[e|]|code|msg].
    + rewrite (bind_Ret _ _ _ _ _ E).
      eexists _, _. split; [reflexivity|]. split; [simpl; lia|].
      split; [reflexivity|]. right. split; [exact Hn|]. now exists e, w'.
    + rewrite (bind_Ret _ _ _ _ _ E).
      eexists _, _. split; [reflexivity|]. split; [simpl; lia|]. now split.
    + contradiction.
    + rewrite (bind_Panic _ _ _ _ _ E). destruct H as (Hl & _ & S).
      eexists _, _. split; [reflexivity|]. split; [simpl; lia|].
      now repeat split.
Qed.

(* ================================================================== *)
(** ** The first variant                                               *)
(* ================================================================== *)

(** The loop of the first variant places the kept paths by the fixed
    patterns. *)
Lemma first_variant_classifyFiles_run files :
  forall info,
    let kept := keptPaths files in
    SkillExtractor.classifyFiles files info
    = SkillExtractor.mkCommitInfo
        (SkillExtractor.SHA info) (SkillExtractor.Message info)
        (SkillExtractor.SkillFiles info
         ++ filter (matchesAny SkillExtractor.skillPatterns) kept)%list
        (SkillExtractor.OtherFiles info
         ++ filter (fun f => negb (matchesAny SkillExtractor.skillPatterns f))
                   kept)%list
        (SkillExtractor.IsMixed info) (SkillExtractor.SourceBranch info).
Proof.
  induction files as [|file rest IH]; intros info; cbv zeta.
  - simpl. rewrite !app_nil_r. now destruct info.
  - cbn [SkillExtractor.classifyFiles]. unfold keptPaths.
    cbn [map filter]. fold (keptPaths rest).
    destruct (TrimSpace file =? "") eqn:E; cbn [negb].
    + apply IH.
    + unfold SkillExtractor.isSkillFile.
      destruct (matchesAny SkillExtractor.skillPatterns (TrimSpace file))
        eqn:Hm; rewrite IH; cbn [filter negb]; rewrite ?Hm; cbn [negb];
        simpl SkillExtractor.SHA; simpl SkillExtractor.Message;
        simpl SkillExtractor.SkillFiles; simpl SkillExtractor.OtherFiles;
        simpl SkillExtractor.IsMixed; simpl SkillExtractor.SourceBranch;
        rewrite <- !app_assoc; reflexivity.
Qed.

(** X15.  With the patterns in force equal to the two fixed patterns of
    the first variant (as when none is configured), the analysis of the
    current variant returns what the analysis of the first variant
    returns: the same error, or a commit with the same identifier,
    message and source branch, the same files in the same order in both
    lists, and the same mixed flag. *)
Theorem unconfigured_analysis_is_that_of_the_first_variant
        (G : Gateway) (L : GitLaws G) (sha : string) (w : World G) :
  patternsIn (repo w) = SkillExtractor.skillPatterns ->
  match fst (SkillExtractor.analyzeCommit sha w), fst (analyzeCommit sha w) with
  | Ret (inl old), Ret (inl new) =>
      SkillExtractor.SHA old = SHA new
      /\ SkillExtractor.Message old = Message new
      /\ SkillExtractor.SkillFiles old = PromptFiles new
      /\ SkillExtractor.OtherFiles old = OtherFiles new
      /\ SkillExtractor.IsMixed old = IsMixed new
      /\ SkillExtractor.SourceBranch old = SourceBranch new
  | Ret (inr e), Ret (inr e') => e = e'
  | _, _ => False
  end.
Proof.
  intros Hp. unfold SkillExtractor.analyzeCommit, analyzeCommit.
  rewrite !(bind_Ret _ _ _ _ _ (runGit_run _ w)).
  destruct (gitErr (LogMessage sha) (repo w)); [reflexivity|].
  rewrite !(bind_Ret _ _ _ _ _ (runGit_run _ _)).
  destruct (gitErr CurrentBranch _); [reflexivity|].
  rewrite !(bind_Ret _ _ _ _ _ (runGit_run _ _)).
  destruct (gitErr (DiffTree sha) _); [reflexivity|].
  cbv zeta. rewrite first_variant_classifyFiles_run.
  erewrite bind_Ret by apply (classifyFiles_run L).
  cbn [fst ret]. 
  cbn [SkillExtractor.SHA SkillExtractor.Message SkillExtractor.SkillFiles
       SkillExtractor.OtherFiles SkillExtractor.IsMixed
       SkillExtractor.SourceBranch SHA Message PromptFiles OtherFiles
       IsMixed SourceBranch].
  rewrite !(after_query L) by reflexivity. cbn [repo]. rewrite Hp.
  repeat split; reflexivity.
Qed.

(** The mixed commit of the tests, with nothing configured. *)
Lemma unconfigured_analysis_is_that_of_the_first_variant_witness :
  let w := SimGit.start (SimGit.repository [SimGit.mixed] [] false false) in
  exists old new,
    fst (SkillExtractor.analyzeCommit "2222222bbbbbbb" w) = Ret (inl old)
    /\ fst (analyzeCommit "2222222bbbbbbb" w) = Ret (inl new)
    /\ SkillExtractor.SkillFiles old = PromptFiles new
    /\ SkillExtractor.OtherFiles old = OtherFiles new.
Proof.
  intros w.
  assert (H := @unconfigured_analysis_is_that_of_the_first_variant
                 SimGit.gateway sim_laws "2222222bbbbbbb" w eq_refl).
  destruct (fst (SkillExtractor.analyzeCommit "2222222bbbbbbb" w))
    as [[old|e]| |] eqn:Eo;
    destruct (fst (analyzeCommit "2222222bbbbbbb" w)) as [[new|e']| |] eqn:En;
    try contradiction; try discriminate.
  exists old, new. split; [reflexivity|]. split; [reflexivity|].
  destruct H as (_ & _ & Hs & Ho & _). now split.
Defined.

Lemma IssuesOnly_removeOthers (G : Gateway) info files :
  SkillExtractor.IsMixed info = true ->
  incl files (SkillExtractor.OtherFiles info) ->
  forall w : World G,
    IssuesOnly (skillExtractionCommand info)
               (SkillExtractor.removeOthers files) w.
Proof.
  intros Hm. induction files as [|file rest IH]; intros Hi w;
    cbn [SkillExtractor.removeOthers].
  - apply IssuesOnly_ret.
  - assert (Hf : In file (SkillExtractor.OtherFiles info))
      by (apply Hi; now left).
    apply IssuesOnly_seq; [apply IssuesOnly_print|intros w1].
    apply IssuesOnly_seq; [apply IssuesOnly_runGit; now split|intros w2].
    apply IssuesOnly_seq; [apply IssuesOnly_runGit; now split|intros w3].
    apply IH. intros f Hin. apply Hi. now right.
Qed.

Lemma IssuesOnly_first_cleanup (G : Gateway) info (w : World G) :
  IssuesOnly (skillExtractionCommand info)
             (cleanup (SkillExtractor.SourceBranch info)
                      (SkillExtractor.branchPrefix ++ "/"
                       ++ take 7 (SkillExtractor.SHA info))) w.
Proof.
  unfold cleanup.
  repeat (apply IssuesOnly_seq;
          [apply IssuesOnly_runGit; cbn [skillExtractionCommand]; auto
          |intros ?]).
  apply IssuesOnly_ret.
Qed.

Lemma IssuesOnly_first_generatePRURL (G : Gateway) info branch (w : World G) :
  IssuesOnly (skillExtractionCommand info)
             (SkillExtractor.generatePRURL branch) w.
Proof.
  unfold SkillExtractor.generatePRURL.
  apply IssuesOnly_bind; [now apply IssuesOnly_runGit|].
  intros [remoteURL [e|]] w1 _; [apply IssuesOnly_ret|].
  cbv zeta. destruct (_ =? ""); apply IssuesOnly_ret.
Qed.

(** X16.  However it ends, an extraction of the first variant creates,
    pushes and deletes no branch but skill-update/ followed by the first
    seven bytes of the identifier, created from main; it switches to the
    source branch only, and never by force; it cherry-picks the commit
    analysed only; it unstages and restores files only for a mixed commit,
    and then only other files of the commit; and the only setting it reads
    is the address of the remote. *)
Theorem first_variant_touches_only_its_branch
        (G : Gateway) (info : SkillExtractor.CommitInfo) (w : World G) :
  exists o w' issued,
    SkillExtractor.extractSkills info w = (o, w')
    /\ trace w' = (trace w ++ issued)%list
    /\ Forall (skillExtractionCommand info) issued
    /\ (forall branch, ~ In (CheckoutForce branch) issued)
    /\ (forall file,
           In (RestoreStaged file) issued \/ In (RestoreWorktree file) issued ->
           SkillExtractor.IsMixed info = true
           /\ In file (SkillExtractor.OtherFiles info)).
Proof.
  assert (H : IssuesOnly (skillExtractionCommand info)
                         (SkillExtractor.extractSkills info) w).
  { unfold SkillExtractor.extractSkills. apply IssuesOnly_bind.
    { destruct (Nat.lt_ge_cases (String.length (SkillExtractor.SHA info)) 7)
        as [Hlt|Hge].
      - eexists _, w, []. split; [apply (sliceTo_short _ _ w Hlt)|].
        split; [now rewrite app_nil_r|constructor].
      - eexists _, w, []. split; [apply (sliceTo_long _ _ w Hge)|].
        split; [now rewrite app_nil_r|constructor]. }
    intros shortSHA wa Hs.
    assert (shortSHA = take 7 (SkillExtractor.SHA info)) as ->.
    { destruct (Nat.lt_ge_cases (String.length (SkillExtractor.SHA info)) 7)
        as [Hlt|Hge].
      - rewrite (sliceTo_short _ _ w Hlt) in Hs. discriminate.
      - rewrite (sliceTo_long _ _ w Hge) in Hs. now injection Hs as <- _. }
    cbv zeta.
    do 5 (apply IssuesOnly_seq; [apply IssuesOnly_print|intros ?]).
    apply IssuesOnly_seq;
      [destruct (SkillExtractor.IsMixed info); apply IssuesOnly_print
      |intros ?].
    do 2 (apply IssuesOnly_seq; [apply IssuesOnly_print|intros ?]).
    apply IssuesOnly_bind; [apply IssuesOnly_runGit; now split|].
    intros [out [e|]] wb _; [apply IssuesOnly_ret|].
    apply IssuesOnly_seq; [apply IssuesOnly_print|intros ?].
    apply IssuesOnly_bind; [now apply IssuesOnly_runGit|].
    intros [out' [e|]] wc _.
    { apply IssuesOnly_seq; [apply IssuesOnly_first_cleanup|intros ?].
      apply IssuesOnly_ret. }
    apply IssuesOnly_seq.
    { destruct (SkillExtractor.IsMixed info) eqn:Hm; [|apply IssuesOnly_ret].
      apply IssuesOnly_seq; [apply IssuesOnly_print|intros ?].
      apply IssuesOnly_removeOthers; [exact Hm|apply incl_refl]. }
    intros wd. cbv zeta.
    apply IssuesOnly_bind; [now apply IssuesOnly_runGit|].
    intros [out3 [e|]] we _.
    { apply IssuesOnly_seq; [apply IssuesOnly_first_cleanup|intros ?].
      apply IssuesOnly_ret. }
    do 2 (apply IssuesOnly_seq; [apply IssuesOnly_print|intros ?]).
    apply IssuesOnly_bind; [now apply IssuesOnly_runGit|].
    intros [out5 perr] wf _.
    apply IssuesOnly_seq; [destruct perr; apply IssuesOnly_print|intros ?].
    apply IssuesOnly_bind; [now apply IssuesOnly_runGit|].
    intros [out6 [e|]] wg _; [apply IssuesOnly_ret|].
    apply IssuesOnly_bind;
      [apply IssuesOnly_first_generatePRURL|intros prURL wh _].
    do 2 (apply IssuesOnly_seq; [apply IssuesOnly_print|intros ?]).
    apply IssuesOnly_ret. }
  destruct H as (o & w' & issued & E & T & F).
  exists o, w', issued. split; [exact E|]. split; [exact T|].
  split; [exact F|]. rewrite Forall_forall in F. split.
  - intros branch Hin. exact (F _ Hin).
  - intros file [Hin|Hin]; exact (F _ Hin).
Qed.

Lemma Total_removeOthers (G : Gateway) files :
  Total (G := G) (SkillExtractor.removeOthers files).
Proof.
  induction files as [|file rest IH]; cbn [SkillExtractor.removeOthers].
  - apply Total_ret.
  - apply Total_bind; [apply Total_print|intros _].
    do 2 (apply Total_bind; [apply Total_runGit|intros _]).
    exact IH.
Qed.

Lemma Total_first_generatePRURL (G : Gateway) branch :
  Total (G := G) (SkillExtractor.generatePRURL branch).
Proof.
  apply Total_bind; [apply Total_runGit|].
  intros [remoteURL [e|]]; [apply Total_ret|].
  cbv zeta. destruct (_ =? ""); apply Total_ret.
Qed.

(** An extraction of the first variant panics on an identifier shorter
    than seven bytes, at once, and returns on any other. *)
Lemma extractSkills_outcomes (G : Gateway) info (w : World G) :
  (String.length (SkillExtractor.SHA info) < 7
   /\ SkillExtractor.extractSkills info w
      = (Panic (sliceFailure (String.length (SkillExtractor.SHA info))), w))
  \/ (7 <= String.length (SkillExtractor.SHA info)
      /\ exists err w',
          SkillExtractor.extractSkills info w = (Ret err, w')).
Proof.
  destruct (Nat.lt_ge_cases (String.length (SkillExtractor.SHA info)) 7)
    as [Hlt|Hge]; [left|right]; (split; [assumption|]);
    unfold SkillExtractor.extractSkills.
  - now rewrite (bind_Panic _ _ _ _ _ (sliceTo_short _ _ w Hlt)).
  - rewrite (bind_Ret _ _ _ _ _ (sliceTo_long _ _ w Hge)). cbv zeta.
    match goal with |- exists err w', ?m w = _ =>
      assert (Hk : Total m); [|destruct (Hk w) as (err & w' & t & E & _)]
    end; [|now exists err, w'].
    do 5 (apply Total_bind; [apply Total_print|intros _]).
    apply Total_bind;
      [destruct (SkillExtractor.IsMixed info); apply Total_print|intros _].
    do 2 (apply Total_bind; [apply Total_print|intros _]).
    apply Total_bind; [apply Total_runGit|].
    intros [out [e|]]; [apply Total_ret|].
    apply Total_bind; [apply Total_print|intros _].
    apply Total_bind; [apply Total_runGit|].
    intros [out' [e|]].
    { apply Total_bind; [apply Total_cleanup|intros _; apply Total_ret]. }
    apply Total_bind.
    { destruct (SkillExtractor.IsMixed info); [|apply Total_ret].
      apply Total_bind; [apply Total_print|intros _].
      apply Total_removeOthers. }
    intros _. apply Total_bind; [apply Total_runGit|].
    intros [out3 [e|]].
    { apply Total_bind; [apply Total_cleanup|intros _; apply Total_ret]. }
    do 2 (apply Total_bind; [apply Total_print|intros _]).
    apply Total_bind; [apply Total_runGit|].
    intros [out5 perr].
    apply Total_bind; [destruct perr; apply Total_print|intros _].
    apply Total_bind; [apply Total_runGit|].
    intros [out6 [e|]]; [apply Total_ret|].
    apply Total_bind; [apply Total_first_generatePRURL|intros prURL].
    do 2 (apply Total_bind; [apply Total_print|intros _]).
    apply Total_ret.
Qed.

(** The analysis of the first variant always returns, and keeps the
    identifier it was given. *)
Lemma first_variant_analyzeCommit_returns (G : Gateway) sha (w : World G) :
  exists res w',
    SkillExtractor.analyzeCommit sha w = (Ret res, w')
    /\ stdout w' = stdout w
    /\ match res with
       | inl info => SkillExtractor.SHA info = sha
       | inr _ => True
       end.
Proof.
  unfold SkillExtractor.analyzeCommit.
  rewrite (bind_Ret _ _ _ _ _ (runGit_run _ w)).
  destruct (gitErr (LogMessage sha) (repo w));
    [eexists _, _; split; [reflexivity|now split]|].
  rewrite (bind_Ret _ _ _ _ _ (runGit_run _ _)).
  destruct (gitErr CurrentBranch _);
    [eexists _, _; split; [reflexivity|now split]|].
  rewrite (bind_Ret _ _ _ _ _ (runGit_run _ _)).
  destruct (gitErr (DiffTree sha) _);
    [eexists _, _; split; [reflexivity|now split]|].
  cbv zeta. rewrite first_variant_classifyFiles_run.
  eexists _, _. split; [reflexivity|]. now split.
Qed.

(** X17.  The first variant ends in one of three ways too.  It returns
    (status 0) only when given a commit.  It exits with status 1 after the
    usage lines when given none, after "Error analyzing commit: " and the
    error when the analysis failed, or after "Error extracting skills: " and
    the error when the extraction failed; that line is the last one
    printed.  It panics only on an identifier shorter than seven bytes,
    and then nothing was printed. *)
Theorem first_variant_ends_with_status_0_1_or_2
        (G : Gateway) (args : list string) (w : World G) :
  let sha := nth 1 args "" in
  exists o w',
    SkillExtractor.main args w = (o, w')
    /\ exitStatus o <= 2
    /\ match o with
       | Ret _ => 2 <= List.length args
       | Exit code =>
           code = 1
           /\ exists line w1,
               w' = printed line w1
               /\ ((List.length args < 2
                    /\ line = "This tool is meant to be run as a git post-commit hook"
                              ++ nl
                    /\ w1 = printed ("Usage: skill-extractor <commit-sha>" ++ nl) w)
                   \/ (2 <= List.length args
                       /\ exists e,
                           (line = "Error analyzing commit: " ++ Error e ++ nl
                            /\ exists w0,
                                SkillExtractor.analyzeCommit sha w0
                                = (Ret (inr e), w1))
                           \/ (line = "Error extracting skills: " ++ Error e ++ nl
                               /\ exists info w0,
                                   SkillExtractor.extractSkills info w0
                                   = (Ret (Some e), w1))))
       | Panic msg =>
           2 <= List.length args
           /\ String.length sha < 7
           /\ msg = sliceFailure (String.length sha)
           /\ stdout w' = stdout w
       end.
Proof.
  intros sha. unfold SkillExtractor.main.
  destruct (List.length args <? 2)%nat eqn:Hn.
  { apply Nat.ltb_lt in Hn. eexists _, _. split; [reflexivity|].
    split; [simpl; lia|]. split; [reflexivity|].
    eexists _, _. split; [reflexivity|]. left. now repeat split. }
  apply Nat.ltb_ge in Hn. cbv zeta. fold sha.
  rewrite (bind_Ret _ _ _ _ _ (runGit_run _ w)).
  match goal with |- context [if ?b then _ else _] => destruct b end.
  { eexists _, _. split; [reflexivity|]. split; [simpl; lia|exact Hn]. }
  match goal with |- context [bind (SkillExtractor.analyzeCommit sha) _ ?x] =>
    destruct (first_variant_analyzeCommit_returns G sha x)
      as (res & w2 & Ha & Sa & Hs)
  end.
  rewrite (bind_Ret _ _ _ _ _ Ha). destruct res as [info|e].
  - destruct (List.length (SkillExtractor.SkillFiles info) =? 0)%nat.
    { eexists _, _. split; [reflexivity|]. split; [simpl; lia|exact Hn]. }
    destruct (extractSkills_outcomes G info w2)
      as [(Hlt & Ex)|(Hge & err & w3 & Ex)].
    + rewrite (bind_Panic _ _ _ _ _ Ex). rewrite Hs in *.
      eexists _, _. split; [reflexivity|]. split; [simpl; lia|].
      split; [exact Hn|]. split; [exact Hlt|]. split; [reflexivity|].
      exact Sa.
    + rewrite (bind_Ret _ _ _ _ _ Ex). destruct err as [e|].
      * eexists _, _. split; [reflexivity|]. split; [simpl; lia|].
        split; [reflexivity|]. eexists _, _. split; [reflexivity|].
        right. split; [exact Hn|]. exists e. right.
        split; [reflexivity|]. now exists info, w2.
      * eexists _, _. split; [reflexivity|]. split; [simpl; lia|exact Hn].
  - eexists _, _. split; [reflexivity|]. split; [simpl; lia|].
    split; [reflexivity|]. eexists _, _. split; [reflexivity|].
    right. split; [exact Hn|]. exists e. left. split; [reflexivity|].
    eexists. exact Ha.
Qed.
